(** * Selector-doc: annotation store, coordinate normalizer, exports

    A shallow embedding of
    - [src/types/annotation.ts]            (the data model),
    - [src/hooks/use-annotations.ts]       (the annotation store),
    - [src/components/annotation-list.tsx] (the drag gesture and the overlay
                                            of [PdfViewerClient]),
    - [src/lib/pdf-export.ts]              (the JSON, CSV and PDF exports).

    JavaScript numbers are IEEE-754 binary64 values.  The arithmetic the
    program uses is collected in the class [JsNumber]; the instance
    [binary64] is the arithmetic the program runs with (Rocq's primitive
    floats), the instance [exact] is the arithmetic of the rationals and
    serves to say what holds up to rounding. *)

From Stdlib Require Import ZArith QArith Qcanon Qcabs Qround String Ascii List Lia.
From Stdlib Require Import Floats.PrimFloat Floats.FloatOps Floats.SpecFloat.
From Stdlib Require Import Numbers.Cyclic.Int63.Uint63.
From Stdlib Require Import DecimalString.
From stdpp Require Import base gmap sets list strings sorting.

Set Warnings "-inexact-float,-register-all".
Local Open Scope Z_scope.

(* ===================================================================== *)
(** ** Numbers *)
(* ===================================================================== *)

(** The operations of the JavaScript [number] type the program uses. *)
Class JsNumber (num : Type) : Type := {
  num_of_Z   : Z -> num;            (* an integer literal *)
  num_sub    : num -> num -> num;   (* a - b *)
  num_mul    : num -> num -> num;   (* a * b *)
  num_div    : num -> num -> num;   (* a / b *)
  num_ltb    : num -> num -> bool;  (* a < b *)
  Math_abs   : num -> num;
  Math_min   : num -> num -> num;
  Math_round : num -> num;
  Number_isFinite : num -> bool;    (* neither NaN nor an infinity *)
}.

Module Binary64.

(** [Math.min]: NaN if an argument is NaN, and -0 is smaller than +0. *)
Definition min (a b : float) : float :=
  if PrimFloat.is_nan a || PrimFloat.is_nan b then PrimFloat.nan
  else if PrimFloat.ltb a b then a
  else if PrimFloat.ltb b a then b
  else if PrimFloat.get_sign a then a else b.

Definition two52 : float := 4503599627370496%float.

(** [Math.round]: the integer closest to [x], a tie going towards
    +infinity; NaN, the infinities and integers are returned as they are;
    the result is -0 for [-0.5 <= x < 0].  Below 2^52 in magnitude,
    adding and subtracting 2^52 rounds to an integer [r] (ties to even),
    from which the floor [f] and then the result are obtained exactly. *)
Definition round (x : float) : float :=
  (if abs x <? two52 then
     let r := if 0 <=? x then (x + two52) - two52 else (x - two52) + two52 in
     let f := if x <? r then r - 1 else r in
     if f =? x then x
     else if (x - f) <? 0.5 then f
     else let c := f + 1 in if c =? 0 then (-0) else c
   else x)%float.

Definition of_Z (z : Z) : float :=
  match z with
  | Z0 => PrimFloat.zero
  | Zpos _ => PrimFloat.of_uint63 (Uint63.of_Z z)
  | Zneg p => PrimFloat.opp (PrimFloat.of_uint63 (Uint63.of_Z (Zpos p)))
  end.

Definition isFinite (x : float) : bool :=
  negb (PrimFloat.is_nan x || PrimFloat.is_infinity x).

End Binary64.

#[export] Instance binary64 : JsNumber float := {|
  num_of_Z   := Binary64.of_Z;
  num_sub    := PrimFloat.sub;
  num_mul    := PrimFloat.mul;
  num_div    := PrimFloat.div;
  num_ltb    := PrimFloat.ltb;
  Math_abs   := PrimFloat.abs;
  Math_min   := Binary64.min;
  Math_round := Binary64.round;
  Number_isFinite := Binary64.isFinite;
|}.

Module Exact.

Definition ltb (a b : Qc) : bool :=
  match Qccompare a b with Lt => true | _ => false end.

Definition min (a b : Qc) : Qc := if ltb b a then b else a.

Definition round (a : Qc) : Qc :=
  Q2Qc (inject_Z (Qfloor (Qcplus a (Q2Qc (1 # 2))))).

End Exact.

#[export] Instance exact : JsNumber Qc := {|
  num_of_Z   := fun z => Q2Qc (inject_Z z);
  num_sub    := Qcminus;
  num_mul    := Qcmult;
  num_div    := Qcdiv;
  num_ltb    := Exact.ltb;
  Math_abs   := Qcabs;
  Math_min   := Exact.min;
  Math_round := Exact.round;
  Number_isFinite := fun _ => true;
|}.

(* ===================================================================== *)
(** ** Data model ([src/types/annotation.ts]) *)
(* ===================================================================== *)

(** A [Date], as its time value (milliseconds since the epoch). *)
Definition Date : Type := Z.

(** [pageNumber] is a [number] in the source; the viewer only ever produces
    integers for it (it starts at 1 and moves by steps of 1), so it is an
    integer here. *)
Module Annotation.
Record t (num : Type) : Type := mk {
  id : string;
  x : num;
  y : num;
  width : num;
  height : num;
  pageNumber : Z;
  componentLabel : string;
  cssSelector : string;
  description : option string;    (* [description?: string] *)
  createdAt : Date;
  updatedAt : Date;
}.
Arguments mk {num}.
Arguments id {num}.
Arguments x {num}.
Arguments y {num}.
Arguments width {num}.
Arguments height {num}.
Arguments pageNumber {num}.
Arguments componentLabel {num}.
Arguments cssSelector {num}.
Arguments description {num}.
Arguments createdAt {num}.
Arguments updatedAt {num}.
End Annotation.

(** [Omit<Annotation, 'id' | 'createdAt' | 'updatedAt'>], the argument of
    [createAnnotation]. *)
Module AnnotationData.
Record t (num : Type) : Type := mk {
  x : num;
  y : num;
  width : num;
  height : num;
  pageNumber : Z;
  componentLabel : string;
  cssSelector : string;
  description : option string;
}.
Arguments mk {num}.
Arguments x {num}.
Arguments y {num}.
Arguments width {num}.
Arguments height {num}.
Arguments pageNumber {num}.
Arguments componentLabel {num}.
Arguments cssSelector {num}.
Arguments description {num}.
End AnnotationData.

(** [AnnotationFormData].  The optional key [description] is absent
    ([None]), or present with the value [undefined] ([Some None]) or with a
    string: an object spread copies a present key whatever its value. *)
Module AnnotationFormData.
Record t : Type := mk {
  componentLabel : string;
  cssSelector : string;
  description : option (option string);
}.
End AnnotationFormData.

Module PdfPageInfo.
Record t (num : Type) : Type := mk {
  pageNumber : Z;
  width : num;
  height : num;
  scale : num;
}.
Arguments mk {num}.
Arguments pageNumber {num}.
Arguments width {num}.
Arguments height {num}.
Arguments scale {num}.
End PdfPageInfo.

Module AnnotationState.
Record t (num : Type) : Type := mk {
  annotations : list (Annotation.t num);
  selectedAnnotation : option (Annotation.t num);
  isCreating : bool;
  editingAnnotation : option (Annotation.t num);
}.
Arguments mk {num}.
Arguments annotations {num}.
Arguments selectedAnnotation {num}.
Arguments isCreating {num}.
Arguments editingAnnotation {num}.
End AnnotationState.

(** The result of [getAnnotationStats]. *)
Module Stats.
Record t : Type := mk {
  total : Z;
  completed : Z;
  incomplete : Z;
  pages : Z;
}.
End Stats.

(* ===================================================================== *)
(** ** The annotation store ([src/hooks/use-annotations.ts]) *)
(* ===================================================================== *)

Section Store.
Context {num : Type}.

Local Abbreviation Ann := (Annotation.t num).
Local Abbreviation State := (AnnotationState.t num).

(** The initial value of [useState]. *)
Definition initialState : State :=
  AnnotationState.mk [] None false None.

(** [createAnnotation].  [newId] is the value [generateId()] returns and
    [now] the value of [new Date()]; the result is the state after the
    state update, with the annotation the function returns. *)
Definition createAnnotation (newId : string) (now : Date)
    (annotationData : AnnotationData.t num) (prev : State) : State * Ann :=
  let newAnnotation :=
    Annotation.mk newId
      (AnnotationData.x annotationData) (AnnotationData.y annotationData)
      (AnnotationData.width annotationData) (AnnotationData.height annotationData)
      (AnnotationData.pageNumber annotationData)
      (AnnotationData.componentLabel annotationData)
      (AnnotationData.cssSelector annotationData)
      (AnnotationData.description annotationData)
      now now in
  (AnnotationState.mk
     (AnnotationState.annotations prev ++ [newAnnotation])
     (Some newAnnotation)
     (AnnotationState.isCreating prev)
     (Some newAnnotation),
   newAnnotation).

(** [{ ...annotation, ...data, updatedAt: t }]. *)
Definition spreadFormData (annotation : Ann) (data : AnnotationFormData.t)
    (t : Date) : Ann :=
  Annotation.mk
    (Annotation.id annotation)
    (Annotation.x annotation) (Annotation.y annotation)
    (Annotation.width annotation) (Annotation.height annotation)
    (Annotation.pageNumber annotation)
    (AnnotationFormData.componentLabel data)
    (AnnotationFormData.cssSelector data)
    (match AnnotationFormData.description data with
     | Some d => d
     | None => Annotation.description annotation
     end)
    (Annotation.createdAt annotation)
    t.

(** The [annotations.map(...)] of [updateAnnotation].  Every matching
    element evaluates [new Date()]: [clock k] is the value of the [k]-th
    evaluation of [new Date()] during the update, and the second
    component counts the evaluations made so far. *)
Fixpoint updateAll (clock : nat -> Date) (k : nat) (id : string)
    (data : AnnotationFormData.t) (l : list Ann) : list Ann * nat :=
  match l with
  | [] => ([], k)
  | annotation :: rest =>
      if String.eqb (Annotation.id annotation) id then
        let '(rest', k') := updateAll clock (S k) id data rest in
        (spreadFormData annotation data (clock k) :: rest', k')
      else
        let '(rest', k') := updateAll clock k id data rest in
        (annotation :: rest', k')
  end.

(** [updateAnnotation]: the state updater passed to [setState]. *)
Definition updateAnnotation (clock : nat -> Date) (id : string)
    (data : AnnotationFormData.t) (prev : State) : State :=
  let '(annotations', k) :=
    updateAll clock 0%nat id data (AnnotationState.annotations prev) in
  AnnotationState.mk
    annotations'
    (match AnnotationState.selectedAnnotation prev with
     | Some selected =>
         if String.eqb (Annotation.id selected) id
         then Some (spreadFormData selected data (clock k))
         else Some selected
     | None => None
     end)
    (AnnotationState.isCreating prev)
    None.

(** [prev.selectedAnnotation?.id === id ? null : prev.selectedAnnotation]. *)
Definition clearIfId (id : string) (o : option Ann) : option Ann :=
  match o with
  | Some a => if String.eqb (Annotation.id a) id then None else Some a
  | None => None
  end.

Definition deleteAnnotation (id : string) (prev : State) : State :=
  AnnotationState.mk
    (List.filter (fun annotation => negb (String.eqb (Annotation.id annotation) id))
       (AnnotationState.annotations prev))
    (clearIfId id (AnnotationState.selectedAnnotation prev))
    (AnnotationState.isCreating prev)
    (clearIfId id (AnnotationState.editingAnnotation prev)).

Definition selectAnnotation (annotation : option Ann) (prev : State) : State :=
  AnnotationState.mk (AnnotationState.annotations prev) annotation
    (AnnotationState.isCreating prev) None.

Definition setEditingAnnotation (annotation : option Ann) (prev : State) : State :=
  AnnotationState.mk (AnnotationState.annotations prev)
    (AnnotationState.selectedAnnotation prev)
    (AnnotationState.isCreating prev) annotation.

Definition setIsCreating (isCreating : bool) (prev : State) : State :=
  AnnotationState.mk (AnnotationState.annotations prev)
    (AnnotationState.selectedAnnotation prev)
    isCreating
    (AnnotationState.editingAnnotation prev).

Definition clearAnnotations (_ : State) : State := initialState.

Definition getAnnotationsForPage (state : State) (pageNumber : Z) : list Ann :=
  List.filter (fun annotation => Z.eqb (Annotation.pageNumber annotation) pageNumber)
    (AnnotationState.annotations state).

(** A string is truthy when it is not empty. *)
Definition truthy (s : string) : bool :=
  match s with EmptyString => false | String _ _ => true end.

(** [annotation.componentLabel && annotation.cssSelector], as the
    [filter] reads it. *)
Definition isCompleted (annotation : Ann) : bool :=
  truthy (Annotation.componentLabel annotation)
  && truthy (Annotation.cssSelector annotation).

(** The body shared by [getAnnotationStats] of the hook and of
    [PdfExporter]: [new Set(...).size] is the size of a finite set. *)
Definition annotationStats (annotations : list Ann) : Stats.t :=
  let total := Z.of_nat (length annotations) in
  let completed := Z.of_nat (length (List.filter isCompleted annotations)) in
  let pages :=
    Z.of_nat (size (list_to_set (List.map Annotation.pageNumber annotations) : gset Z)) in
  Stats.mk total completed (total - completed) pages.

Definition getAnnotationStats (state : State) : Stats.t :=
  annotationStats (AnnotationState.annotations state).

(** The states the store goes through: the operations of the hook applied
    from the initial state, with any identifiers and clock values. *)
Inductive reachable : State -> Prop :=
| reach_init : reachable initialState
| reach_create newId now data st :
    reachable st -> reachable (fst (createAnnotation newId now data st))
| reach_update clock id data st :
    reachable st -> reachable (updateAnnotation clock id data st)
| reach_delete id st :
    reachable st -> reachable (deleteAnnotation id st)
| reach_select a st :
    reachable st -> reachable (selectAnnotation a st)
| reach_edit a st :
    reachable st -> reachable (setEditingAnnotation a st)
| reach_creating b st :
    reachable st -> reachable (setIsCreating b st)
| reach_clear st :
    reachable st -> reachable (clearAnnotations st).

End Store.

(* ===================================================================== *)
(** ** The drag gesture and the overlay ([PdfViewerClient], in
       [src/components/annotation-list.tsx]) *)
(* ===================================================================== *)

(** The [creatingRect] state of the viewer. *)
Module CreatingRect.
Record t (num : Type) : Type := mk {
  startX : num;
  startY : num;
  currentX : num;
  currentY : num;
}.
Arguments mk {num}.
Arguments startX {num}.
Arguments startY {num}.
Arguments currentX {num}.
Arguments currentY {num}.
End CreatingRect.

(** What the handlers read of a mouse event. *)
Module MouseEvent.
Record t (num : Type) : Type := mk {
  clientX : num;
  clientY : num;
}.
Arguments mk {num}.
Arguments clientX {num}.
Arguments clientY {num}.
End MouseEvent.

(** What [getRelativeCoordinates] reads of [getBoundingClientRect()]. *)
Module DOMRect.
Record t (num : Type) : Type := mk {
  left : num;
  top : num;
}.
Arguments mk {num}.
Arguments left {num}.
Arguments top {num}.
End DOMRect.

(** A point [{ x, y }] and a rectangle [{ x, y, width, height }] or
    [{ left, top, width, height }] of numbers. *)
Module Point.
Record t (num : Type) : Type := mk {
  x : num;
  y : num;
}.
Arguments mk {num}.
Arguments x {num}.
Arguments y {num}.
End Point.

Module Rect.
Record t (num : Type) : Type := mk {
  x : num;
  y : num;
  width : num;
  height : num;
}.
Arguments mk {num}.
Arguments x {num}.
Arguments y {num}.
Arguments width {num}.
Arguments height {num}.
End Rect.

(** The state of [PdfViewerClient] the gesture reads and writes. *)
Module Viewer.
Record t (num : Type) : Type := mk {
  pageNumber : Z;
  pageInfo : option (PdfPageInfo.t num);
  creatingRect : option (CreatingRect.t num);
}.
Arguments mk {num}.
Arguments pageNumber {num}.
Arguments pageInfo {num}.
Arguments creatingRect {num}.
End Viewer.

(** The calls a handler makes on the properties of the component. *)
Inductive Callback (num : Type) : Type :=
| onAnnotationCreate (annotation : AnnotationData.t num)
| onCreatingAnnotationChange (creating : bool).
Arguments onAnnotationCreate {num}.
Arguments onCreatingAnnotationChange {num}.

Section Gesture.
Context {num : Type} `{JsNumber num}.

Definition setCreatingRect (r : option (CreatingRect.t num))
    (v : Viewer.t num) : Viewer.t num :=
  Viewer.mk (Viewer.pageNumber v) (Viewer.pageInfo v) r.

(** [getRelativeCoordinates].  [pageRef] is the bounding rectangle of
    [pageRef.current], [None] when the reference is null. *)
Definition getRelativeCoordinates (pageRef : option (DOMRect.t num))
    (e : MouseEvent.t num) : option (Point.t num) :=
  match pageRef with
  | None => None
  | Some rect =>
      let x := num_sub (MouseEvent.clientX e) (DOMRect.left rect) in
      let y := num_sub (MouseEvent.clientY e) (DOMRect.top rect) in
      Some (Point.mk x y)
  end.

Definition handleMouseDown (isCreatingAnnotation : bool)
    (pageRef : option (DOMRect.t num)) (e : MouseEvent.t num)
    (v : Viewer.t num) : Viewer.t num :=
  if negb isCreatingAnnotation || negb (bool_decide (is_Some (Viewer.pageInfo v)))
  then v
  else
    match getRelativeCoordinates pageRef e with
    | None => v
    | Some coords =>
        setCreatingRect
          (Some (CreatingRect.mk (Point.x coords) (Point.y coords)
                                 (Point.x coords) (Point.y coords))) v
    end.

Definition handleMouseMove (pageRef : option (DOMRect.t num))
    (e : MouseEvent.t num) (v : Viewer.t num) : Viewer.t num :=
  match Viewer.creatingRect v with
  | None => v
  | Some prev =>
      match getRelativeCoordinates pageRef e with
      | None => v
      | Some coords =>
          setCreatingRect
            (Some (CreatingRect.mk (CreatingRect.startX prev) (CreatingRect.startY prev)
                                   (Point.x coords) (Point.y coords))) v
      end
  end.

(** The division of [handleMouseUp] (the four fields [x], [y], [width],
    [height] of [newAnnotation]). *)
Definition normalize (px : Rect.t num) (pageInfo : PdfPageInfo.t num) : Rect.t num :=
  Rect.mk (num_div (Rect.x px) (PdfPageInfo.width pageInfo))
          (num_div (Rect.y px) (PdfPageInfo.height pageInfo))
          (num_div (Rect.width px) (PdfPageInfo.width pageInfo))
          (num_div (Rect.height px) (PdfPageInfo.height pageInfo)).

(** [handleMouseUp]: the new state of the viewer and the calls made, in
    order. *)
Definition handleMouseUp (v : Viewer.t num) : Viewer.t num * list (Callback num) :=
  match Viewer.creatingRect v, Viewer.pageInfo v with
  | Some creatingRect, Some pageInfo =>
      let width :=
        Math_abs (num_sub (CreatingRect.currentX creatingRect)
                          (CreatingRect.startX creatingRect)) in
      let height :=
        Math_abs (num_sub (CreatingRect.currentY creatingRect)
                          (CreatingRect.startY creatingRect)) in
      if num_ltb width (num_of_Z 20) || num_ltb height (num_of_Z 20) then
        (setCreatingRect None v, [])
      else
        let x := Math_min (CreatingRect.startX creatingRect)
                          (CreatingRect.currentX creatingRect) in
        let y := Math_min (CreatingRect.startY creatingRect)
                          (CreatingRect.currentY creatingRect) in
        let frac := normalize (Rect.mk x y width height) pageInfo in
        let newAnnotation :=
          AnnotationData.mk (Rect.x frac) (Rect.y frac)
            (Rect.width frac) (Rect.height frac)
            (Viewer.pageNumber v) EmptyString EmptyString None in
        (setCreatingRect None v,
         [onAnnotationCreate newAnnotation; onCreatingAnnotationChange false])
  | _, _ => (v, [])
  end.

(** The numbers of the [style] of the overlay of an annotation:
    [left], [top], [width], [height], in pixels. *)
Definition overlayStyle (annotation : Rect.t num) (pageInfo : PdfPageInfo.t num)
    : Rect.t num :=
  Rect.mk (num_mul (Rect.x annotation) (PdfPageInfo.width pageInfo))
          (num_mul (Rect.y annotation) (PdfPageInfo.height pageInfo))
          (num_mul (Rect.width annotation) (PdfPageInfo.width pageInfo))
          (num_mul (Rect.height annotation) (PdfPageInfo.height pageInfo)).

(** The rectangle of a stored annotation. *)
Definition rectOf (annotation : Annotation.t num) : Rect.t num :=
  Rect.mk (Annotation.x annotation) (Annotation.y annotation)
          (Annotation.width annotation) (Annotation.height annotation).

(** [PdfAnnotationApp] passes [createAnnotation] for [onAnnotationCreate]
    and [setIsCreating] for [onCreatingAnnotationChange]; [newId] and [now]
    are what [generateId()] and [new Date()] return. *)
Definition runCallback (newId : string) (now : Date) (c : Callback num)
    (st : AnnotationState.t num) : AnnotationState.t num :=
  match c with
  | onAnnotationCreate annotation => fst (createAnnotation newId now annotation st)
  | onCreatingAnnotationChange creating => setIsCreating creating st
  end.

(** The mouse button released over the page: [handleMouseUp], and its
    calls applied to the store. *)
Definition mouseUp (newId : string) (now : Date)
    (v : Viewer.t num) (st : AnnotationState.t num)
    : Viewer.t num * AnnotationState.t num :=
  let '(v', calls) := handleMouseUp v in
  (v', fold_left (fun s c => runCallback newId now c s) calls st).

(** A whole gesture: button pressed at [down], moved to [move], released. *)
Definition gesture (isCreatingAnnotation : bool)
    (pageRef : option (DOMRect.t num)) (down move : MouseEvent.t num)
    (v : Viewer.t num) : Viewer.t num * list (Callback num) :=
  handleMouseUp
    (handleMouseMove pageRef move
       (handleMouseDown isCreatingAnnotation pageRef down v)).

End Gesture.

(* ===================================================================== *)
(** ** The exports ([src/lib/pdf-export.ts]) *)
(* ===================================================================== *)

(** *** The style sources of the live document *)

(** An element [querySelectorAll('style, link[rel="stylesheet"]')]
    returns: a [<link>] (an [HTMLLinkElement]), an HTML [<style>] (an
    [HTMLStyleElement]) or the [<style>] of an SVG (an [SVGStyleElement],
    which is not an [HTMLElement]). *)
Inductive StyleNode : Type :=
| HTMLLinkElement (href : string) (disabled : bool)
| HTMLStyleElement (textContent : string)
| SVGStyleElement (textContent : string).

(** An entry of [originalStylesheets].  [element] is a reference to the
    element: its position among the style sources of the document. *)
Module OriginalStylesheet.
Record t : Type := mk {
  element : nat;
  href : option string;
  content : option string;
}.
End OriginalStylesheet.

(** The part of [document] the export touches: the style sources in
    document order, the temporary [<style>] element when it is a child of
    [document.head] (with its text), and the number of clones of the
    container that are children of [document.body]. *)
Module Document.
Record t : Type := mk {
  styleSources : list StyleNode;
  tempStylesheet : option string;
  cleanContainers : nat;
}.
End Document.

(** A value thrown: [new Error(message)]. *)
Inductive JsError : Type := Error (message : string).

(** How a call completes. *)
Inductive Completion (A : Type) : Type :=
| Normal (value : A)
| Throw (error : JsError).
Arguments Normal {A}.
Arguments Throw {A}.

Module Canvas.
Record t (num : Type) : Type := mk {
  width : num;
  height : num;
}.
Arguments mk {num}.
Arguments width {num}.
Arguments height {num}.
End Canvas.

Inductive Format : Type := pdf | json | csv.

Module ExportOptions.
Record t : Type := mk {
  includeAnnotations : bool;
  includeMetadata : bool;
  format : Format;
  filename : option string;
}.
End ExportOptions.

(** The position sub-object and a record of the JSON export. *)
Module JsonAnnotation.
Record t (num : Type) : Type := mk {
  id : string;
  componentLabel : string;
  cssSelector : string;
  description : option string;
  page : Z;
  position : Rect.t num;
  createdAt : Date;
  updatedAt : Date;
}.
Arguments mk {num}.
Arguments id {num}.
Arguments componentLabel {num}.
Arguments cssSelector {num}.
Arguments description {num}.
Arguments page {num}.
Arguments position {num}.
Arguments createdAt {num}.
Arguments updatedAt {num}.
End JsonAnnotation.

Module JsonMetadata.
Record t : Type := mk {
  exportDate : string;
  totalAnnotations : Z;
  stats : Stats.t;     (* [...this.getAnnotationStats()] *)
}.
End JsonMetadata.

Module ExportData.
Record t (num : Type) : Type := mk {
  metadata : JsonMetadata.t;
  annotations : list (JsonAnnotation.t num);
}.
Arguments mk {num}.
Arguments metadata {num}.
Arguments annotations {num}.
End ExportData.

(** The document [jsPDF] builds: the orientation, the image of the first
    page and the lines of text written after it, in order.  Where a line
    lands on its page is left to jsPDF. *)
Module PdfDoc.
Record t (num : Type) : Type := mk {
  landscape : bool;
  format : num * num;
  text : list string;
}.
Arguments mk {num}.
Arguments landscape {num}.
Arguments format {num}.
Arguments text {num}.
End PdfDoc.

(** A JSON text, given by its structure: [null], a number by the text of
    the number, a string, an array, an object by its members in order.
    The layout of the text (the indentation [JSON.stringify] is asked for,
    the escapes inside a string) is left out. *)
Inductive Json : Type :=
| JsonNull
| JsonNumber (text : string)
| JsonString (value : string)
| JsonArray (elements : list Json)
| JsonObject (members : list (string * Json)).

(** The member [key] of an object and the element at [index] of an
    array. *)
Definition member (key : string) (j : Json) : option Json :=
  match j with
  | JsonObject members =>
      match List.find (fun m => String.eqb (fst m) key) members with
      | Some m => Some (snd m)
      | None => None
      end
  | _ => None
  end.

Definition element (index : nat) (j : Json) : option Json :=
  match j with
  | JsonArray elements => elements !! index
  | _ => None
  end.

(** What [downloadBlob] and [pdf.save] hand to the browser: the text of
    the JSON export, the text of the CSV export, the document of jsPDF. *)
Inductive Payload (num : Type) : Type :=
| JsonBlob (text : Json)
| CsvBlob (csvContent : string)
| PdfFile (doc : PdfDoc.t num).
Arguments JsonBlob {num}.
Arguments CsvBlob {num}.
Arguments PdfFile {num}.

(** What [exportAsPdf] does, in the order it does it. *)
Inductive Event : Type :=
| EvReplaceAllStylesheets
| EvAnimationFrames
| EvAppendCleanContainer
| EvHtml2canvas
| EvRemoveCleanContainer
| EvSave
| EvConsoleError (inner : JsError)
| EvRestoreOriginalStylesheets.

(** The state an export runs in.  [arrays] is the heap of annotation
    arrays: a [PdfExporter] holds a reference to the array its caller
    passed, not a copy. *)
Module World.
Record t (num : Type) : Type := mk {
  document : Document.t;
  arrays : gmap nat (list (Annotation.t num));
  downloads : list (string * Payload num);
  log : list Event;
}.
Arguments mk {num}.
Arguments document {num}.
Arguments arrays {num}.
Arguments downloads {num}.
Arguments log {num}.
End World.

(** [class PdfExporter]: its field is a reference into [World.arrays]. *)
Module PdfExporter.
Record t : Type := mk {
  annotations : nat;
}.
End PdfExporter.

Definition createPdfExporter (annotations : nat) : PdfExporter.t :=
  PdfExporter.mk annotations.

(** The double quote character, and the [replace] of [exportAsCsv], which
    doubles every double quote of a cell. *)
Definition dquote : ascii := "034"%char.

Fixpoint escapeQuotes (cell : string) : string :=
  match cell with
  | EmptyString => EmptyString
  | String c rest =>
      if Ascii.eqb c dquote
      then String dquote (String dquote (escapeQuotes rest))
      else String c (escapeQuotes rest)
  end.

Definition quoteCell (cell : string) : string :=
  String dquote (escapeQuotes cell ++ String dquote EmptyString).

(** [s || fallback] on strings. *)
Definition orElse (s fallback : string) : string :=
  match s with EmptyString => fallback | String _ _ => s end.

(** The decimal text of an integer. *)
Definition Z_toString (z : Z) : string := NilZero.string_of_int (Z.to_int z).

Definition newline : string := String "010"%char EmptyString.

Definition csvHeaders : list string :=
  ["Component Label"; "CSS Selector"; "Description"; "Page";
   "X Position (%)"; "Y Position (%)"; "Width (%)"; "Height (%)";
   "Created Date"; "Updated Date"]%string.

(** [Array.prototype.sort] with the comparator
    [(a, b) => a.pageNumber - b.pageNumber]: a stable sort by ascending
    page number. *)
Fixpoint insertByPage {num : Type} (a : Annotation.t num)
    (l : list (Annotation.t num)) : list (Annotation.t num) :=
  match l with
  | [] => [a]
  | b :: rest =>
      if Z.leb (Annotation.pageNumber a) (Annotation.pageNumber b)
      then a :: b :: rest
      else b :: insertByPage a rest
  end.

Fixpoint sortByPage {num : Type} (l : list (Annotation.t num))
    : list (Annotation.t num) :=
  match l with
  | [] => []
  | a :: rest => insertByPage a (sortByPage rest)
  end.

(** How the calls [exportAsPdf] makes on the canvas and on jsPDF after the
    capture complete, each of which may throw inside the [try]:
    [canvas.toDataURL] (line 93), [new jsPDF] (lines 94-98), [pdf.addImage]
    (line 100), the calls of [addMetadataPage] before the sort (lines
    492-524: [addPage], [setFontSize], [setFont], [text]), the calls of the
    [forEach] after it (lines 529-553) and [pdf.save] (line 106). *)
Module PdfSteps.
Record t : Type := mk {
  toDataURL : Completion unit;
  newJsPDF : Completion unit;
  addImage : Completion unit;
  pageHeader : Completion unit;
  pageEntries : Completion unit;
  save : Completion unit
}.
End PdfSteps.

(** Every call after the capture returns. *)
Definition allReturn : PdfSteps.t :=
  PdfSteps.mk (Normal tt) (Normal tt) (Normal tt) (Normal tt) (Normal tt)
              (Normal tt).

(** [pdf.save] throws, the calls before it return. *)
Definition saveFails : PdfSteps.t :=
  PdfSteps.mk (Normal tt) (Normal tt) (Normal tt) (Normal tt) (Normal tt)
              (Throw (Error "save failed")).

(** [pdf.addPage], the first call of [addMetadataPage], throws. *)
Definition addPageFails : PdfSteps.t :=
  PdfSteps.mk (Normal tt) (Normal tt) (Normal tt)
              (Throw (Error "addPage failed")) (Normal tt) (Normal tt).

Section Exports.
Context {num : Type} `{JsNumber num}.

(** Functions of the host and of jsPDF the exports call: [toString] of a
    number, [toISOString] and [toLocaleString] of a date, the constant text
    [getSafeCompleteStylesheet()] returns, and jsPDF's [splitTextToSize]. *)
Variable Number_toString : num -> string.
Variable Date_toISOString : Date -> string.
Variable Date_toLocaleString : Date -> string.
Variable safeCompleteStylesheet : string.
Variable splitTextToSize : string -> list string.

Local Abbreviation Ann := (Annotation.t num).
Local Abbreviation W := (World.t num).

(** A computation on the world that returns or throws. *)
Definition M (A : Type) : Type := W -> W * Completion A.

Definition ret {A : Type} (a : A) : M A := fun w => (w, Normal a).

Definition bind {A B : Type} (m : M A) (k : A -> M B) : M B :=
  fun w =>
    match m w with
    | (w', Normal a) => k a w'
    | (w', Throw e) => (w', Throw e)
    end.

Definition throw {A : Type} (e : JsError) : M A := fun w => (w, Throw e).

(** [try { body } catch (error) { handler }]. *)
Definition tryCatch {A : Type} (body : M A) (handler : JsError -> M A) : M A :=
  fun w =>
    match body w with
    | (w', Normal a) => (w', Normal a)
    | (w', Throw e) => handler e w'
    end.

(** [try { body } finally { finalizer }]: the finalizer runs however the
    body completes, and the completion of the body stands unless the
    finalizer throws. *)
Definition tryFinally {A : Type} (body : M A) (finalizer : M unit) : M A :=
  fun w =>
    match body w with
    | (w', c) =>
        match finalizer w' with
        | (w'', Normal _) => (w'', c)
        | (w'', Throw e) => (w'', Throw e)
        end
    end.

Notation "x <- m ;; k" := (bind m (fun x => k))
  (at level 100, m at next level, right associativity).
Notation "m ;;; k" := (bind m (fun _ => k))
  (at level 100, right associativity).

Definition emit (e : Event) : M unit :=
  fun w => (World.mk (World.document w) (World.arrays w) (World.downloads w)
                     (World.log w ++ [e]), Normal tt).

Definition getDocument : M Document.t := fun w => (w, Normal (World.document w)).

Definition setDocument (d : Document.t) : M unit :=
  fun w => (World.mk d (World.arrays w) (World.downloads w) (World.log w), Normal tt).

Definition readArray (ref : nat) : M (list Ann) :=
  fun w => (w, Normal (default [] (World.arrays w !! ref))).

Definition writeArray (ref : nat) (l : list Ann) : M unit :=
  fun w => (World.mk (World.document w) (<[ref := l]> (World.arrays w))
                     (World.downloads w) (World.log w), Normal tt).

(** A call of the host that returns or throws as [c] says. *)
Definition call (c : Completion unit) : M unit := fun w => (w, c).

Definition download (name : string) (p : Payload num) : M unit :=
  fun w => (World.mk (World.document w) (World.arrays w)
                     (World.downloads w ++ [(name, p)]) (World.log w), Normal tt).

(** *** Style isolation *)

(** The entry [replaceAllStylesheets] pushes for the element at position
    [i]; an element that is not an [HTMLElement] is skipped. *)
Definition snapshotOf (i : nat) (n : StyleNode) : option OriginalStylesheet.t :=
  match n with
  | HTMLLinkElement href _ => Some (OriginalStylesheet.mk i (Some href) None)
  | HTMLStyleElement textContent =>
      Some (OriginalStylesheet.mk i None (Some (orElse textContent EmptyString)))
  | SVGStyleElement _ => None
  end.

(** "Disable the stylesheet". *)
Definition suppress (n : StyleNode) : StyleNode :=
  match n with
  | HTMLLinkElement href _ => HTMLLinkElement href true
  | HTMLStyleElement _ => HTMLStyleElement EmptyString
  | SVGStyleElement textContent => SVGStyleElement textContent
  end.

(** What [replaceAllStylesheets] pushes on [originalStylesheets]: an entry
    for every style source that is an [HTMLElement], in document order. *)
Definition snapshot (existingStyles : list StyleNode) : list OriginalStylesheet.t :=
  omap id (imap snapshotOf existingStyles).

(** [replaceAllStylesheets]: what it does to the document.  The entries it
    pushes on the array it is given are [snapshot]. *)
Definition replaceAllStylesheets : M unit :=
  d <- getDocument ;;
  let existingStyles := Document.styleSources d in
  setDocument (Document.mk (List.map suppress existingStyles)
                           (Some safeCompleteStylesheet)
                           (Document.cleanContainers d)) ;;;
  emit EvReplaceAllStylesheets.

(** The body of the [forEach] of [restoreOriginalStylesheets], on the
    element the entry refers to. *)
Definition restoreOne (styles : list StyleNode) (entry : OriginalStylesheet.t)
    : list StyleNode :=
  let element := OriginalStylesheet.element entry in
  match styles !! element with
  | Some (HTMLLinkElement href _) =>
      <[element := HTMLLinkElement href false]> styles
  | Some (HTMLStyleElement _) =>
      match OriginalStylesheet.content entry with
      | Some content => <[element := HTMLStyleElement content]> styles
      | None => styles
      end
  | _ => styles
  end.

Definition restoreOriginalStylesheets
    (originalStylesheets : list OriginalStylesheet.t) : M unit :=
  d <- getDocument ;;
  setDocument (Document.mk
                 (fold_left restoreOne originalStylesheets (Document.styleSources d))
                 None
                 (Document.cleanContainers d)) ;;;
  emit EvRestoreOriginalStylesheets ;;;
  emit EvAnimationFrames.

(** [document.body.appendChild(cleanContainer)] and its removal. *)
Definition appendCleanContainer : M unit :=
  d <- getDocument ;;
  setDocument (Document.mk (Document.styleSources d) (Document.tempStylesheet d)
                           (S (Document.cleanContainers d))) ;;;
  emit EvAppendCleanContainer.

Definition removeCleanContainer : M unit :=
  d <- getDocument ;;
  setDocument (Document.mk (Document.styleSources d) (Document.tempStylesheet d)
                           (pred (Document.cleanContainers d))) ;;;
  emit EvRemoveCleanContainer.

(** The call of [html2canvas]: it returns a canvas or throws, as [capture]
    says. *)
Definition html2canvas (capture : Completion (Canvas.t num)) : M (Canvas.t num) :=
  emit EvHtml2canvas ;;; (fun w => (w, capture)).

(** *** The metadata page *)

(** The lines [addMetadataPage] writes for the annotation at [index]. *)
Definition entryText (index : nat) (annotation : Ann) : list string :=
  let componentText :=
    (Z_toString (Z.of_nat index + 1) ++ ". "
       ++ orElse (Annotation.componentLabel annotation) "Unnamed Component")%string in
  let selectorText :=
    ("   Selector: "
       ++ orElse (Annotation.cssSelector annotation) "Not specified")%string in
  let pageText :=
    ("   Page: " ++ Z_toString (Annotation.pageNumber annotation))%string in
  [componentText; selectorText; pageText]
  ++ match Annotation.description annotation with
     | Some (String c rest) =>
         splitTextToSize ("   Description: " ++ String c rest)%string
     | _ => []
     end.

(** [addMetadataPage]: [this.annotations.sort(...)] sorts the array the
    exporter refers to, in place.  The calls of jsPDF that write the header
    come before the sort, so the sort is reached only when they return; the
    calls of the [forEach] come after it. *)
Definition addMetadataPage (steps : PdfSteps.t) (now : Date)
    (this : PdfExporter.t) (doc : PdfDoc.t num) : M (PdfDoc.t num) :=
  annotations <- readArray (PdfExporter.annotations this) ;;
  let stats := annotationStats annotations in
  let header :=
    ["UI Component Documentation";
     "Total Components: " ++ Z_toString (Stats.total stats);
     "Completed Annotations: " ++ Z_toString (Stats.completed stats);
     "Pages Annotated: " ++ Z_toString (Stats.pages stats);
     "Export Date: " ++ Date_toLocaleString now;
     "Component List:"]%string in
  call (PdfSteps.pageHeader steps) ;;;
  let sorted := sortByPage annotations in
  writeArray (PdfExporter.annotations this) sorted ;;;
  call (PdfSteps.pageEntries steps) ;;;
  ret (PdfDoc.mk (PdfDoc.landscape doc) (PdfDoc.format doc)
         (PdfDoc.text doc ++ header ++ concat (imap entryText sorted))).

(** *** [exportAsPdf] *)

Definition exportAsPdf (capture : Completion (Canvas.t num))
    (steps : PdfSteps.t) (now : Date) (this : PdfExporter.t)
    (filename : string) (options : ExportOptions.t) : M unit :=
  fun w0 =>
    (* [originalStylesheets] is declared before the [try] and filled by
       [replaceAllStylesheets], the first statement of the [try], which
       does not throw: the [finally] reads the entries of the style
       sources as the export found them *)
    let originalStylesheets :=
      snapshot (Document.styleSources (World.document w0)) in
    tryFinally
      (tryCatch
         (replaceAllStylesheets ;;;
          emit EvAnimationFrames ;;;
          appendCleanContainer ;;;
          canvas <- html2canvas capture ;;
          removeCleanContainer ;;;
          call (PdfSteps.toDataURL steps) ;;;
          call (PdfSteps.newJsPDF steps) ;;;
          let doc :=
            PdfDoc.mk (num_ltb (Canvas.height canvas) (Canvas.width canvas))
                      (Canvas.width canvas, Canvas.height canvas) [] in
          call (PdfSteps.addImage steps) ;;;
          doc' <- (if ExportOptions.includeMetadata options
                   then addMetadataPage steps now this doc
                   else ret doc) ;;
          call (PdfSteps.save steps) ;;;
          download (filename ++ ".pdf")%string (PdfFile doc') ;;;
          emit EvSave)
         (fun error =>
            emit (EvConsoleError error) ;;;
            throw (Error "Failed to export PDF")))
      (restoreOriginalStylesheets originalStylesheets)
      w0.

(** *** The JSON and CSV exports *)

Definition multiply100 (v : num) : num := Math_round (num_mul v (num_of_Z 100)).

Definition jsonAnnotation (annotation : Ann) : JsonAnnotation.t num :=
  JsonAnnotation.mk
    (Annotation.id annotation)
    (Annotation.componentLabel annotation)
    (Annotation.cssSelector annotation)
    (Annotation.description annotation)
    (Annotation.pageNumber annotation)
    (Rect.mk (multiply100 (Annotation.x annotation))
             (multiply100 (Annotation.y annotation))
             (multiply100 (Annotation.width annotation))
             (multiply100 (Annotation.height annotation)))
    (Annotation.createdAt annotation)
    (Annotation.updatedAt annotation).

(** The object [exportAsJson] serialises. *)
Definition exportData (now : Date) (annotations : list Ann) : ExportData.t num :=
  ExportData.mk
    (JsonMetadata.mk (Date_toISOString now)
                     (Z.of_nat (length annotations))
                     (annotationStats annotations))
    (List.map jsonAnnotation annotations).

(** [JSON.stringify] of a number: the text of the number when it is
    finite, [null] when it is NaN or an infinity. *)
Definition stringifyNumber (v : num) : Json :=
  if Number_isFinite v then JsonNumber (Number_toString v) else JsonNull.

(** [JSON.stringify] of a record of [annotations]: a member whose value
    is [undefined] is left out, and a [Date] is written as the string
    [toJSON] returns, which is [toISOString]. *)
Definition stringifyAnnotation (a : JsonAnnotation.t num) : Json :=
  JsonObject
    ([("id"%string, JsonString (JsonAnnotation.id a));
      ("componentLabel"%string, JsonString (JsonAnnotation.componentLabel a));
      ("cssSelector"%string, JsonString (JsonAnnotation.cssSelector a))]
     ++ match JsonAnnotation.description a with
        | Some description => [("description"%string, JsonString description)]
        | None => []
        end
     ++ [("page"%string, JsonNumber (Z_toString (JsonAnnotation.page a)));
         ("position"%string,
          JsonObject
            [("x"%string, stringifyNumber (Rect.x (JsonAnnotation.position a)));
             ("y"%string, stringifyNumber (Rect.y (JsonAnnotation.position a)));
             ("width"%string,
              stringifyNumber (Rect.width (JsonAnnotation.position a)));
             ("height"%string,
              stringifyNumber (Rect.height (JsonAnnotation.position a)))]);
         ("createdAt"%string, JsonString (Date_toISOString (JsonAnnotation.createdAt a)));
         ("updatedAt"%string,
          JsonString (Date_toISOString (JsonAnnotation.updatedAt a)))])%list.

(** [JSON.stringify(exportData, null, 2)]. *)
Definition JSON_stringify (data : ExportData.t num) : Json :=
  let metadata := ExportData.metadata data in
  let stats := JsonMetadata.stats metadata in
  JsonObject
    [("metadata",
      JsonObject
        [("exportDate", JsonString (JsonMetadata.exportDate metadata));
         ("totalAnnotations",
          JsonNumber (Z_toString (JsonMetadata.totalAnnotations metadata)));
         ("total", JsonNumber (Z_toString (Stats.total stats)));
         ("completed", JsonNumber (Z_toString (Stats.completed stats)));
         ("incomplete", JsonNumber (Z_toString (Stats.incomplete stats)));
         ("pages", JsonNumber (Z_toString (Stats.pages stats)))]);
     ("annotations",
      JsonArray (List.map stringifyAnnotation (ExportData.annotations data)))]%string.

Definition exportAsJson (now : Date) (this : PdfExporter.t) (filename : string)
    : M unit :=
  annotations <- readArray (PdfExporter.annotations this) ;;
  download (filename ++ ".json")%string
    (JsonBlob (JSON_stringify (exportData now annotations))).

(** A row of the CSV export, before the cells are quoted. *)
Definition csvRow (annotation : Ann) : list string :=
  [orElse (Annotation.componentLabel annotation) EmptyString;
   orElse (Annotation.cssSelector annotation) EmptyString;
   orElse (default EmptyString (Annotation.description annotation)) EmptyString;
   Z_toString (Annotation.pageNumber annotation);
   Number_toString (multiply100 (Annotation.x annotation));
   Number_toString (multiply100 (Annotation.y annotation));
   Number_toString (multiply100 (Annotation.width annotation));
   Number_toString (multiply100 (Annotation.height annotation));
   Date_toLocaleString (Annotation.createdAt annotation);
   Date_toLocaleString (Annotation.updatedAt annotation)].

Definition csvRows (annotations : list Ann) : list (list string) :=
  List.map csvRow annotations.

Definition csvContent (annotations : list Ann) : string :=
  String.concat newline
    (List.map (fun row => String.concat "," (List.map quoteCell row))
       (csvHeaders :: csvRows annotations)).

Definition exportAsCsv (this : PdfExporter.t) (filename : string) : M unit :=
  annotations <- readArray (PdfExporter.annotations this) ;;
  download (filename ++ ".csv")%string (CsvBlob (csvContent annotations)).

(** [exportAnnotatedPdf]. *)
Definition exportAnnotatedPdf (capture : Completion (Canvas.t num))
    (steps : PdfSteps.t) (now : Date) (this : PdfExporter.t)
    (options : ExportOptions.t) : M unit :=
  let filename :=
    match ExportOptions.filename options with
    | Some (String c rest) => String c rest
    | _ => ("annotated-pdf-" ++ Z_toString now)%string
    end in
  match ExportOptions.format options with
  | json => exportAsJson now this filename
  | csv => exportAsCsv this filename
  | pdf => exportAsPdf capture steps now this filename options
  end.

End Exports.

(* ===================================================================== *)
(** ** Sample data *)
(* ===================================================================== *)

(** The annotation of the scenario of the specification: the drag
    (100,100)-(300,200) on a page of 1000 x 800 pixels. *)
Definition scenarioPage : PdfPageInfo.t float :=
  PdfPageInfo.mk 1 1000%float 800%float 1.5%float.

Definition scenarioViewer : Viewer.t float :=
  Viewer.mk 1 (Some scenarioPage)
    (Some (CreatingRect.mk 100%float 100%float 300%float 200%float)).

Definition scenarioRect : Rect.t float :=
  Rect.mk 0.1%float 0.125%float 0.2%float 0.125%float.

Definition scenarioData : AnnotationData.t float :=
  AnnotationData.mk 0.1%float 0.125%float 0.2%float 0.125%float 1
    EmptyString EmptyString None.

Definition loginButton : Annotation.t float :=
  Annotation.mk "lx1a2b" 0.1%float 0.125%float 0.2%float 0.125%float 1
    "Login Button" "#login-btn" None 1000 2000.

Definition searchBox : Annotation.t float :=
  Annotation.mk "lx1a2c" 0.5%float 0.25%float 0.25%float 0.125%float 3
    EmptyString EmptyString None 3000 3000.

Definition footerLink : Annotation.t float :=
  Annotation.mk "lx1a2d" 0.25%float 0.75%float 0.125%float 0.0625%float 2
    "Footer" EmptyString (Some "bottom of the page"%string) 4000 4000.

Definition loginForm : AnnotationFormData.t :=
  AnnotationFormData.mk "Login Button" "#login-btn" (Some (Some EmptyString)).

(** A store with the editor open on its only annotation. *)
Definition editingState : AnnotationState.t float :=
  AnnotationState.mk [searchBox] (Some searchBox) false (Some searchBox).

(** A store after three creations, an update and a deletion. *)
Definition busyState : AnnotationState.t float :=
  deleteAnnotation "lx1a2c"
    (updateAnnotation (fun _ => 5000) "lx1a2b" loginForm
       (fst (createAnnotation "lx1a2d" 4000
               (AnnotationData.mk 0.25%float 0.75%float 0.125%float 0.0625%float 2
                  EmptyString EmptyString None)
          (fst (createAnnotation "lx1a2c" 3000
                  (AnnotationData.mk 0.5%float 0.25%float 0.25%float 0.125%float 3
                     EmptyString EmptyString None)
             (fst (createAnnotation "lx1a2b" 1000 scenarioData initialState))))))).

(** The page of the scenario shown at another zoom: 768 x 1024 pixels. *)
Definition zoomedPage : PdfPageInfo.t float :=
  PdfPageInfo.mk 1 768%float 1024%float 1.5%float.

(** A gesture that starts on the label of an annotation, which the viewer
    draws 24 pixels above the annotation and so above the page for an
    annotation at its top: the page is at (200, 100) in the window, the
    button is pressed at (250, 90) and released at (400, 300). *)
Definition labelPageRef : option (DOMRect.t float) :=
  Some (DOMRect.mk 200%float 100%float).

Definition labelDown : MouseEvent.t float := MouseEvent.mk 250%float 90%float.

Definition labelMove : MouseEvent.t float := MouseEvent.mk 400%float 300%float.

Definition idleViewer : Viewer.t float :=
  Viewer.mk 1 (Some scenarioPage) None.

(** The same data in exact arithmetic. *)
Definition exactRect : Rect.t Qc :=
  Rect.mk (Q2Qc (1 # 10)) (Q2Qc (1 # 8)) (Q2Qc (1 # 5)) (Q2Qc (1 # 8)).

Definition exactZoomedPage : PdfPageInfo.t Qc :=
  PdfPageInfo.mk 1 (Q2Qc 768) (Q2Qc 1024) (Q2Qc (3 # 2)).

(** A document with a style sheet in use, an inline style block, the
    style of an SVG icon, and an alternative theme that is switched off. *)
Definition sampleStyles : list StyleNode :=
  [HTMLLinkElement "/_next/static/css/app.css" false;
   HTMLStyleElement ":root { --background: oklch(1 0 0); }";
   SVGStyleElement ".icon { fill: currentColor; }";
   HTMLLinkElement "/themes/dark.css" true].

(** The world of an export: the array of the three sample annotations, on
    pages 1, 3 and 2, is at reference 0. *)
Definition sampleWorld : World.t float :=
  World.mk (Document.mk sampleStyles None 0)
           {[ 0%nat := [loginButton; searchBox; footerLink] ]} [] [].

Definition sampleCanvas : Canvas.t float := Canvas.mk 1600%float 1200%float.

Definition sampleOptions : ExportOptions.t :=
  ExportOptions.mk true true pdf (Some "annotated-ui-components"%string).

(** A style source as a cycle of suppression and restoration leaves it:
    a link is enabled, whatever it was; the text of a style block is
    what it was. *)
Definition restored (n : StyleNode) : StyleNode :=
  match n with
  | HTMLLinkElement href _ => HTMLLinkElement href false
  | HTMLStyleElement textContent => HTMLStyleElement textContent
  | SVGStyleElement textContent => SVGStyleElement textContent
  end.

(** A CSV row whose label and selector cells are both non-empty. *)
Definition rowCompleted (row : list string) : Prop :=
  row !! 0%nat <> Some EmptyString /\ row !! 1%nat <> Some EmptyString.

(** The order of page numbers on annotations. *)
Definition pageLe {num : Type} (a b : Annotation.t num) : Prop :=
  Annotation.pageNumber a <= Annotation.pageNumber b.

(** Host functions for the examples: the texts they produce play no part
    in the facts shown. *)
Definition plainDate (d : Date) : string := Z_toString d.

Definition oneLine (s : string) : list string := [s].

(* ===================================================================== *)
(** ** More of the program *)
(* ===================================================================== *)

(** *** The zoom and the page of the viewer ([PdfViewerClient]) *)

(** [PDF_CONFIG], of [src/lib/pdf-config]. *)
Module PDF_CONFIG.
Definition scale : float := 1.5%float.
Definition maxScale : float := 3.0%float.
Definition minScale : float := 0.5%float.
Definition scaleStep : float := 0.25%float.
End PDF_CONFIG.

(** [Math.max] on binary64: NaN if an argument is NaN, and +0 is larger
    than -0. *)
Definition Math_max64 (a b : float) : float :=
  if PrimFloat.is_nan a || PrimFloat.is_nan b then PrimFloat.nan
  else if PrimFloat.ltb a b then b
  else if PrimFloat.ltb b a then a
  else if PrimFloat.get_sign a then b else a.

(** The updaters [handleZoomIn], [handleZoomOut] and [handleResetZoom] pass
    to [setScale]. *)
Definition handleZoomIn (prev : float) : float :=
  Binary64.min (prev + PDF_CONFIG.scaleStep)%float PDF_CONFIG.maxScale.

Definition handleZoomOut (prev : float) : float :=
  Math_max64 (prev - PDF_CONFIG.scaleStep)%float PDF_CONFIG.minScale.

Definition handleResetZoom (_ : float) : float := PDF_CONFIG.scale.

(** The values the zoom takes: [useState(PDF_CONFIG.scale)] and the three
    handlers. *)
Inductive zoomReachable : float -> Prop :=
| zoom_init : zoomReachable PDF_CONFIG.scale
| zoom_in s : zoomReachable s -> zoomReachable (handleZoomIn s)
| zoom_out s : zoomReachable s -> zoomReachable (handleZoomOut s)
| zoom_reset s : zoomReachable s -> zoomReachable (handleResetZoom s).

Definition zoomLevels : list float :=
  [0.5; 0.75; 1; 1.25; 1.5; 1.75; 2; 2.25; 2.5; 2.75; 3]%float.

(** The updaters [handlePreviousPage] and [handleNextPage] pass to
    [setPageNumber]. *)
Definition handlePreviousPage (prev : Z) : Z := Z.max (prev - 1) 1.

Definition handleNextPage (numPages : Z) (prev : Z) : Z :=
  Z.min (prev + 1) numPages.

(** *** The list of annotations ([AnnotationList]) *)

Section Grouping.
Context {num : Type}.

Local Abbreviation Ann := (Annotation.t num).

(** The function [annotations.reduce] is given: the accumulator is the
    object whose keys are page numbers. *)
Definition groupStep (acc : gmap Z (list Ann)) (annotation : Ann)
    : gmap Z (list Ann) :=
  let page := Annotation.pageNumber annotation in
  let acc' :=
    match acc !! page with
    | None => <[page := []]> acc
    | Some _ => acc
    end in
  <[page := default [] (acc' !! page) ++ [annotation]]> acc'.

Definition groupedAnnotations (annotations : list Ann) : gmap Z (list Ann) :=
  fold_left groupStep annotations ∅.

(** [Object.keys(groupedAnnotations).map(Number).sort((a, b) => a - b)]:
    the keys, in ascending order. *)
Definition sortedPages (annotations : list Ann) : list Z :=
  merge_sort Z.le (elements (dom (groupedAnnotations annotations))).

(** The annotations the list shows, page after page. *)
Definition listedAnnotations (annotations : list Ann) : list Ann :=
  concat (List.map (fun pageNumber =>
                      default [] (groupedAnnotations annotations !! pageNumber))
            (sortedPages annotations)).

End Grouping.

(** *** The upload ([PdfUploader], [handleFileSelect] of the application) *)

(** What the uploader reads of a [File]. *)
Module File.
Record t : Type := mk {
  type : string;
  size : Z;
}.
End File.

Definition validateFile (file : File.t) : option string :=
  if negb (String.eqb (File.type file) "application/pdf") then
    Some "Please select a PDF file"%string
  else if 50 * 1024 * 1024 <? File.size file then
    Some "File size must be less than 50MB"%string
  else None.

(** [handleFile]: the new [error] state of the uploader and the file
    [onFileSelect] is called with, if it is called. *)
Definition handleFile (file : File.t) : option string * option File.t :=
  match validateFile file with
  | Some validationError => (Some validationError, None)
  | None => (None, Some file)
  end.

(** [handleDrop], on the files of the drop and the [error] state of
    before. *)
Definition handleDrop (files : list File.t) (error : option string)
    : option string * option File.t :=
  match files with
  | [] => (error, None)
  | file :: _ => handleFile file
  end.

(** [PdfViewerState], of [src/types/annotation.ts]. *)
Module PdfViewerState.
Record t : Type := mk {
  pdfFile : option File.t;
  currentPage : Z;
  totalPages : Z;
  scale : float;
  isLoading : bool;
  error : option string;
}.
End PdfViewerState.

(** [handleFileSelect] of [PdfAnnotationApp], on the two states it sets. *)
Definition handleFileSelect {num : Type} (file : File.t)
    (app : PdfViewerState.t * AnnotationState.t num)
    : PdfViewerState.t * AnnotationState.t num :=
  let prev := fst app in
  (PdfViewerState.mk (Some file) (PdfViewerState.currentPage prev)
     (PdfViewerState.totalPages prev) (PdfViewerState.scale prev) true None,
   clearAnnotations (snd app)).

(** A drop on the uploader, with [onFileSelect] being [handleFileSelect]. *)
Definition dropOnApp {num : Type} (files : list File.t) (error : option string)
    (app : PdfViewerState.t * AnnotationState.t num)
    : option string * (PdfViewerState.t * AnnotationState.t num) :=
  match handleDrop files error with
  | (error', Some file) => (error', handleFileSelect file app)
  | (error', None) => (error', app)
  end.

(** *** [handleExport] of the application *)

(** The states [handleExport] sets, and what it writes on the console. *)
Module ExportUi.
Record t : Type := mk {
  isExporting : bool;
  showExportDialog : bool;
  consoleErrors : list JsError;
}.
End ExportUi.

Section HandleExport.
Context {num : Type} `{JsNumber num}.
Variable Number_toString : num -> string.
Variable Date_toISOString : Date -> string.
Variable Date_toLocaleString : Date -> string.
Variable safeCompleteStylesheet : string.
Variable splitTextToSize : string -> list string.

(** [handleExport].  [annotations] is the reference of the array of the
    store, [pdfContainerRef] says whether [pdfContainerRef.current] is set. *)
Definition handleExport (capture : Completion (Canvas.t num))
    (steps : PdfSteps.t) (now : Date) (pdfContainerRef : bool)
    (annotations : nat) (format : Format) (ui : ExportUi.t) (w : World.t num)
    : ExportUi.t * World.t num :=
  match default [] (World.arrays w !! annotations) with
  | [] => (ui, w)
  | _ :: _ =>
      let exporter := createPdfExporter annotations in
      let options :=
        match format, pdfContainerRef with
        | pdf, true =>
            ExportOptions.mk true true pdf (Some "annotated-ui-components"%string)
        | _, _ =>
            ExportOptions.mk true true format (Some "ui-component-selectors"%string)
        end in
      match exportAnnotatedPdf Number_toString Date_toISOString Date_toLocaleString
              safeCompleteStylesheet splitTextToSize capture steps now
              exporter options w with
      | (w', Normal _) =>
          (ExportUi.mk false false (ExportUi.consoleErrors ui), w')
      | (w', Throw error) =>
          (ExportUi.mk false false (ExportUi.consoleErrors ui ++ [error]), w')
      end
  end.

End HandleExport.

(** *** The files of the exports *)

(** The double quotes of an escaped cell, counted from its start, come in
    pairs. *)
Fixpoint quotesPaired (s : string) : bool :=
  match s with
  | EmptyString => true
  | String c rest =>
      if Ascii.eqb c dquote then
        match rest with
        | String c' rest' => Ascii.eqb c' dquote && quotesPaired rest'
        | EmptyString => false
        end
      else quotesPaired rest
  end.

(** Where a reader of a CSV text stands: before a cell, inside the quotes
    of a cell, or after a double quote met inside them (the end of the
    cell, or the first of two double quotes that stand for one). *)
Inductive CsvPlace : Type := BeforeCell | InsideQuotes | AfterQuote.

(** A reader of the CSV texts whose cells are all written between double
    quotes: a double quote inside a cell is written twice, a comma after a
    cell starts the next cell of the row, a line feed after a cell starts
    the next row.  [cell] is the text read of the current cell, [row] the
    cells read of the current row, [rows] the rows read, all in order. *)
Fixpoint readCsvFrom (place : CsvPlace) (cell : string) (row : list string)
    (rows : list (list string)) (text : string) : option (list (list string)) :=
  match text with
  | EmptyString =>
      match place with
      | AfterQuote => Some (rows ++ [row ++ [cell]])
      | _ => None
      end
  | String c rest =>
      match place with
      | BeforeCell =>
          if Ascii.eqb c dquote
          then readCsvFrom InsideQuotes EmptyString row rows rest
          else None
      | InsideQuotes =>
          if Ascii.eqb c dquote
          then readCsvFrom AfterQuote cell row rows rest
          else readCsvFrom InsideQuotes (cell ++ String c EmptyString) row rows rest
      | AfterQuote =>
          if Ascii.eqb c dquote
          then readCsvFrom InsideQuotes (cell ++ String dquote EmptyString)
                 row rows rest
          else if Ascii.eqb c ","%char
          then readCsvFrom BeforeCell EmptyString (row ++ [cell]) rows rest
          else if Ascii.eqb c "010"%char
          then readCsvFrom BeforeCell EmptyString [] (rows ++ [row ++ [cell]]) rest
          else None
      end
  end.

Definition readCsv (text : string) : option (list (list string)) :=
  readCsvFrom BeforeCell EmptyString [] [] text.

(** [Number.prototype.toString] of a binary64 number, for the values
    [Math.round] returns: [NaN], [Infinity] and [-Infinity], [0] for both
    zeros, and the decimal digits of an integer below 2^53 in magnitude
    (every integer of that range is a binary64 number, so the shortest
    digits that denote the number are the digits of the integer).  The
    other numbers (those with a fraction and those from 2^53 on) are left
    to [other]. *)
Definition Binary64_toString (other : float -> string) (v : float) : string :=
  match Prim2SF v with
  | S754_nan => "NaN"%string
  | S754_infinity false => "Infinity"%string
  | S754_infinity true => "-Infinity"%string
  | S754_zero _ => "0"%string
  | S754_finite sign m e =>
      let digits (z : Z) :=
        if sign then ("-" ++ Z_toString z)%string else Z_toString z in
      if (0 <=? e)%Z then
        if (Zpos m * 2 ^ e <? 2 ^ 53)%Z
        then digits (Zpos m * 2 ^ e)%Z
        else other v
      else
        if (Zpos m mod 2 ^ (- e) =? 0)%Z
        then digits (Zpos m / 2 ^ (- e))%Z
        else other v
  end.

(** The base name [exportAnnotatedPdf] gives the file. *)
Definition baseName (now : Date) (options : ExportOptions.t) : string :=
  match ExportOptions.filename options with
  | Some (String c rest) => String c rest
  | _ => ("annotated-pdf-" ++ Z_toString now)%string
  end.

(** *** Properties of the states of the store *)

Section StoreShapes.
Context {num : Type}.

Local Abbreviation Ann := (Annotation.t num).
Local Abbreviation State := (AnnotationState.t num).

Definition ids (st : State) : list string :=
  List.map Annotation.id (AnnotationState.annotations st).

(** A reference to an annotation that has the id of a stored one. *)
Definition refersToStored (st : State) (o : option Ann) : Prop :=
  forall a, o = Some a -> Annotation.id a ∈ ids st.

Definition noDanglingReference (st : State) : Prop :=
  refersToStored st (AnnotationState.selectedAnnotation st)
  /\ refersToStored st (AnnotationState.editingAnnotation st).

(** The operations of the store as the components call them: a selection
    and an edition are of an annotation of the list or of none, and
    [generateId] returns an id no stored annotation has. *)
Inductive uiStep : State -> State -> Prop :=
| ui_create newId now data st :
    newId ∉ ids st -> uiStep st (fst (createAnnotation newId now data st))
| ui_update clock id data st : uiStep st (updateAnnotation clock id data st)
| ui_delete id st : uiStep st (deleteAnnotation id st)
| ui_select a st :
    a ∈ AnnotationState.annotations st -> uiStep st (selectAnnotation (Some a) st)
| ui_deselect st : uiStep st (selectAnnotation None st)
| ui_edit a st :
    a ∈ AnnotationState.annotations st -> uiStep st (setEditingAnnotation (Some a) st)
| ui_close st : uiStep st (setEditingAnnotation None st)
| ui_creating b st : uiStep st (setIsCreating b st)
| ui_clear st : uiStep st (clearAnnotations st).

End StoreShapes.

(** More values for the examples: a clock that advances by a millisecond
    at every reading, a text for numbers, and the options of an export to
    JSON under the default name and to PDF without the metadata page. *)
Definition tickingClock (k : nat) : Date := 5000 + Z.of_nat k.

Definition blankNumber (_ : float) : string := EmptyString.

Definition jsonOptions : ExportOptions.t := ExportOptions.mk true true json None.

(** A page that has no extent yet (its width and height are 0), with the
    rectangle of a drag from its corner, 100 pixels right and down; the
    annotation [handleMouseUp] creates there, as the store keeps it: [x]
    and [y] are 0/0, [width] and [height] are 100/0. *)
Definition collapsedViewer : Viewer.t float :=
  Viewer.mk 2 (Some (PdfPageInfo.mk 2 0%float 0%float 1%float))
    (Some (CreatingRect.mk 0%float 0%float 100%float 100%float)).

Definition collapsedBox : Annotation.t float :=
  Annotation.mk "lx1a2e" PrimFloat.nan PrimFloat.nan
    PrimFloat.infinity PrimFloat.infinity 2
    "Banner" ".banner" None 4000 4000.

Definition collapsedWorld : World.t float :=
  World.mk (Document.mk sampleStyles None 0)
           {[ 0%nat := [loginButton; collapsedBox] ]} [] [].

Definition imageOnlyOptions : ExportOptions.t :=
  ExportOptions.mk true false pdf (Some "annotated-ui-components"%string).

(** Two files for the uploader. *)
Definition figmaExport : File.t := File.mk "application/pdf" (50 * 1024 * 1024).

Definition screenshot : File.t := File.mk "image/png" 2048.

Definition emptyViewerState : PdfViewerState.t :=
  PdfViewerState.mk None 1 0 1.5%float false None.

(** *** Facts about the store *)

Section StoreFacts.
Context {num : Type}.

Local Abbreviation Ann := (Annotation.t num).
Local Abbreviation State := (AnnotationState.t num).

Lemma updateAll_unknown (clock : nat -> Date) (k : nat) (i : string)
    (data : AnnotationFormData.t) (l : list Ann) :
  (forall a, a ∈ l -> Annotation.id a <> i) ->
  updateAll clock k i data l = (l, k).
Proof.
  revert k; induction l as [|a l IH]; intros k Hl; simpl; [reflexivity|].
  destruct (String.eqb_spec (Annotation.id a) i) as [Heq|Hne].
  - exfalso. apply (Hl a); [left|exact Heq].
  - rewrite IH; [reflexivity|].
    intros b Hb. apply Hl. right. exact Hb.
Qed.

Lemma updateAll_length (clock : nat -> Date) (k : nat) (i : string)
    (data : AnnotationFormData.t) (l : list Ann) :
  length (fst (updateAll clock k i data l)) = length l.
Proof.
  revert k; induction l as [|a l IH]; intros k; simpl; [reflexivity|].
  destruct (String.eqb (Annotation.id a) i).
  - specialize (IH (S k)). destruct (updateAll clock (S k) i data l). simpl in *. lia.
  - specialize (IH k). destruct (updateAll clock k i data l). simpl in *. lia.
Qed.

Lemma updateAll_lookup (clock : nat -> Date) (i : string)
    (data : AnnotationFormData.t) (l : list Ann) :
  forall (k n : nat) (a : Ann),
    l !! n = Some a ->
    (Annotation.id a <> i -> fst (updateAll clock k i data l) !! n = Some a) /\
    (Annotation.id a = i ->
     exists j, fst (updateAll clock k i data l) !! n
               = Some (spreadFormData a data (clock j))).
Proof.
  induction l as [|b l IH]; intros k n a Hn; [discriminate|].
  simpl. destruct (String.eqb_spec (Annotation.id b) i) as [Heq|Hne].
  - specialize (IH (S k)). destruct (updateAll clock (S k) i data l) as [r k'].
    destruct n as [|n]; simpl in *.
    + injection Hn as ->. split; [intros Hc; contradiction|].
      intros _. exists k. reflexivity.
    + apply (IH n a Hn).
  - specialize (IH k). destruct (updateAll clock k i data l) as [r k'].
    destruct n as [|n]; simpl in *.
    + injection Hn as ->. split; [reflexivity|]. intros Hc; contradiction.
    + apply (IH n a Hn).
Qed.

Lemma annotationStats_sum (l : list Ann) :
  Stats.completed (annotationStats l) + Stats.incomplete (annotationStats l)
  = Stats.total (annotationStats l).
Proof. unfold annotationStats; simpl. lia. Qed.

Lemma truthy_nonempty (s : string) : truthy s = true <-> s <> EmptyString.
Proof. destruct s; simpl; split; intros; congruence. Qed.

Lemma isCompleted_spec (a : Ann) :
  isCompleted a = true <->
  Annotation.componentLabel a <> EmptyString /\ Annotation.cssSelector a <> EmptyString.
Proof.
  unfold isCompleted. rewrite andb_true_iff, !truthy_nonempty. reflexivity.
Qed.

Lemma filter_isCompleted (l : list Ann) :
  List.filter isCompleted l
  = filter (fun a => Annotation.componentLabel a <> EmptyString
                     /\ Annotation.cssSelector a <> EmptyString) l.
Proof.
  induction l as [|a l IH]; [reflexivity|].
  simpl. rewrite filter_cons.
  destruct (isCompleted a) eqn:E.
  - apply isCompleted_spec in E. rewrite decide_True by exact E. f_equal. exact IH.
  - rewrite decide_False; [exact IH|].
    intros Hc. apply isCompleted_spec in Hc. congruence.
Qed.

Lemma annotationStats_pages (l : list Ann) :
  exists ps : list Z,
    NoDup ps /\
    (forall p, p ∈ ps <-> exists a, a ∈ l /\ Annotation.pageNumber a = p) /\
    Stats.pages (annotationStats l) = Z.of_nat (length ps).
Proof.
  exists (elements (list_to_set (List.map Annotation.pageNumber l) : gset Z)).
  split; [apply NoDup_elements|]. split.
  - intros p. rewrite elem_of_elements, elem_of_list_to_set.
    change (List.map Annotation.pageNumber l) with (Annotation.pageNumber <$> l).
    rewrite list_elem_of_fmap. split.
    + intros (a & -> & Ha). exists a. split; [exact Ha|reflexivity].
    + intros (a & Ha & <-). exists a. split; [reflexivity|exact Ha].
  - reflexivity.
Qed.

End StoreFacts.

(* ===================================================================== *)
(** ** The claims about the store *)
(* ===================================================================== *)

Section StoreClaims.
Context {num : Type}.

Local Abbreviation Ann := (Annotation.t num).
Local Abbreviation State := (AnnotationState.t num).

(** C3, as amended.  [updateAnnotation] is total.  When [id] matches no
    stored annotation (and is not the id of the selected one), the new state
    is the old one with [editingAnnotation] set to null: the list, the
    selection and [isCreating] are unchanged.  A stored annotation whose id
    matches keeps its id, rectangle, page and [createdAt], takes
    [componentLabel] and [cssSelector] from the data, takes [description]
    from the data when the data has that key, and gets as [updatedAt] a
    value [new Date()] returned during the call; the others are unchanged.
    A selected annotation whose id matches is replaced by itself updated in
    that same way. *)
Theorem updateAnnotation_spec (clock : nat -> Date) (id : string)
    (data : AnnotationFormData.t) (prev : State) :
  let next := updateAnnotation clock id data prev in
  let updated (a : Ann) (t : Date) : Ann :=
    Annotation.mk (Annotation.id a)
      (Annotation.x a) (Annotation.y a) (Annotation.width a) (Annotation.height a)
      (Annotation.pageNumber a)
      (AnnotationFormData.componentLabel data)
      (AnnotationFormData.cssSelector data)
      (match AnnotationFormData.description data with
       | Some d => d
       | None => Annotation.description a
       end)
      (Annotation.createdAt a) t in
  ((forall a, a ∈ AnnotationState.annotations prev -> Annotation.id a <> id) ->
   (forall s, AnnotationState.selectedAnnotation prev = Some s -> Annotation.id s <> id) ->
   next = AnnotationState.mk (AnnotationState.annotations prev)
            (AnnotationState.selectedAnnotation prev)
            (AnnotationState.isCreating prev) None)
  /\ length (AnnotationState.annotations next)
     = length (AnnotationState.annotations prev)
  /\ (forall n a, AnnotationState.annotations prev !! n = Some a ->
        Annotation.id a = id ->
        exists k, AnnotationState.annotations next !! n = Some (updated a (clock k)))
  /\ (forall n a, AnnotationState.annotations prev !! n = Some a ->
        Annotation.id a <> id ->
        AnnotationState.annotations next !! n = Some a)
  /\ (forall s, AnnotationState.selectedAnnotation prev = Some s ->
        Annotation.id s = id ->
        exists k, AnnotationState.selectedAnnotation next = Some (updated s (clock k)))
  /\ (forall s, AnnotationState.selectedAnnotation prev = Some s ->
        Annotation.id s <> id ->
        AnnotationState.selectedAnnotation next = Some s)
  /\ (AnnotationState.selectedAnnotation prev = None ->
        AnnotationState.selectedAnnotation next = None)
  /\ AnnotationState.isCreating next = AnnotationState.isCreating prev
  /\ AnnotationState.editingAnnotation next = None.
Proof.
  intros next updated. subst next. unfold updateAnnotation.
  pose proof (updateAll_length clock 0 id data (AnnotationState.annotations prev)) as Hlen.
  pose proof (updateAll_lookup clock id data (AnnotationState.annotations prev) 0) as Hlk.
  pose proof (updateAll_unknown clock 0 id data (AnnotationState.annotations prev)) as Hun.
  destruct (updateAll clock 0 id data (AnnotationState.annotations prev)) as [l' k] eqn:E.
  simpl in *.
  split; [|split; [exact Hlen|]].
  - intros Hall Hsel. specialize (Hun Hall). injection Hun as -> ->.
    f_equal.
    destruct (AnnotationState.selectedAnnotation prev) as [s|]; [|reflexivity].
    destruct (String.eqb_spec (Annotation.id s) id) as [Heq|Hne]; [|reflexivity].
    exfalso. exact (Hsel s eq_refl Heq).
  - split; [|split].
    + intros n a Hn Hid. destruct (Hlk n a Hn) as [_ Hk]. exact (Hk Hid).
    + intros n a Hn Hid. destruct (Hlk n a Hn) as [Hk _]. exact (Hk Hid).
    + destruct (AnnotationState.selectedAnnotation prev) as [s|].
      * destruct (String.eqb_spec (Annotation.id s) id) as [Heq|Hne].
        -- repeat split; try discriminate.
           ++ intros s' [= <-] _. exists k. reflexivity.
           ++ intros s' [= <-] Hne. contradiction.
        -- repeat split; try discriminate.
           ++ intros s' [= <-] Heq. contradiction.
           ++ intros s' [= <-] _. reflexivity.
      * repeat split; discriminate.
Qed.

(** C9.  Every call of [updateAnnotation] leaves [editingAnnotation] null,
    whatever [id] is and whichever annotation was open in the editor. *)
Theorem updateAnnotation_clears_editing (clock : nat -> Date) (id : string)
    (data : AnnotationFormData.t) (prev : State) :
  AnnotationState.editingAnnotation (updateAnnotation clock id data prev) = None.
Proof.
  unfold updateAnnotation.
  destruct (updateAll clock 0 id data (AnnotationState.annotations prev)).
  reflexivity.
Qed.

(** C6.  In every state the store reaches, the statistics satisfy
    [completed + incomplete = total]; [pages] is the number of distinct
    page numbers among the annotations; [completed] is the number of
    annotations whose label and selector are both non-empty; [total] is the
    number of annotations. *)
Theorem getAnnotationStats_consistent (st : State) :
  reachable st ->
  let stats := getAnnotationStats st in
  Stats.completed stats + Stats.incomplete stats = Stats.total stats
  /\ (exists ps : list Z,
        NoDup ps
        /\ (forall p, p ∈ ps <->
              exists a, a ∈ AnnotationState.annotations st
                        /\ Annotation.pageNumber a = p)
        /\ Stats.pages stats = Z.of_nat (length ps))
  /\ Stats.completed stats
     = Z.of_nat (length (filter
                   (fun a => Annotation.componentLabel a <> EmptyString
                             /\ Annotation.cssSelector a <> EmptyString)
                   (AnnotationState.annotations st)))
  /\ Stats.total stats = Z.of_nat (length (AnnotationState.annotations st)).
Proof.
  intros _ stats. subst stats. unfold getAnnotationStats.
  split; [apply annotationStats_sum|].
  split; [apply annotationStats_pages|].
  split; [|reflexivity].
  unfold annotationStats; simpl. rewrite filter_isCompleted. reflexivity.
Qed.

End StoreClaims.

(** [busyState] is a state the store reaches. *)
Lemma busyState_reachable : reachable busyState.
Proof.
  unfold busyState.
  apply reach_delete, reach_update, reach_create, reach_create, reach_create,
    reach_init.
Qed.

(** The statistics of [busyState]: two annotations, one completed, two
    pages. *)
Lemma getAnnotationStats_consistent_witness :
  reachable busyState
  /\ getAnnotationStats busyState = Stats.mk 2 1 1 2
  /\ Stats.completed (getAnnotationStats busyState)
     + Stats.incomplete (getAnnotationStats busyState)
     = Stats.total (getAnnotationStats busyState).
Proof.
  split; [exact busyState_reachable|].
  split; [vm_compute; reflexivity|].
  exact (proj1 (getAnnotationStats_consistent busyState busyState_reachable)).
Defined.

(** C3, the claim as it is written fails: on a store whose editor is open,
    an update with an id that matches no annotation changes the state. *)
Lemma updateAnnotation_unknown_id_not_noop :
  ~ (forall (clock : nat -> Date) (id : string) (data : AnnotationFormData.t)
       (prev : AnnotationState.t float),
       (forall a, a ∈ AnnotationState.annotations prev -> Annotation.id a <> id) ->
       updateAnnotation clock id data prev = prev).
Proof.
  intros Hclaim.
  specialize (Hclaim (fun _ => 5000) "no-such-id"%string loginForm editingState).
  assert (Hno : forall a, a ∈ AnnotationState.annotations editingState ->
                          Annotation.id a <> "no-such-id"%string).
  { intros a Ha. apply list_elem_of_singleton in Ha. subst a. discriminate. }
  specialize (Hclaim Hno).
  apply (f_equal AnnotationState.editingAnnotation) in Hclaim.
  discriminate Hclaim.
Qed.

(** [updateAnnotation_spec] on [editingState]: the unknown id leaves the
    list and the selection and closes the editor. *)
Lemma updateAnnotation_spec_witness :
  updateAnnotation (fun _ => 5000) "no-such-id" loginForm editingState
  = AnnotationState.mk [searchBox] (Some searchBox) false None.
Proof.
  apply (proj1 (updateAnnotation_spec (fun _ => 5000) "no-such-id" loginForm
                  editingState)).
  - intros a Ha. apply list_elem_of_singleton in Ha. subst a. discriminate.
  - intros s [= <-]. discriminate.
Defined.

(* ===================================================================== *)
(** ** The claims about the gesture *)
(* ===================================================================== *)

(** [Math.round] and [Math.min] of the binary64 instance on some values:
    halves go up, also below zero; the largest number below 0.5 goes to 0;
    -0 is smaller than +0. *)
Example binary64_round_values :
  List.map Binary64.round
    [12.5; 10; 2.5; -2.5; -0.2; 0.49999999999999994; -3.7; 28.499999999999996]%float
  = [13; 10; 3; -2; -0; 0; -4; 28]%float.
Proof. vm_compute. reflexivity. Qed.

Example binary64_min_values :
  List.map (fun p => Binary64.min (fst p) (snd p))
    [(100, 300); (300, 100); (0, -0); (-0, 0); (-5, 2)]%float
  = [100; 100; -0; -0; -5]%float.
Proof. vm_compute. reflexivity. Qed.

(** The percentages of the rectangle of the scenario, as both exports
    compute them: 10, 13, 20, 13. *)
Example scenario_percentages :
  List.map (@multiply100 float binary64)
    [Rect.x scenarioRect; Rect.y scenarioRect;
     Rect.width scenarioRect; Rect.height scenarioRect]
  = [10; 13; 20; 13]%float.
Proof. vm_compute. reflexivity. Qed.

Section GestureFacts.
Context {num : Type} `{JsNumber num}.

(** What [handleMouseUp] does when the rectangle is large enough. *)
Lemma handleMouseUp_accept (v : Viewer.t num) (cr : CreatingRect.t num)
    (pageInfo : PdfPageInfo.t num) :
  Viewer.creatingRect v = Some cr ->
  Viewer.pageInfo v = Some pageInfo ->
  let width := Math_abs (num_sub (CreatingRect.currentX cr) (CreatingRect.startX cr)) in
  let height := Math_abs (num_sub (CreatingRect.currentY cr) (CreatingRect.startY cr)) in
  num_ltb width (num_of_Z 20) = false ->
  num_ltb height (num_of_Z 20) = false ->
  handleMouseUp v =
    (setCreatingRect None v,
     [onAnnotationCreate
        (AnnotationData.mk
           (num_div (Math_min (CreatingRect.startX cr) (CreatingRect.currentX cr))
                    (PdfPageInfo.width pageInfo))
           (num_div (Math_min (CreatingRect.startY cr) (CreatingRect.currentY cr))
                    (PdfPageInfo.height pageInfo))
           (num_div width (PdfPageInfo.width pageInfo))
           (num_div height (PdfPageInfo.height pageInfo))
           (Viewer.pageNumber v) EmptyString EmptyString None);
      onCreatingAnnotationChange false]).
Proof.
  intros Hcr Hpi width height Hw Hh. unfold handleMouseUp.
  rewrite Hcr, Hpi. fold width height. rewrite Hw, Hh. reflexivity.
Qed.

(** What [handleMouseUp] does when the rectangle is too small. *)
Lemma handleMouseUp_reject (v : Viewer.t num) (cr : CreatingRect.t num) :
  Viewer.creatingRect v = Some cr ->
  let width := Math_abs (num_sub (CreatingRect.currentX cr) (CreatingRect.startX cr)) in
  let height := Math_abs (num_sub (CreatingRect.currentY cr) (CreatingRect.startY cr)) in
  num_ltb width (num_of_Z 20) = true \/ num_ltb height (num_of_Z 20) = true ->
  snd (handleMouseUp v) = [].
Proof.
  intros Hcr width height Hsmall. unfold handleMouseUp. rewrite Hcr.
  destruct (Viewer.pageInfo v); [|reflexivity].
  fold width height.
  destruct Hsmall as [-> | ->]; [reflexivity|].
  rewrite orb_true_r. reflexivity.
Qed.

(** The calls of [handleMouseUp] are none, or one creation followed by the
    end of the creation mode. *)
Lemma handleMouseUp_calls (v : Viewer.t num) :
  snd (handleMouseUp v) = []
  \/ exists d, snd (handleMouseUp v)
               = [onAnnotationCreate d; onCreatingAnnotationChange false].
Proof.
  unfold handleMouseUp.
  destruct (Viewer.creatingRect v); [|left; reflexivity].
  destruct (Viewer.pageInfo v); [|left; reflexivity].
  destruct (_ || _); [left; reflexivity|right; eexists; reflexivity].
Qed.

(** The store after [mouseUp], from the calls of [handleMouseUp]. *)
Lemma mouseUp_store (newId : string) (now : Date) (v : Viewer.t num)
    (st : AnnotationState.t num) :
  snd (mouseUp newId now v st)
  = fold_left (fun s c => runCallback newId now c s) (snd (handleMouseUp v)) st.
Proof. unfold mouseUp. destruct (handleMouseUp v). reflexivity. Qed.

End GestureFacts.

(** The literal 20 of [handleMouseUp], in binary64. *)
Lemma binary64_twenty : @num_of_Z float binary64 20 = 20%float.
Proof. vm_compute. reflexivity. Qed.

(** C4.  On the release of the button, with binary64 arithmetic: a
    rectangle whose width or height is below 20 pixels adds no annotation; a
    rectangle of exactly 20 by 20 pixels adds exactly one; in every case the
    store gains nothing or exactly one annotation, whose rectangle is
    [min(startX,currentX)/pageWidth], [min(startY,currentY)/pageHeight],
    [|currentX-startX|/pageWidth], [|currentY-startY|/pageHeight]; and the
    drag (100,100)-(300,200) on a page of 1000 x 800 pixels creates the
    rectangle 0.1, 0.125, 0.2, 0.125. *)
Theorem handleMouseUp_minimum_size_and_rectangle
    (newId : string) (now : Date) (v : Viewer.t float)
    (cr : CreatingRect.t float) (pageInfo : PdfPageInfo.t float)
    (st : AnnotationState.t float) :
  Viewer.creatingRect v = Some cr ->
  Viewer.pageInfo v = Some pageInfo ->
  let width :=
    PrimFloat.abs (CreatingRect.currentX cr - CreatingRect.startX cr)%float in
  let height :=
    PrimFloat.abs (CreatingRect.currentY cr - CreatingRect.startY cr)%float in
  let created :=
    Annotation.mk newId
      (Binary64.min (CreatingRect.startX cr) (CreatingRect.currentX cr)
       / PdfPageInfo.width pageInfo)%float
      (Binary64.min (CreatingRect.startY cr) (CreatingRect.currentY cr)
       / PdfPageInfo.height pageInfo)%float
      (width / PdfPageInfo.width pageInfo)%float
      (height / PdfPageInfo.height pageInfo)%float
      (Viewer.pageNumber v) EmptyString EmptyString None now now in
  let before := AnnotationState.annotations st in
  let after := AnnotationState.annotations (snd (mouseUp newId now v st)) in
  ((width <? 20)%float = true \/ (height <? 20)%float = true -> after = before)
  /\ (width = 20%float -> height = 20%float -> after = before ++ [created])
  /\ ((width <? 20)%float = false -> (height <? 20)%float = false ->
      after = before ++ [created])
  /\ (after = before \/ after = before ++ [created])
  /\ handleMouseUp scenarioViewer
     = (setCreatingRect None scenarioViewer,
        [onAnnotationCreate scenarioData; onCreatingAnnotationChange false]).
Proof.
  intros Hcr Hpi width height created before after.
  assert (Hrej : (width <? 20)%float = true \/ (height <? 20)%float = true ->
                 after = before).
  { intros Hsmall. subst after. rewrite mouseUp_store.
    rewrite (handleMouseUp_reject v cr Hcr); [reflexivity|].
    rewrite binary64_twenty. exact Hsmall. }
  assert (Hacc : (width <? 20)%float = false -> (height <? 20)%float = false ->
                 after = before ++ [created]).
  { intros Hw Hh. subst after. rewrite mouseUp_store.
    rewrite (handleMouseUp_accept v cr pageInfo Hcr Hpi);
      [reflexivity|rewrite binary64_twenty; assumption..]. }
  split; [exact Hrej|]. split; [|split; [exact Hacc|split]].
  - intros Hw Hh. apply Hacc; [rewrite Hw|rewrite Hh]; reflexivity.
  - destruct (width <? 20)%float eqn:Hw; [left; apply Hrej; left; reflexivity|].
    destruct (height <? 20)%float eqn:Hh; [left; apply Hrej; right; reflexivity|].
    right. apply Hacc; reflexivity.
  - vm_compute. reflexivity.
Qed.

(** The scenario of the specification, through the theorem: the store,
    empty before, holds the one annotation 0.1, 0.125, 0.2, 0.125. *)
Lemma handleMouseUp_minimum_size_and_rectangle_witness :
  AnnotationState.annotations
    (snd (mouseUp "lx1a2b" 1000 scenarioViewer initialState))
  = [Annotation.mk "lx1a2b" 0.1%float 0.125%float 0.2%float 0.125%float 1
       EmptyString EmptyString None 1000 1000].
Proof.
  apply (proj1 (proj2 (proj2
    (handleMouseUp_minimum_size_and_rectangle "lx1a2b" 1000 scenarioViewer
       (CreatingRect.mk 100%float 100%float 300%float 200%float) scenarioPage
       initialState eq_refl eq_refl)))); vm_compute; reflexivity.
Defined.

Section GestureClaims.
Context {num : Type} `{JsNumber num}.

(** C5, as amended.  The normalizer applies no clamping.
    [getRelativeCoordinates] returns the raw offsets [clientX - left] and
    [clientY - top], wherever the pointer is, and the annotation a gesture
    creates has the rectangle [min(startX,currentX)/pageWidth],
    [min(startY,currentY)/pageHeight], [|currentX-startX|/pageWidth],
    [|currentY-startY|/pageHeight] of those offsets. *)
Theorem gesture_not_clamped (rect : DOMRect.t num) (down move : MouseEvent.t num)
    (v : Viewer.t num) (pageInfo : PdfPageInfo.t num) :
  Viewer.pageInfo v = Some pageInfo ->
  let startX := num_sub (MouseEvent.clientX down) (DOMRect.left rect) in
  let startY := num_sub (MouseEvent.clientY down) (DOMRect.top rect) in
  let currentX := num_sub (MouseEvent.clientX move) (DOMRect.left rect) in
  let currentY := num_sub (MouseEvent.clientY move) (DOMRect.top rect) in
  getRelativeCoordinates (Some rect) down = Some (Point.mk startX startY)
  /\ getRelativeCoordinates (Some rect) move = Some (Point.mk currentX currentY)
  /\ forall d,
       onAnnotationCreate d ∈ snd (gesture true (Some rect) down move v) ->
       d = AnnotationData.mk
             (num_div (Math_min startX currentX) (PdfPageInfo.width pageInfo))
             (num_div (Math_min startY currentY) (PdfPageInfo.height pageInfo))
             (num_div (Math_abs (num_sub currentX startX)) (PdfPageInfo.width pageInfo))
             (num_div (Math_abs (num_sub currentY startY)) (PdfPageInfo.height pageInfo))
             (Viewer.pageNumber v) EmptyString EmptyString None.
Proof.
  intros Hpi startX startY currentX currentY.
  split; [reflexivity|]. split; [reflexivity|].
  intros d. unfold gesture, handleMouseDown, handleMouseMove.
  rewrite Hpi. simpl.
  fold startX startY currentX currentY.
  unfold handleMouseUp. simpl. rewrite Hpi.
  destruct (_ || _); simpl.
  - intros Hd. apply elem_of_nil in Hd. contradiction.
  - intros Hd. apply elem_of_cons in Hd. destruct Hd as [Hd|Hd].
    + injection Hd as ->. reflexivity.
    + apply list_elem_of_singleton in Hd. discriminate Hd.
Qed.

End GestureClaims.

(** C5, the claim as it is written fails: the gesture that starts on a
    label above the page creates an annotation whose [y] is negative. *)
Lemma gesture_outside_page_leaves_unit_interval :
  exists d,
    onAnnotationCreate d ∈ snd (gesture true labelPageRef labelDown labelMove idleViewer)
    /\ AnnotationData.y d = (-0.0125)%float
    /\ (AnnotationData.y d <? 0)%float = true.
Proof.
  eexists. split; [|split].
  - vm_compute. apply list_elem_of_here.
  - vm_compute. reflexivity.
  - vm_compute. reflexivity.
Qed.

(** [gesture_not_clamped] on that gesture: the offsets of the press and of
    the release, relative to the page. *)
Lemma gesture_not_clamped_witness :
  Viewer.pageInfo idleViewer = Some scenarioPage
  /\ getRelativeCoordinates labelPageRef labelDown
     = Some (Point.mk 50%float (-10)%float)
  /\ getRelativeCoordinates labelPageRef labelMove
     = Some (Point.mk 200%float 200%float).
Proof.
  split; [reflexivity|].
  pose proof (gesture_not_clamped (DOMRect.mk 200%float 100%float)
                labelDown labelMove idleViewer scenarioPage eq_refl) as [Hd [Hm _]].
  split; [exact Hd|exact Hm].
Defined.

(** C8, as amended.  In exact arithmetic (the numbers being rationals),
    rendering a fractional rectangle at a page of non-zero width and height,
    by multiplying, and normalising the pixels again by dividing by the same
    width and height gives the rectangle back exactly. *)
Theorem overlay_normalize_roundtrip_exact (r : Rect.t Qc) (pageInfo : PdfPageInfo.t Qc) :
  PdfPageInfo.width pageInfo <> Q2Qc 0 ->
  PdfPageInfo.height pageInfo <> Q2Qc 0 ->
  normalize (overlayStyle r pageInfo) pageInfo = r.
Proof.
  intros Hw Hh. destruct r as [rx ry rw rh]. unfold normalize, overlayStyle. simpl.
  f_equal; field; assumption.
Qed.

(** [overlay_normalize_roundtrip_exact] on the rectangle of the scenario,
    shown on a page of 768 x 1024 pixels. *)
Lemma overlay_normalize_roundtrip_exact_witness :
  normalize (overlayStyle exactRect exactZoomedPage) exactZoomedPage = exactRect.
Proof.
  apply overlay_normalize_roundtrip_exact.
  - intros Hc. apply (f_equal this) in Hc. vm_compute in Hc. discriminate Hc.
  - intros Hc. apply (f_equal this) in Hc. vm_compute in Hc. discriminate Hc.
Defined.

(** C8, the claim as it is written fails in the arithmetic of the program:
    the rectangle the scenario stores, rendered on a page 768 pixels wide
    and normalised again, has [x] = 0.10000000000000002 and not 0.1. *)
Lemma overlay_normalize_roundtrip_binary64_drifts :
  snd (handleMouseUp scenarioViewer)
  = [onAnnotationCreate
       (AnnotationData.mk (Rect.x scenarioRect) (Rect.y scenarioRect)
          (Rect.width scenarioRect) (Rect.height scenarioRect)
          1 EmptyString EmptyString None);
     onCreatingAnnotationChange false]
  /\ Rect.x (overlayStyle scenarioRect zoomedPage) = 76.800000000000011%float
  /\ Rect.x (normalize (overlayStyle scenarioRect zoomedPage) zoomedPage)
     = 0.10000000000000002%float
  /\ normalize (overlayStyle scenarioRect zoomedPage) zoomedPage <> scenarioRect.
Proof.
  split; [vm_compute; reflexivity|].
  split; [vm_compute; reflexivity|].
  split; [vm_compute; reflexivity|].
  intros Hc. apply (f_equal Rect.x) in Hc. vm_compute in Hc.
  apply (f_equal (fun f => PrimFloat.eqb f 0.1%float)) in Hc.
  vm_compute in Hc. discriminate Hc.
Qed.

(* ===================================================================== *)
(** ** The claims about the exports *)
(* ===================================================================== *)

Lemma orElse_empty (s : string) : orElse s EmptyString = s.
Proof. destruct s; reflexivity. Qed.

Lemma insert_middle {A : Type} (l1 l2 : list A) (x y : A) :
  <[length l1 := y]> (l1 ++ x :: l2) = l1 ++ y :: l2.
Proof.
  rewrite insert_app_r_alt by lia. rewrite Nat.sub_diag. reflexivity.
Qed.

(** The restoration, element by element: with the elements of [pre]
    already restored, the entries of the others restore them. *)
Lemma restoreOne_fold (l pre : list StyleNode) :
  fold_left restoreOne
    (omap id (imap (fun i => snapshotOf (length pre + i)) l))
    (pre ++ List.map suppress l)
  = pre ++ List.map restored l.
Proof.
  revert pre; induction l as [|n l IH]; intros pre; [reflexivity|].
  rewrite imap_cons. cbn [omap list_omap List.map].
  assert (Hnext :
            fold_left restoreOne
              (omap id (imap ((fun i => snapshotOf (length pre + i)) ∘ S) l))
              (pre ++ restored n :: List.map suppress l)
            = pre ++ restored n :: List.map restored l).
  { replace (pre ++ restored n :: List.map suppress l)
      with ((pre ++ [restored n]) ++ List.map suppress l)
      by (rewrite <- app_assoc; reflexivity).
    replace (pre ++ restored n :: List.map restored l)
      with ((pre ++ [restored n]) ++ List.map restored l)
      by (rewrite <- app_assoc; reflexivity).
    rewrite <- (IH (pre ++ [restored n])). f_equal. f_equal.
    apply imap_ext. intros i x _. simpl. rewrite length_app. simpl.
    f_equal. lia. }
  rewrite Nat.add_0_r.
  destruct n as [href disabled|textContent|textContent]; simpl in *.
  - unfold restoreOne at 2. simpl.
    rewrite (list_lookup_middle pre _ _ (length pre) eq_refl).
    rewrite insert_middle. exact Hnext.
  - unfold restoreOne at 2. simpl.
    rewrite (list_lookup_middle pre _ _ (length pre) eq_refl).
    rewrite insert_middle, orElse_empty. exact Hnext.
  - exact Hnext.
Qed.

Lemma restore_snapshot (l : list StyleNode) :
  fold_left restoreOne (snapshot l) (List.map suppress l) = List.map restored l.
Proof. exact (restoreOne_fold l []). Qed.

(** The paths through [exportAsPdf]: the capture throws, or it returns and
    the calls after it are tried in the order of the source. *)
Ltac export_paths capture steps options :=
  destruct capture as [?canvas|?inner];
  [ destruct steps as [s1 s2 s3 s4 s5 s6];
    destruct s1 as [[]|?];
    [ destruct s2 as [[]|?];
      [ destruct s3 as [[]|?];
        [ destruct (ExportOptions.includeMetadata options) eqn:?;
          [ destruct s4 as [[]|?];
            [ destruct s5 as [[]|?]; [ destruct s6 as [[]|?] | ] | ]
          | destruct s6 as [[]|?] ]
        | ]
      | ]
    | ]
  | ].

Ltac run_export :=
  unfold exportAsPdf, addMetadataPage, tryFinally, tryCatch, bind,
    replaceAllStylesheets, restoreOriginalStylesheets, appendCleanContainer,
    removeCleanContainer, html2canvas, call, emit, getDocument, setDocument,
    readArray, writeArray, download, ret, throw;
  simpl.

Section ExportFacts.
Context {num : Type} `{JsNumber num}.
Variable Date_toLocaleString : Date -> string.
Variable safeCompleteStylesheet : string.
Variable splitTextToSize : string -> list string.

Local Abbreviation exportPdf :=
  (exportAsPdf Date_toLocaleString safeCompleteStylesheet splitTextToSize).

(** [exportAsPdf] when [html2canvas] throws: the calls after the capture are
    not reached. *)
Lemma exportAsPdf_throw (inner : JsError) (steps : PdfSteps.t) (now : Date)
    (this : PdfExporter.t) (filename : string) (options : ExportOptions.t)
    (w : World.t num) :
  exportPdf (Throw inner) steps now this filename options w
  = (World.mk
       (Document.mk
          (List.map restored (Document.styleSources (World.document w)))
          None
          (S (Document.cleanContainers (World.document w))))
       (World.arrays w)
       (World.downloads w)
       (World.log w ++
          [EvReplaceAllStylesheets; EvAnimationFrames; EvAppendCleanContainer;
           EvHtml2canvas; EvConsoleError inner;
           EvRestoreOriginalStylesheets; EvAnimationFrames]),
     Throw (Error "Failed to export PDF")).
Proof.
  run_export. rewrite restore_snapshot. rewrite <- !app_assoc. reflexivity.
Qed.

(** [exportAsPdf] when [html2canvas] returns a canvas and every call after
    it that is made returns. *)
Lemma exportAsPdf_normal (canvas : Canvas.t num) (steps : PdfSteps.t)
    (now : Date) (this : PdfExporter.t) (filename : string)
    (options : ExportOptions.t) (w : World.t num) :
  PdfSteps.toDataURL steps = Normal tt ->
  PdfSteps.newJsPDF steps = Normal tt ->
  PdfSteps.addImage steps = Normal tt ->
  (ExportOptions.includeMetadata options = true ->
   PdfSteps.pageHeader steps = Normal tt
   /\ PdfSteps.pageEntries steps = Normal tt) ->
  PdfSteps.save steps = Normal tt ->
  exists doc,
    exportPdf (Normal canvas) steps now this filename options w
    = (World.mk
         (Document.mk
            (List.map restored (Document.styleSources (World.document w)))
            None
            (Document.cleanContainers (World.document w)))
         (if ExportOptions.includeMetadata options
          then <[PdfExporter.annotations this :=
                   sortByPage (default [] (World.arrays w !! PdfExporter.annotations this))]>
                 (World.arrays w)
          else World.arrays w)
         (World.downloads w ++ [((filename ++ ".pdf")%string, PdfFile doc)])
         (World.log w ++
            [EvReplaceAllStylesheets; EvAnimationFrames; EvAppendCleanContainer;
             EvHtml2canvas; EvRemoveCleanContainer; EvSave;
             EvRestoreOriginalStylesheets; EvAnimationFrames]),
       Normal tt).
Proof.
  destruct steps as [s1 s2 s3 s4 s5 s6]. simpl.
  intros -> -> -> Hmeta ->.
  destruct (ExportOptions.includeMetadata options) eqn:Em.
  - destruct (Hmeta eq_refl) as [-> ->].
    eexists. run_export. rewrite Em. simpl.
    rewrite restore_snapshot. rewrite <- !app_assoc. reflexivity.
  - eexists. run_export. rewrite Em. simpl.
    rewrite restore_snapshot. rewrite <- !app_assoc. reflexivity.
Qed.

(** However the capture and the calls after it complete, the restoration
    runs: the style sources are restored and the temporary style sheet is
    removed. *)
Lemma exportAsPdf_restores (capture : Completion (Canvas.t num))
    (steps : PdfSteps.t) (now : Date) (this : PdfExporter.t)
    (filename : string) (options : ExportOptions.t) (w : World.t num) :
  let w' := fst (exportPdf capture steps now this filename options w) in
  Document.styleSources (World.document w')
  = List.map restored (Document.styleSources (World.document w))
  /\ Document.tempStylesheet (World.document w') = None
  /\ EvRestoreOriginalStylesheets ∈ World.log w'.
Proof.
  intros w'. subst w'.
  export_paths capture steps options; run_export;
    repeat match goal with E : ExportOptions.includeMetadata _ = _ |- _ =>
             rewrite E; simpl end;
    rewrite restore_snapshot;
    (split; [reflexivity|]); (split; [reflexivity|]);
    rewrite !elem_of_app, !elem_of_cons; tauto.
Qed.

(** The clone of the container is removed as soon as the capture has
    returned, before any of the calls that may still throw. *)
Lemma exportAsPdf_removes_the_clone (canvas : Canvas.t num)
    (steps : PdfSteps.t) (now : Date) (this : PdfExporter.t)
    (filename : string) (options : ExportOptions.t) (w : World.t num) :
  Document.cleanContainers
    (World.document
       (fst (exportPdf (Normal canvas) steps now this filename options w)))
  = Document.cleanContainers (World.document w).
Proof.
  pose (capture := Normal canvas : Completion (Canvas.t num)).
  change (Normal canvas) with capture.
  assert (Hc : exists c, capture = Normal c) by (eexists; reflexivity).
  clearbody capture.
  export_paths capture steps options;
    [..|destruct Hc as [c Hc]; discriminate Hc];
    run_export;
    repeat match goal with E : ExportOptions.includeMetadata _ = _ |- _ =>
             rewrite E; simpl end;
    reflexivity.
Qed.

(** The arrays after an export: the array of the exporter is sorted when
    the metadata page is asked for and the sort is reached, that is, when
    the capture and the calls before the sort return; otherwise no array is
    touched. *)
Lemma exportAsPdf_arrays (capture : Completion (Canvas.t num))
    (steps : PdfSteps.t) (now : Date) (this : PdfExporter.t)
    (filename : string) (options : ExportOptions.t) (w : World.t num) :
  World.arrays (fst (exportPdf capture steps now this filename options w))
  = match capture, PdfSteps.toDataURL steps, PdfSteps.newJsPDF steps,
          PdfSteps.addImage steps, PdfSteps.pageHeader steps with
    | Normal _, Normal _, Normal _, Normal _, Normal _ =>
        if ExportOptions.includeMetadata options
        then <[PdfExporter.annotations this :=
                 sortByPage (default [] (World.arrays w !! PdfExporter.annotations this))]>
               (World.arrays w)
        else World.arrays w
    | _, _, _, _, _ => World.arrays w
    end.
Proof.
  export_paths capture steps options; run_export;
    repeat match goal with E : ExportOptions.includeMetadata _ = _ |- _ =>
             rewrite E; simpl end;
    try reflexivity; destruct s4; reflexivity.
Qed.

(** An export either returns, having handed one file to the browser, or
    rejects with the one error of [exportAsPdf], having written the error
    it caught on the console and handed nothing to the browser. *)
Lemma exportAsPdf_returns_or_rejects (capture : Completion (Canvas.t num))
    (steps : PdfSteps.t) (now : Date) (this : PdfExporter.t)
    (filename : string) (options : ExportOptions.t) (w : World.t num) :
  let r := exportPdf capture steps now this filename options w in
  (snd r = Normal tt
   /\ (exists doc,
         World.downloads (fst r)
         = World.downloads w ++ [((filename ++ ".pdf")%string, PdfFile doc)])
   /\ forall inner, EvConsoleError inner ∉ drop (length (World.log w)) (World.log (fst r)))
  \/ (snd r = Throw (Error "Failed to export PDF")
      /\ World.downloads (fst r) = World.downloads w
      /\ exists inner before,
           World.log (fst r)
           = World.log w ++ before
               ++ [EvConsoleError inner; EvRestoreOriginalStylesheets;
                   EvAnimationFrames]
           /\ forall other, EvConsoleError other ∉ before).
Proof.
  intros r. subst r.
  export_paths capture steps options; run_export;
    repeat match goal with E : ExportOptions.includeMetadata _ = _ |- _ =>
             rewrite E; simpl end;
    rewrite <- ?app_assoc; simpl;
    first
      [ left; split; [reflexivity|]; split; [eexists; reflexivity|];
        intros inner0; rewrite drop_app_length;
        rewrite !elem_of_cons, elem_of_nil; intros Hin;
        repeat (destruct Hin as [Hin|Hin]; [discriminate Hin|]); exact Hin
      | right; split; [reflexivity|]; split; [reflexivity|];
        match goal with
        | |- exists inner before, _ ++ ?l = _ /\ _ =>
            let n := eval cbv in (length l - 3)%nat in
            eexists; exists (take n l)
        end;
        split; [reflexivity|];
        intros other; simpl; rewrite !elem_of_cons, elem_of_nil; intros Hin;
        repeat (destruct Hin as [Hin|Hin]; [discriminate Hin|]); exact Hin ].
Qed.

(** An export that returns has had its capture and every call it made
    after the capture return. *)
Lemma exportAsPdf_returned (capture : Completion (Canvas.t num))
    (steps : PdfSteps.t) (now : Date) (this : PdfExporter.t)
    (filename : string) (options : ExportOptions.t) (w : World.t num) :
  snd (exportPdf capture steps now this filename options w) = Normal tt ->
  (exists canvas, capture = Normal canvas)
  /\ PdfSteps.toDataURL steps = Normal tt
  /\ PdfSteps.newJsPDF steps = Normal tt
  /\ PdfSteps.addImage steps = Normal tt
  /\ (ExportOptions.includeMetadata options = true ->
      PdfSteps.pageHeader steps = Normal tt
      /\ PdfSteps.pageEntries steps = Normal tt)
  /\ PdfSteps.save steps = Normal tt.
Proof.
  export_paths capture steps options; run_export;
    repeat match goal with E : ExportOptions.includeMetadata _ = _ |- _ =>
             rewrite E; simpl end;
    intros Hr; try discriminate Hr;
    (split; [eexists; reflexivity|]);
    repeat (split; [reflexivity|]);
    try reflexivity;
    (split; [|reflexivity]); intros Hm; try discriminate Hm;
    split; reflexivity.
Qed.

End ExportFacts.

Section SortFacts.
Context {num : Type}.

Local Abbreviation Ann := (Annotation.t num).

Lemma insertByPage_perm (a : Ann) (l : list Ann) : insertByPage a l ≡ₚ a :: l.
Proof.
  induction l as [|b l IH]; simpl; [reflexivity|].
  destruct (Z.leb _ _); [reflexivity|].
  rewrite IH. apply Permutation_swap.
Qed.

Lemma sortByPage_perm (l : list Ann) : sortByPage l ≡ₚ l.
Proof.
  induction l as [|a l IH]; simpl; [reflexivity|].
  rewrite insertByPage_perm, IH. reflexivity.
Qed.

Lemma insertByPage_sorted (a : Ann) (l : list Ann) :
  StronglySorted pageLe l -> StronglySorted pageLe (insertByPage a l).
Proof.
  induction l as [|b l IH]; intros Hs; simpl.
  - constructor; constructor.
  - destruct (Z.leb_spec (Annotation.pageNumber a) (Annotation.pageNumber b)) as [Hle|Hgt].
    + constructor; [exact Hs|].
      constructor; [exact Hle|].
      apply StronglySorted_inv in Hs. destruct Hs as [_ Hb].
      eapply Forall_impl; [exact Hb|].
      intros c Hc. unfold pageLe in *. lia.
    + apply StronglySorted_inv in Hs. destruct Hs as [Hs Hb].
      constructor; [exact (IH Hs)|].
      rewrite insertByPage_perm. constructor; [unfold pageLe; lia|exact Hb].
Qed.

Lemma sortByPage_sorted (l : list Ann) : StronglySorted pageLe (sortByPage l).
Proof.
  induction l as [|a l IH]; simpl; [constructor|].
  apply insertByPage_sorted. exact IH.
Qed.

(** The sort is stable: the annotations of a page keep their order. *)
Lemma insertByPage_stable (p : Z) (a : Ann) (l : list Ann) :
  filter (fun b => Annotation.pageNumber b = p) (insertByPage a l)
  = filter (fun b => Annotation.pageNumber b = p) (a :: l).
Proof.
  induction l as [|b l IH]; simpl; [reflexivity|].
  destruct (Z.leb_spec (Annotation.pageNumber a) (Annotation.pageNumber b)) as [Hle|Hgt];
    [reflexivity|].
  rewrite (filter_cons _ b), IH, !filter_cons.
  destruct (decide (Annotation.pageNumber b = p)) as [Hb|Hb];
    destruct (decide (Annotation.pageNumber a = p)) as [Ha|Ha];
    try reflexivity.
  exfalso. lia.
Qed.

Lemma sortByPage_stable (p : Z) (l : list Ann) :
  filter (fun b => Annotation.pageNumber b = p) (sortByPage l)
  = filter (fun b => Annotation.pageNumber b = p) l.
Proof.
  induction l as [|a l IH]; simpl; [reflexivity|].
  rewrite insertByPage_stable, !filter_cons, IH. reflexivity.
Qed.

End SortFacts.

Section ExportClaims.
Context {num : Type} `{JsNumber num}.
Variable Number_toString : num -> string.
Variable Date_toISOString : Date -> string.
Variable Date_toLocaleString : Date -> string.
Variable safeCompleteStylesheet : string.
Variable splitTextToSize : string -> list string.

Local Abbreviation Ann := (Annotation.t num).

(** With no link disabled beforehand, the style sources are, after the
    cycle, what they were before it. *)
Lemma restored_enabled (l : list StyleNode) :
  (forall href, HTMLLinkElement href true ∉ l) -> List.map restored l = l.
Proof.
  induction l as [|n l IH]; intros Hl; [reflexivity|].
  simpl. rewrite IH.
  - destruct n as [href [|]| |]; try reflexivity.
    exfalso. apply (Hl href). left.
  - intros href Hin. apply (Hl href). right. exact Hin.
Qed.

(** C2.  When [html2canvas] throws, [exportAsPdf] rejects with the one
    error [Error('Failed to export PDF')], whatever was thrown; the inner
    error is only logged; and before the call returns the restoration has
    run: it is in the log after the failure, the temporary style sheet is
    removed and the style sources are restored.  [exportAnnotatedPdf]
    passes the rejection on.  The calls after the capture are not reached,
    so this holds however they would complete. *)
Theorem exportAsPdf_capture_failure_wrapped (inner : JsError)
    (steps : PdfSteps.t) (now : Date) (this : PdfExporter.t)
    (filename : string) (options : ExportOptions.t) (w : World.t num) :
  let r := exportAsPdf Date_toLocaleString safeCompleteStylesheet
             splitTextToSize (Throw inner) steps now this filename options w in
  snd r = Throw (Error "Failed to export PDF")
  /\ World.log (fst r)
     = World.log w ++
         [EvReplaceAllStylesheets; EvAnimationFrames; EvAppendCleanContainer;
          EvHtml2canvas; EvConsoleError inner;
          EvRestoreOriginalStylesheets; EvAnimationFrames]
  /\ Document.tempStylesheet (World.document (fst r)) = None
  /\ Document.styleSources (World.document (fst r))
     = List.map restored (Document.styleSources (World.document w))
  /\ World.downloads (fst r) = World.downloads w
  /\ (ExportOptions.format options = pdf ->
      snd (exportAnnotatedPdf Number_toString Date_toISOString
             Date_toLocaleString safeCompleteStylesheet splitTextToSize
             (Throw inner) steps now this options w)
      = Throw (Error "Failed to export PDF")).
Proof.
  intros r. subst r. rewrite exportAsPdf_throw. simpl.
  repeat (split; [reflexivity|]).
  intros Hpdf. unfold exportAnnotatedPdf. rewrite Hpdf.
  rewrite exportAsPdf_throw. reflexivity.
Qed.

(** C10.  An export to PDF with the metadata page that reaches the sort
    of [addMetadataPage], that is, [html2canvas], [canvas.toDataURL],
    [new jsPDF], [pdf.addImage] and the calls of [addMetadataPage] that
    write the header of the page having returned: the array the caller
    passed to [createPdfExporter] holds, after the export, its annotations
    sorted by ascending page number (a stable sort: the same annotations,
    the pages ascending, the annotations of one page in their order of
    before); an array that was not in that order has been changed; the
    other arrays are untouched.  This is so whether the calls after the
    sort (those of the [forEach], [pdf.save]) return or throw: neither the
    [catch] nor the restoration undoes the sort. *)
Theorem addMetadataPage_sorts_the_callers_array (canvas : Canvas.t num)
    (steps : PdfSteps.t) (now : Date) (filename : string)
    (options : ExportOptions.t) (w : World.t num) (annotations : nat)
    (l : list Ann) :
  World.arrays w !! annotations = Some l ->
  ExportOptions.includeMetadata options = true ->
  PdfSteps.toDataURL steps = Normal tt ->
  PdfSteps.newJsPDF steps = Normal tt ->
  PdfSteps.addImage steps = Normal tt ->
  PdfSteps.pageHeader steps = Normal tt ->
  let w' := fst (exportAsPdf Date_toLocaleString safeCompleteStylesheet
                   splitTextToSize (Normal canvas) steps now
                   (createPdfExporter annotations) filename options w) in
  World.arrays w' !! annotations = Some (sortByPage l)
  /\ sortByPage l ≡ₚ l
  /\ StronglySorted pageLe (sortByPage l)
  /\ (forall p, filter (fun a => Annotation.pageNumber a = p) (sortByPage l)
                = filter (fun a => Annotation.pageNumber a = p) l)
  /\ (~ StronglySorted pageLe l -> World.arrays w' !! annotations <> Some l)
  /\ (forall other, other <> annotations ->
        World.arrays w' !! other = World.arrays w !! other).
Proof.
  clear Number_toString Date_toISOString.
  intros Hl Hmeta H1 H2 H3 H4 w'. subst w'.
  rewrite exportAsPdf_arrays, H1, H2, H3, H4, Hmeta. simpl. rewrite Hl. simpl.
  split; [apply lookup_insert_eq|].
  split; [apply sortByPage_perm|].
  split; [apply sortByPage_sorted|].
  split; [intros p; apply sortByPage_stable|].
  split.
  - intros Hns. rewrite lookup_insert_eq. intros [= Heq].
    apply Hns. rewrite <- Heq. apply sortByPage_sorted.
  - intros other Hne. apply lookup_insert_ne. congruence.
Qed.

Lemma csvRows_completed (l : list Ann) :
  length (filter rowCompleted (csvRows Number_toString Date_toLocaleString l))
  = length (List.filter isCompleted l).
Proof.
  induction l as [|a l IH]; [reflexivity|].
  unfold csvRows in *. simpl. rewrite filter_cons.
  destruct (isCompleted a) eqn:E.
  - rewrite decide_True; [simpl; rewrite IH; reflexivity|].
    apply isCompleted_spec in E. destruct E as [E1 E2].
    unfold rowCompleted, csvRow. simpl. rewrite !orElse_empty.
    split; congruence.
  - rewrite decide_False; [exact IH|].
    intros [E1 E2]. unfold csvRow in E1, E2. simpl in E1, E2.
    rewrite orElse_empty in E1, E2.
    assert (isCompleted a = true); [|congruence].
    apply isCompleted_spec. split; congruence.
Qed.

(** *** Reading the CSV text back *)

Lemma string_cons_app (c : ascii) (a b : string) :
  (String c a ++ b)%string = String c (a ++ b)%string.
Proof. reflexivity. Qed.

Lemma string_app_assoc (a b c : string) :
  ((a ++ b) ++ c)%string = (a ++ (b ++ c))%string.
Proof.
  induction a as [|x a IH]; [reflexivity|].
  rewrite !string_cons_app, IH. reflexivity.
Qed.

Lemma string_app_nil_r (a : string) : (a ++ EmptyString)%string = a.
Proof.
  induction a as [|x a IH]; [reflexivity|].
  rewrite string_cons_app, IH. reflexivity.
Qed.

Lemma last_cons {A : Type} (l : list A) (a b : A) :
  List.last (b :: l) a = List.last l b.
Proof.
  revert a b. induction l as [|c l IH]; intros a b; [reflexivity|].
  change (List.last (b :: c :: l) a) with (List.last (c :: l) a).
  rewrite (IH a c), (IH b c). reflexivity.
Qed.

(** Reading the escaped text of a cell and its closing quote. *)
Lemma readCsvFrom_cell (value cell : string) (row : list string)
    (rows : list (list string)) (rest : string) :
  readCsvFrom InsideQuotes cell row rows
    (escapeQuotes value ++ String dquote rest)
  = readCsvFrom AfterQuote (cell ++ value) row rows rest.
Proof.
  revert cell. induction value as [|c value IH]; intros cell.
  - rewrite string_app_nil_r. reflexivity.
  - replace (cell ++ String c value)%string
      with ((cell ++ String c EmptyString) ++ value)%string
      by (rewrite string_app_assoc; reflexivity).
    rewrite <- IH.
    cbn [escapeQuotes]. destruct (Ascii.eqb c dquote) eqn:Ec.
    + apply Ascii.eqb_eq in Ec. subst c. reflexivity.
    + rewrite string_cons_app. cbn [readCsvFrom]. rewrite Ec. reflexivity.
Qed.

Lemma readCsvFrom_quoteCell (value : string) (row : list string)
    (rows : list (list string)) (rest : string) :
  readCsvFrom BeforeCell EmptyString row rows (quoteCell value ++ rest)
  = readCsvFrom AfterQuote value row rows rest.
Proof.
  unfold quoteCell. rewrite string_cons_app, string_app_assoc.
  cbn [readCsvFrom]. rewrite Ascii.eqb_refl.
  rewrite string_cons_app. change (EmptyString ++ rest)%string with rest.
  apply (readCsvFrom_cell value EmptyString).
Qed.

(** Reading a row of quoted cells joined by commas. *)
Lemma readCsvFrom_row (first : string) (cells : list string) (row : list string)
    (rows : list (list string)) (rest : string) :
  readCsvFrom BeforeCell EmptyString row rows
    (String.concat "," (List.map quoteCell (first :: cells)) ++ rest)
  = readCsvFrom AfterQuote (List.last cells first)
      (row ++ removelast (first :: cells)) rows rest.
Proof.
  revert first row. induction cells as [|second cells IH]; intros first row.
  - cbn [List.map String.concat List.last removelast].
    rewrite readCsvFrom_quoteCell, app_nil_r. reflexivity.
  - change (String.concat "," (List.map quoteCell (first :: second :: cells)))
      with (quoteCell first
            ++ String ","%char
                 (String.concat "," (List.map quoteCell (second :: cells))))%string.
    rewrite string_app_assoc, readCsvFrom_quoteCell, string_cons_app.
    change (readCsvFrom AfterQuote first row rows
              (String ","%char
                 (String.concat "," (List.map quoteCell (second :: cells)) ++ rest)%string))
      with (readCsvFrom BeforeCell EmptyString (row ++ [first]) rows
              (String.concat "," (List.map quoteCell (second :: cells)) ++ rest)%string).
    rewrite IH, <- app_assoc, last_cons. reflexivity.
Qed.

(** Reading the lines of a table none of whose rows is empty gives the
    table back. *)
Lemma readCsvFrom_lines (first : list string) (table : list (list string))
    (rows : list (list string)) :
  Forall (fun row => row <> []) (first :: table) ->
  readCsvFrom BeforeCell EmptyString [] rows
    (String.concat newline
       (List.map (fun row => String.concat "," (List.map quoteCell row))
          (first :: table)))
  = Some (rows ++ first :: table).
Proof.
  revert first rows. induction table as [|second table IH]; intros first rows Hne;
    apply Forall_cons in Hne; destruct Hne as [Hfirst Hne];
    (destruct first as [|cell cells]; [contradiction|]);
    assert (Hlast : removelast (cell :: cells) ++ [List.last cells cell]
                    = cell :: cells)
      by (rewrite <- (last_cons cells cell cell);
          symmetry; apply app_removelast_last; discriminate).
  - change (String.concat newline
              (List.map (fun row => String.concat "," (List.map quoteCell row))
                 [cell :: cells]))
      with (String.concat "," (List.map quoteCell (cell :: cells))).
    rewrite <- (string_app_nil_r (String.concat "," _)).
    rewrite readCsvFrom_row. cbn [readCsvFrom app].
    rewrite Hlast. reflexivity.
  - change (String.concat newline
              (List.map (fun row => String.concat "," (List.map quoteCell row))
                 ((cell :: cells) :: second :: table)))
      with (String.concat "," (List.map quoteCell (cell :: cells))
            ++ String "010"%char
                 (String.concat newline
                    (List.map (fun row => String.concat "," (List.map quoteCell row))
                       (second :: table))))%string.
    rewrite readCsvFrom_row.
    cbn [readCsvFrom app Ascii.eqb Bool.eqb dquote].
    rewrite Hlast, (IH second _ Hne), <- app_assoc. reflexivity.
Qed.

(** The text of the CSV export reads back as the header and the rows. *)
Lemma readCsv_csvContent (annotations : list Ann) :
  readCsv (csvContent Number_toString Date_toLocaleString annotations)
  = Some (csvHeaders :: csvRows Number_toString Date_toLocaleString annotations).
Proof.
  unfold readCsv, csvContent. rewrite readCsvFrom_lines; [reflexivity|].
  constructor; [discriminate|].
  unfold csvRows. apply Forall_forall. intros row Hrow.
  apply list_elem_of_In, in_map_iff in Hrow. destruct Hrow as (a & <- & _).
  discriminate.
Qed.

(** C7, as amended.  The file of the JSON export and the file of the CSV
    export of the same array agree, up to the numbers that are not finite.
    The CSV text reads back as the header and one row for each annotation.
    The [total] and the [totalAnnotations] of the JSON metadata are the
    number of those rows, and its [completed] is the number of those rows
    whose label and selector cells are both non-empty.  For every
    annotation and each of [x], [y], [width] and [height], the cell of the
    CSV row is the text of [Math.round(fraction * 100)]; the member of the
    JSON position is that same number when it is finite, and [null] when
    it is NaN or an infinity. *)
Theorem exports_agree_on_finite_positions (now : Date) (this : PdfExporter.t)
    (filename : string) (w : World.t num) :
  let annotations := default [] (World.arrays w !! PdfExporter.annotations this) in
  let percent (v : num) := Math_round (num_mul v (num_of_Z 100)) in
  exists (text : Json) (content : string) (rows : list (list string)),
    exportAsJson Number_toString Date_toISOString now this filename w
    = (World.mk (World.document w) (World.arrays w)
         (World.downloads w ++ [((filename ++ ".json")%string, JsonBlob text)])
         (World.log w),
       Normal tt)
    /\ exportAsCsv Number_toString Date_toLocaleString this filename w
       = (World.mk (World.document w) (World.arrays w)
            (World.downloads w ++ [((filename ++ ".csv")%string, CsvBlob content)])
            (World.log w),
          Normal tt)
    /\ readCsv content = Some (csvHeaders :: rows)
    /\ length rows = length annotations
    /\ (member "metadata" text ≫= member "total")
       = Some (JsonNumber (Z_toString (Z.of_nat (length rows))))
    /\ (member "metadata" text ≫= member "totalAnnotations")
       = Some (JsonNumber (Z_toString (Z.of_nat (length rows))))
    /\ (member "metadata" text ≫= member "completed")
       = Some (JsonNumber
                 (Z_toString (Z.of_nat (length (filter rowCompleted rows)))))
    /\ forall (i : nat) (a : Ann),
         annotations !! i = Some a ->
         exists record row,
           (member "annotations" text ≫= element i) = Some record
           /\ rows !! i = Some row
           /\ forall (name : string) (column : nat) (v : num),
                (name, column, v)
                  ∈ [("x"%string, 4%nat, Annotation.x a);
                     ("y"%string, 5%nat, Annotation.y a);
                     ("width"%string, 6%nat, Annotation.width a);
                     ("height"%string, 7%nat, Annotation.height a)] ->
                row !! column = Some (Number_toString (percent v))
                /\ (member "position" record ≫= member name)
                   = Some (if Number_isFinite (percent v)
                           then JsonNumber (Number_toString (percent v))
                           else JsonNull).
Proof.
  clear safeCompleteStylesheet splitTextToSize.
  intros annotations percent.
  exists (JSON_stringify Number_toString Date_toISOString
            (exportData Date_toISOString now annotations)),
         (csvContent Number_toString Date_toLocaleString annotations),
         (csvRows Number_toString Date_toLocaleString annotations).
  split; [reflexivity|]. split; [reflexivity|].
  split; [apply readCsv_csvContent|].
  rewrite csvRows_completed. unfold csvRows. rewrite length_map.
  split; [reflexivity|].
  split; [reflexivity|]. split; [reflexivity|]. split; [reflexivity|].
  intros i a Hi.
  exists (stringifyAnnotation Number_toString Date_toISOString (jsonAnnotation a)),
         (csvRow Number_toString Date_toLocaleString a).
  split; [|split].
  - cbn [JSON_stringify member List.find fst snd mbind option_bind element].
    change (String.eqb "metadata" "annotations") with false.
    change (String.eqb "annotations" "annotations") with true.
    cbn [mbind option_bind element snd exportData ExportData.annotations].
    change (List.map (stringifyAnnotation Number_toString Date_toISOString)
              (List.map jsonAnnotation annotations))
      with (stringifyAnnotation Number_toString Date_toISOString
              <$> (jsonAnnotation <$> annotations)).
    rewrite !list_lookup_fmap, Hi. reflexivity.
  - change (List.map (csvRow Number_toString Date_toLocaleString) annotations)
      with (csvRow Number_toString Date_toLocaleString <$> annotations).
    rewrite list_lookup_fmap, Hi. reflexivity.
  - intros name column v Hin.
    rewrite !elem_of_cons, elem_of_nil in Hin.
    unfold stringifyAnnotation, jsonAnnotation. cbn [JsonAnnotation.description].
    destruct Hin as [Hin|[Hin|[Hin|[Hin|[]]]]]; injection Hin as -> -> ->;
      (split; [reflexivity|]);
      destruct (Annotation.description a); reflexivity.
Qed.

End ExportClaims.

(** The annotation of [collapsedWorld] is what a drag creates on a page
    without extent: the divisions by 0 give NaN and Infinity. *)
Example collapsed_page_gesture :
  snd (handleMouseUp collapsedViewer)
  = [onAnnotationCreate
       (AnnotationData.mk PrimFloat.nan PrimFloat.nan
          PrimFloat.infinity PrimFloat.infinity 2 EmptyString EmptyString None);
     onCreatingAnnotationChange false].
Proof. vm_compute. reflexivity. Qed.

(** C7, the claim as it is written fails for an annotation whose
    percentages are not finite: the JSON export writes [null] for [x] and
    for [width] where the CSV export writes [NaN] and [Infinity]. *)
Lemma exports_disagree_on_a_non_finite_position :
  exists (text : Json) (content : string) (rows : list (list string))
         (record : Json) (row : list string),
    World.downloads
      (fst (exportAsJson (Binary64_toString blankNumber) plainDate 5000
              (createPdfExporter 0) "ui-component-selectors" collapsedWorld))
    = [("ui-component-selectors.json"%string, JsonBlob text)]
    /\ World.downloads
         (fst (exportAsCsv (Binary64_toString blankNumber) plainDate
                 (createPdfExporter 0) "ui-component-selectors" collapsedWorld))
       = [("ui-component-selectors.csv"%string, CsvBlob content)]
    /\ readCsv content = Some (csvHeaders :: rows)
    /\ (member "annotations" text ≫= element 1) = Some record
    /\ rows !! 1%nat = Some row
    /\ (member "position" record ≫= member "x") = Some JsonNull
    /\ row !! 4%nat = Some "NaN"%string
    /\ (member "position" record ≫= member "width") = Some JsonNull
    /\ row !! 6%nat = Some "Infinity"%string.
Proof.
  do 5 eexists.
  split; [vm_compute; reflexivity|].
  split; [vm_compute; reflexivity|].
  split; [vm_compute; reflexivity|].
  split; [vm_compute; reflexivity|].
  split; [vm_compute; reflexivity|].
  repeat split; vm_compute; reflexivity.
Qed.

(** C1, on a document with a link that is disabled before the export (an
    alternative theme that is switched off).  However [html2canvas] and
    the calls after it complete, the restoration runs and removes the temporary style sheet,
    but it enables the link: the style sources are not what they were
    before the cycle. *)
Theorem exportAsPdf_enables_a_disabled_link
    (safeCompleteStylesheet : string) (capture : Completion (Canvas.t float))
    (steps : PdfSteps.t) (now : Date) :
  let w' := fst (exportAsPdf plainDate safeCompleteStylesheet oneLine capture
                   steps now (createPdfExporter 0) "annotated-ui-components"
                   sampleOptions sampleWorld) in
  Document.styleSources (World.document sampleWorld) !! 3%nat
  = Some (HTMLLinkElement "/themes/dark.css" true)
  /\ Document.styleSources (World.document w') !! 3%nat
     = Some (HTMLLinkElement "/themes/dark.css" false)
  /\ Document.styleSources (World.document w')
     <> Document.styleSources (World.document sampleWorld)
  /\ Document.tempStylesheet (World.document w') = None
  /\ EvRestoreOriginalStylesheets ∈ World.log w'.
Proof.
  intros w'.
  destruct (exportAsPdf_restores plainDate safeCompleteStylesheet oneLine capture
              steps now (createPdfExporter 0) "annotated-ui-components"
              sampleOptions sampleWorld) as (Hstyles & Htemp & Hlog).
  fold w' in Hstyles, Htemp, Hlog.
  split; [reflexivity|]. rewrite Hstyles.
  split; [reflexivity|].
  split; [|split; [exact Htemp|exact Hlog]].
  simpl. intros Hc. discriminate Hc.
Qed.

(** [addMetadataPage_sorts_the_callers_array] on the sample world, with
    [pdf.save] throwing after the sort: the array at reference 0, on pages
    1, 3, 2 before the export, is on pages 1, 2, 3 after it. *)
Lemma addMetadataPage_sorts_the_callers_array_witness :
  World.arrays sampleWorld !! 0%nat = Some [loginButton; searchBox; footerLink]
  /\ World.arrays
       (fst (exportAsPdf plainDate EmptyString oneLine (Normal sampleCanvas)
               saveFails 5000 (createPdfExporter 0) "annotated-ui-components"
               sampleOptions sampleWorld)) !! 0%nat
     = Some [loginButton; footerLink; searchBox].
Proof.
  split; [reflexivity|].
  exact (proj1 (addMetadataPage_sorts_the_callers_array plainDate EmptyString
                  oneLine sampleCanvas saveFails 5000 "annotated-ui-components"
                  sampleOptions sampleWorld 0
                  [loginButton; searchBox; footerLink] eq_refl eq_refl
                  eq_refl eq_refl eq_refl eq_refl)).
Defined.

(** *** Gestures inside the page, in exact arithmetic *)

Lemma unit_fraction_exact (a W : Qc) :
  (Q2Qc 0 <= a)%Qc -> (a <= W)%Qc -> (Q2Qc 0 < W)%Qc ->
  (Q2Qc 0 <= a / W)%Qc /\ (a / W <= Q2Qc 1)%Qc.
Proof.
  intros Ha HaW HW. unfold Qcdiv.
  pose proof (Qcinv_pos W HW) as Hinv.
  split.
  - apply Qcmult_nonneg_nonneg; [exact Ha|]. apply Qclt_le_weak. exact Hinv.
  - replace (Q2Qc 1) with (W * / W)%Qc.
    + apply Qcmult_le_compat_r; [exact HaW|]. apply Qclt_le_weak. exact Hinv.
    + apply Qcmult_inv_r. intros ->. exact (Qclt_not_eq _ _ HW eq_refl).
Qed.

Lemma min_exact_cases (a b : Qc) : Exact.min a b = a \/ Exact.min a b = b.
Proof. unfold Exact.min. destruct (Exact.ltb b a); [right|left]; reflexivity. Qed.

Lemma abs_diff_exact (a b W : Qc) :
  (Q2Qc 0 <= a)%Qc -> (a <= W)%Qc -> (Q2Qc 0 <= b)%Qc -> (b <= W)%Qc ->
  (Qcabs (b - a) <= W)%Qc.
Proof.
  intros Ha HaW Hb HbW. apply Qcabs_Qcle_condition. split.
  - apply Qcle_minus_iff. replace (b - a + - - W)%Qc with (b + (W + - a))%Qc by ring.
    replace (Q2Qc 0) with (Q2Qc 0 + Q2Qc 0)%Qc by ring.
    apply Qcplus_le_compat; [exact Hb|]. apply Qcle_minus_iff in HaW. exact HaW.
  - apply Qcle_minus_iff. replace (W + - (b - a))%Qc with (a + (W + - b))%Qc by ring.
    replace (Q2Qc 0) with (Q2Qc 0 + Q2Qc 0)%Qc by ring.
    apply Qcplus_le_compat; [exact Ha|]. apply Qcle_minus_iff in HbW. exact HbW.
Qed.

(** In exact arithmetic, a gesture whose two corners are on the page
    creates an annotation whose [x], [y], [width] and [height] are within
    [0, 1]. *)
Lemma handleMouseUp_within_page_exact (v : Viewer.t Qc) (cr : CreatingRect.t Qc)
    (pageInfo : PdfPageInfo.t Qc) (d : AnnotationData.t Qc) :
  Viewer.creatingRect v = Some cr ->
  Viewer.pageInfo v = Some pageInfo ->
  (Q2Qc 0 < PdfPageInfo.width pageInfo)%Qc ->
  (Q2Qc 0 < PdfPageInfo.height pageInfo)%Qc ->
  (Q2Qc 0 <= CreatingRect.startX cr <= PdfPageInfo.width pageInfo)%Qc ->
  (Q2Qc 0 <= CreatingRect.currentX cr <= PdfPageInfo.width pageInfo)%Qc ->
  (Q2Qc 0 <= CreatingRect.startY cr <= PdfPageInfo.height pageInfo)%Qc ->
  (Q2Qc 0 <= CreatingRect.currentY cr <= PdfPageInfo.height pageInfo)%Qc ->
  onAnnotationCreate d ∈ snd (handleMouseUp v) ->
  (Q2Qc 0 <= AnnotationData.x d <= Q2Qc 1)%Qc
  /\ (Q2Qc 0 <= AnnotationData.y d <= Q2Qc 1)%Qc
  /\ (Q2Qc 0 <= AnnotationData.width d <= Q2Qc 1)%Qc
  /\ (Q2Qc 0 <= AnnotationData.height d <= Q2Qc 1)%Qc.
Proof.
  intros Hcr Hpi HW HH [Hsx0 Hsx1] [Hcx0 Hcx1] [Hsy0 Hsy1] [Hcy0 Hcy1].
  unfold handleMouseUp. rewrite Hcr, Hpi.
  destruct (_ || _); simpl; intros Hd.
  - apply elem_of_nil in Hd. contradiction.
  - apply elem_of_cons in Hd. destruct Hd as [Hd|Hd];
      [|apply list_elem_of_singleton in Hd; discriminate Hd].
    injection Hd as ->. simpl.
    repeat split.
    all: try (apply unit_fraction_exact; try assumption;
              first [ apply Qcabs_nonneg
                    | apply abs_diff_exact; assumption
                    | idtac ]).
    all: try (destruct (min_exact_cases (CreatingRect.startX cr) (CreatingRect.currentX cr))
                as [-> | ->]; assumption).
    all: try (destruct (min_exact_cases (CreatingRect.startY cr) (CreatingRect.currentY cr))
                as [-> | ->]; assumption).
Qed.

(* ===================================================================== *)
(** ** Further properties of the store *)
(* ===================================================================== *)

Section StoreMore.
Context {num : Type}.

Local Abbreviation Ann := (Annotation.t num).
Local Abbreviation State := (AnnotationState.t num).

Lemma elem_of_map_id (i : string) (l : list Ann) :
  i ∈ List.map Annotation.id l <-> exists a, Annotation.id a = i /\ a ∈ l.
Proof.
  change (List.map Annotation.id l) with (Annotation.id <$> l).
  rewrite list_elem_of_fmap. split; intros (a & Ha & Hl); exists a; split; congruence.
Qed.

Lemma filter_other_ids (i : string) (l : list Ann) :
  List.filter (fun a => negb (String.eqb (Annotation.id a) i)) l
  = filter (fun a => Annotation.id a <> i) l.
Proof.
  induction l as [|a l IH]; [reflexivity|].
  simpl. rewrite filter_cons.
  destruct (String.eqb_spec (Annotation.id a) i) as [Heq|Hne]; simpl.
  - rewrite decide_False by (intros Hc; exact (Hc Heq)). exact IH.
  - rewrite decide_True by exact Hne. f_equal. exact IH.
Qed.

Lemma filter_unknown_id (i : string) (l : list Ann) :
  i ∉ List.map Annotation.id l ->
  List.filter (fun a => negb (String.eqb (Annotation.id a) i)) l = l.
Proof.
  induction l as [|a l IH]; intros Hi; [reflexivity|].
  simpl in *. apply not_elem_of_cons in Hi. destruct Hi as [Hne Hi].
  destruct (String.eqb_spec (Annotation.id a) i) as [Heq|_]; [congruence|].
  simpl. f_equal. exact (IH Hi).
Qed.

Lemma clearIfId_other (i : string) (st : State) (o : option Ann) :
  refersToStored st o -> i ∉ ids st -> clearIfId i o = o.
Proof.
  intros Ho Hi. destruct o as [a|]; [|reflexivity]. simpl.
  destruct (String.eqb_spec (Annotation.id a) i) as [Heq|_]; [|reflexivity].
  exfalso. apply Hi. rewrite <- Heq. exact (Ho a eq_refl).
Qed.

(** What [updateAll] keeps of every annotation. *)
Lemma updateAll_map {B : Type} (g : Ann -> B) (clock : nat -> Date) (i : string)
    (data : AnnotationFormData.t) :
  (forall a t, g (spreadFormData a data t) = g a) ->
  forall (l : list Ann) (k : nat),
    List.map g (fst (updateAll clock k i data l)) = List.map g l.
Proof.
  intros Hg. induction l as [|a l IH]; intros k; [reflexivity|].
  simpl. destruct (String.eqb (Annotation.id a) i).
  - specialize (IH (S k)). destruct (updateAll clock (S k) i data l).
    simpl in *. rewrite Hg, IH. reflexivity.
  - specialize (IH k). destruct (updateAll clock k i data l).
    simpl in *. rewrite IH. reflexivity.
Qed.

Lemma updateAnnotation_annotations (clock : nat -> Date) (i : string)
    (data : AnnotationFormData.t) (st : State) :
  AnnotationState.annotations (updateAnnotation clock i data st)
  = fst (updateAll clock 0 i data (AnnotationState.annotations st)).
Proof.
  unfold updateAnnotation.
  destruct (updateAll clock 0 i data (AnnotationState.annotations st)). reflexivity.
Qed.

Lemma updateAnnotation_ids (clock : nat -> Date) (i : string)
    (data : AnnotationFormData.t) (st : State) :
  ids (updateAnnotation clock i data st) = ids st.
Proof.
  unfold ids. rewrite updateAnnotation_annotations.
  apply updateAll_map. reflexivity.
Qed.

(** With distinct ids, [updateAll] evaluates [new Date()] once, for the one
    annotation that has the id. *)
Lemma updateAll_unique (clock : nat -> Date) (i : string)
    (data : AnnotationFormData.t) (l : list Ann) :
  NoDup (List.map Annotation.id l) ->
  i ∈ List.map Annotation.id l ->
  forall k,
    updateAll clock k i data l
    = (List.map (fun b => if String.eqb (Annotation.id b) i
                          then spreadFormData b data (clock k) else b) l,
       S k).
Proof.
  induction l as [|a l IH]; intros Hnd Hin k.
  - apply elem_of_nil in Hin. contradiction.
  - simpl in *. apply NoDup_cons in Hnd. destruct Hnd as [Hna Hnd].
    destruct (String.eqb_spec (Annotation.id a) i) as [Heq|Hne].
    + assert (Hl : forall b, b ∈ l -> Annotation.id b <> i).
      { intros b Hb Hc. apply Hna. apply elem_of_map_id.
        exists b. split; [congruence|exact Hb]. }
      rewrite (updateAll_unknown clock (S k) i data l Hl).
      f_equal. f_equal.
      clear -Hl. induction l as [|b l IH]; [reflexivity|]. simpl.
      destruct (String.eqb_spec (Annotation.id b) i) as [Hb|_].
      * exfalso. apply (Hl b); [left|exact Hb].
      * f_equal. apply IH. intros c Hc. apply Hl. right. exact Hc.
    + apply elem_of_cons in Hin. destruct Hin as [Hin|Hin]; [congruence|].
      rewrite (IH Hnd Hin k). reflexivity.
Qed.

(** X1.  Creating an annotation under an id no stored annotation has and
    deleting that id gives back the list of before, with no annotation
    selected and none open in the editor. *)
Theorem createAnnotation_then_deleteAnnotation (newId : string) (now : Date)
    (data : AnnotationData.t num) (prev : State) :
  newId ∉ ids prev ->
  deleteAnnotation newId (fst (createAnnotation newId now data prev))
  = AnnotationState.mk (AnnotationState.annotations prev) None
      (AnnotationState.isCreating prev) None.
Proof.
  intros Hfresh. unfold deleteAnnotation, createAnnotation. simpl.
  rewrite List.filter_app, (filter_unknown_id newId _ Hfresh). simpl.
  rewrite String.eqb_refl. simpl. rewrite app_nil_r. reflexivity.
Qed.

(** X2.  After [deleteAnnotation(id)] no stored annotation has the id, the
    other annotations are all there in their order, and neither the
    selection nor the editor holds an annotation with the id; a selection
    or an edition of another annotation is kept. *)
Theorem deleteAnnotation_removes_the_id (id : string) (st : State) :
  let st' := deleteAnnotation id st in
  (id ∉ ids st')
  /\ AnnotationState.annotations st'
     = filter (fun a => Annotation.id a <> id) (AnnotationState.annotations st)
  /\ (forall s, AnnotationState.selectedAnnotation st' = Some s ->
        Annotation.id s <> id)
  /\ (forall s, AnnotationState.editingAnnotation st' = Some s ->
        Annotation.id s <> id)
  /\ (forall s, AnnotationState.selectedAnnotation st = Some s ->
        Annotation.id s <> id ->
        AnnotationState.selectedAnnotation st' = Some s)
  /\ (forall s, AnnotationState.editingAnnotation st = Some s ->
        Annotation.id s <> id ->
        AnnotationState.editingAnnotation st' = Some s)
  /\ AnnotationState.isCreating st' = AnnotationState.isCreating st.
Proof.
  intros st'. subst st'. unfold deleteAnnotation, ids. simpl.
  rewrite filter_other_ids.
  assert (Hclear : forall (o : option Ann) (s : Ann),
            clearIfId id o = Some s -> Annotation.id s <> id).
  { intros [a|] s; simpl; [|discriminate].
    destruct (String.eqb_spec (Annotation.id a) id); [discriminate|].
    intros [= <-]. assumption. }
  assert (Hkeep : forall (o : option Ann) (s : Ann),
            o = Some s -> Annotation.id s <> id -> clearIfId id o = Some s).
  { intros o s -> Hne. simpl.
    destruct (String.eqb_spec (Annotation.id s) id); [contradiction|reflexivity]. }
  split.
  - intros Hin.
    apply elem_of_map_id in Hin. destruct Hin as (a & Ha & Hin).
    apply list_elem_of_filter in Hin. destruct Hin as [Hne _]. congruence.
  - split; [reflexivity|].
    split; [apply Hclear|]. split; [apply Hclear|].
    split; [apply Hkeep|]. split; [apply Hkeep|reflexivity].
Qed.

(** X3.  In a state whose selection and editor refer to stored
    annotations, [deleteAnnotation] with an id no stored annotation has
    changes nothing at all. *)
Theorem deleteAnnotation_unknown_id_noop (id : string) (st : State) :
  noDanglingReference st ->
  id ∉ ids st ->
  deleteAnnotation id st = st.
Proof.
  intros [Hsel Hed] Hid. unfold deleteAnnotation.
  rewrite (filter_unknown_id id _ Hid).
  rewrite (clearIfId_other id st _ Hsel Hid), (clearIfId_other id st _ Hed Hid).
  destruct st; reflexivity.
Qed.

(** X4.  The operations of the store, as the components call them, keep
    the selection and the editor on annotations that have the id of a
    stored annotation. *)
Theorem uiStep_noDanglingReference (st st' : State) :
  noDanglingReference st -> uiStep st st' -> noDanglingReference st'.
Proof.
  intros [Hsel Hed] Hstep.
  destruct Hstep as [newId now data st Hfresh|clock id data st|id st|a st Ha|st
                    |a st Ha|st|b st|st].
  - assert (Hnew : forall o : Ann, Annotation.id o = newId ->
              Annotation.id o ∈ ids (fst (createAnnotation newId now data st))).
    { intros o ->. unfold ids, createAnnotation. simpl.
      rewrite map_app. apply elem_of_app. right. simpl. left. }
    split; intros a [= <-]; apply Hnew; reflexivity.
  - split.
    + intros a Ha. rewrite updateAnnotation_ids.
      unfold updateAnnotation in Ha.
      destruct (updateAll clock 0 id data (AnnotationState.annotations st)).
      simpl in Ha.
      destruct (AnnotationState.selectedAnnotation st) as [s|] eqn:Es;
        [|discriminate].
      destruct (String.eqb (Annotation.id s) id); injection Ha as <-;
        apply (Hsel s eq_refl).
    + intros a Ha. unfold updateAnnotation in Ha.
      destruct (updateAll clock 0 id data (AnnotationState.annotations st)).
      discriminate Ha.
  - assert (Hgen : forall o, refersToStored st o ->
              refersToStored (deleteAnnotation id st) (clearIfId id o)).
    { intros [s|] Ho a; simpl; [|discriminate].
      destruct (String.eqb_spec (Annotation.id s) id) as [|Hne]; [discriminate|].
      intros [= <-]. specialize (Ho s eq_refl).
      unfold ids, deleteAnnotation in *. simpl. rewrite filter_other_ids.
      apply elem_of_map_id in Ho. destruct Ho as (b & Hb & Hin).
      apply elem_of_map_id. exists b. split; [exact Hb|].
      apply list_elem_of_filter. split; [congruence|exact Hin]. }
    split; apply Hgen; assumption.
  - split; [|intros b Hb; discriminate Hb].
    intros b [= <-]. unfold ids. simpl.
    apply elem_of_map_id. exists a. split; [reflexivity|exact Ha].
  - split; intros b Hb; discriminate Hb.
  - split; [exact Hsel|].
    intros b [= <-]. unfold ids. simpl.
    apply elem_of_map_id. exists a. split; [reflexivity|exact Ha].
  - split; [exact Hsel|]. intros b Hb; discriminate Hb.
  - split; assumption.
  - split; intros b Hb; discriminate Hb.
Qed.

(** X5.  With [generateId] returning ids no stored annotation has, the
    ids of the stored annotations stay pairwise distinct. *)
Theorem uiStep_distinct_ids (st st' : State) :
  NoDup (ids st) -> uiStep st st' -> NoDup (ids st').
Proof.
  intros Hnd Hstep.
  destruct Hstep as [newId now data st Hfresh|clock id data st|id st|a st Ha|st
                    |a st Ha|st|b st|st]; try exact Hnd.
  - unfold ids, createAnnotation in *. simpl. rewrite map_app. simpl.
    apply NoDup_app. split; [exact Hnd|]. split.
    + intros x Hx Hx'. apply list_elem_of_singleton in Hx'. subst x.
      exact (Hfresh Hx).
    + apply NoDup_singleton.
  - rewrite updateAnnotation_ids. exact Hnd.
  - unfold ids, deleteAnnotation in *. simpl. rewrite filter_other_ids.
    revert Hnd. generalize (AnnotationState.annotations st). clear.
    induction l as [|a l IH]; intros Hnd; [constructor|].
    simpl in Hnd. apply NoDup_cons in Hnd. destruct Hnd as [Ha Hnd].
    rewrite filter_cons. destruct (decide (Annotation.id a <> id)); [|exact (IH Hnd)].
    simpl. apply NoDup_cons. split; [|exact (IH Hnd)].
    intros Hin. apply Ha. apply elem_of_map_id in Hin.
    destruct Hin as (b & Hb & Hin). apply list_elem_of_filter in Hin.
    apply elem_of_map_id. exists b. split; [exact Hb|apply Hin].
  - apply NoDup_nil. constructor.
Qed.

End StoreMore.

Section StoreStats.
Context {num : Type}.

Local Abbreviation Ann := (Annotation.t num).
Local Abbreviation State := (AnnotationState.t num).

Lemma distinct_ids_inj (l : list Ann) (a b : Ann) :
  NoDup (List.map Annotation.id l) ->
  a ∈ l -> b ∈ l -> Annotation.id a = Annotation.id b -> a = b.
Proof.
  induction l as [|c l IH]; intros Hnd Ha Hb Hid.
  - apply elem_of_nil in Ha. contradiction.
  - simpl in Hnd. apply NoDup_cons in Hnd. destruct Hnd as [Hc Hnd].
    apply elem_of_cons in Ha. apply elem_of_cons in Hb.
    destruct Ha as [->|Ha], Hb as [->|Hb]; [reflexivity| | |exact (IH Hnd Ha Hb Hid)].
    + exfalso. apply Hc. apply elem_of_map_id. exists b. split; [congruence|exact Hb].
    + exfalso. apply Hc. apply elem_of_map_id. exists a. split; [congruence|exact Ha].
Qed.

(** X6.  With distinct ids and the selection being the stored annotation
    that is updated: the stored annotation gets the fields of the data and
    the first value of [new Date()], the selection gets the same fields and
    the second value of [new Date()]; so the selection is an annotation of
    the list again exactly when the two values are the same. *)
Theorem updateAnnotation_refreshes_selection (clock : nat -> Date) (id : string)
    (data : AnnotationFormData.t) (prev : State) (a : Ann) :
  NoDup (ids prev) ->
  a ∈ AnnotationState.annotations prev ->
  Annotation.id a = id ->
  AnnotationState.selectedAnnotation prev = Some a ->
  let next := updateAnnotation clock id data prev in
  AnnotationState.annotations next
  = List.map (fun b => if String.eqb (Annotation.id b) id
                       then spreadFormData b data (clock 0%nat) else b)
      (AnnotationState.annotations prev)
  /\ spreadFormData a data (clock 0%nat) ∈ AnnotationState.annotations next
  /\ AnnotationState.selectedAnnotation next
     = Some (spreadFormData a data (clock 1%nat))
  /\ (spreadFormData a data (clock 1%nat) ∈ AnnotationState.annotations next
      <-> clock 0%nat = clock 1%nat).
Proof.
  intros Hnd Ha Hid Hsel next. subst next. unfold updateAnnotation.
  assert (Hin : id ∈ List.map Annotation.id (AnnotationState.annotations prev)).
  { apply elem_of_map_id. exists a. split; assumption. }
  rewrite (updateAll_unique clock id data _ Hnd Hin 0). simpl.
  rewrite Hsel, Hid, String.eqb_refl.
  set (f := fun b : Ann => if String.eqb (Annotation.id b) id
                           then spreadFormData b data (clock 0%nat) else b).
  assert (Hfa : f a = spreadFormData a data (clock 0%nat)).
  { unfold f. rewrite Hid, String.eqb_refl. reflexivity. }
  split; [reflexivity|]. split.
  - rewrite <- Hfa. change (List.map f ?l) with (f <$> l).
    apply list_elem_of_fmap_2. exact Ha.
  - split; [reflexivity|]. split.
    + intros Hmem. change (List.map f ?l) with (f <$> l) in Hmem.
      apply list_elem_of_fmap in Hmem. destruct Hmem as (b & Hb & Hbl).
      unfold f in Hb.
      destruct (String.eqb_spec (Annotation.id b) id) as [Hbid|Hbid].
      * apply (f_equal Annotation.updatedAt) in Hb. simpl in Hb. congruence.
      * exfalso. apply Hbid. rewrite <- Hb. simpl. exact Hid.
    + intros <-. rewrite <- Hfa. change (List.map f ?l) with (f <$> l).
      apply list_elem_of_fmap_2. exact Ha.
Qed.

Lemma filter_page_length (p : Z) (l1 l2 : list Ann) :
  List.map Annotation.pageNumber l1 = List.map Annotation.pageNumber l2 ->
  length (List.filter (fun a => Z.eqb (Annotation.pageNumber a) p) l1)
  = length (List.filter (fun a => Z.eqb (Annotation.pageNumber a) p) l2).
Proof.
  revert l2; induction l1 as [|a l1 IH]; intros [|b l2] Hmap; try discriminate;
    [reflexivity|].
  simpl in *. injection Hmap as Hab Hmap. rewrite Hab.
  destruct (Z.eqb _ p); simpl; rewrite (IH l2 Hmap); reflexivity.
Qed.

(** X7.  [updateAnnotation] changes neither which annotations there are nor
    where they are: the ids, the pages, the rectangles and the creation
    dates are the same, in the same order; so the total and the page count
    of the statistics and the number of annotations of every page are
    unchanged. *)
Theorem updateAnnotation_keeps_places (clock : nat -> Date) (id : string)
    (data : AnnotationFormData.t) (prev : State) :
  let next := updateAnnotation clock id data prev in
  ids next = ids prev
  /\ List.map Annotation.pageNumber (AnnotationState.annotations next)
     = List.map Annotation.pageNumber (AnnotationState.annotations prev)
  /\ List.map rectOf (AnnotationState.annotations next)
     = List.map rectOf (AnnotationState.annotations prev)
  /\ List.map Annotation.createdAt (AnnotationState.annotations next)
     = List.map Annotation.createdAt (AnnotationState.annotations prev)
  /\ Stats.total (getAnnotationStats next) = Stats.total (getAnnotationStats prev)
  /\ Stats.pages (getAnnotationStats next) = Stats.pages (getAnnotationStats prev)
  /\ (forall p, length (getAnnotationsForPage next p)
                = length (getAnnotationsForPage prev p)).
Proof.
  intros next. subst next.
  assert (Hpages :
    List.map Annotation.pageNumber
      (AnnotationState.annotations (updateAnnotation clock id data prev))
    = List.map Annotation.pageNumber (AnnotationState.annotations prev)).
  { rewrite updateAnnotation_annotations. apply updateAll_map. reflexivity. }
  split; [apply updateAnnotation_ids|]. split; [exact Hpages|].
  split; [rewrite updateAnnotation_annotations; apply updateAll_map; reflexivity|].
  split; [rewrite updateAnnotation_annotations; apply updateAll_map; reflexivity|].
  split; [|split].
  - unfold getAnnotationStats, annotationStats. simpl.
    rewrite <- (length_map Annotation.pageNumber), Hpages, length_map. reflexivity.
  - unfold getAnnotationStats, annotationStats. simpl. rewrite Hpages. reflexivity.
  - intros p. unfold getAnnotationsForPage. apply filter_page_length. exact Hpages.
Qed.

(** X8.  The statistics are within their bounds: [completed] and
    [incomplete] are between 0 and [total], [pages] is between 0 and
    [total], and [pages] is 0 only for the empty store. *)
Theorem getAnnotationStats_bounds (st : State) :
  let stats := getAnnotationStats st in
  0 <= Stats.completed stats <= Stats.total stats
  /\ 0 <= Stats.incomplete stats <= Stats.total stats
  /\ 0 <= Stats.pages stats <= Stats.total stats
  /\ (Stats.pages stats = 0 <-> AnnotationState.annotations st = [])
  /\ (Stats.total stats = 0 <-> AnnotationState.annotations st = []).
Proof.
  intros stats. subst stats. unfold getAnnotationStats.
  destruct (annotationStats_pages (AnnotationState.annotations st))
    as (ps & Hnd & Hps & Hlen).
  generalize dependent (AnnotationState.annotations st). intros l ps_spec Hlen.
  assert (Hc : (length (List.filter isCompleted l) <= length l)%nat)
    by apply List.filter_length_le.
  assert (Hp : (length ps <= length l)%nat).
  { rewrite <- (length_map Annotation.pageNumber l).
    apply submseteq_length, NoDup_submseteq; [exact Hnd|].
    intros p Hp. apply ps_spec in Hp. destruct Hp as (a & Ha & <-).
    change (List.map Annotation.pageNumber l) with (Annotation.pageNumber <$> l).
    apply list_elem_of_fmap_2. exact Ha. }
  rewrite Hlen. unfold annotationStats. simpl.
  split; [lia|]. split; [lia|]. split; [lia|]. split.
  - split.
    + intros H0. destruct l as [|a l]; [reflexivity|]. exfalso.
      assert (Hin : Annotation.pageNumber a ∈ ps).
      { apply ps_spec. exists a. split; [left|reflexivity]. }
      destruct ps; [apply elem_of_nil in Hin; contradiction|simpl in H0; lia].
    + intros ->. destruct ps as [|p ps]; [reflexivity|]. exfalso.
      assert (Hin : p ∈ p :: ps) by left.
      apply ps_spec in Hin. destruct Hin as (a & Ha & _).
      apply elem_of_nil in Ha. contradiction.
  - split; [intros H0; destruct l; [reflexivity|simpl in H0; lia]|intros ->; reflexivity].
Qed.

End StoreStats.

(* ===================================================================== *)
(** ** Further properties of the viewer *)
(* ===================================================================== *)

Section GestureMore.
Context {num : Type} `{JsNumber num}.

(** A creation [handleMouseUp] asks for: the calls, the state of the
    viewer and the data, which have no label and no selector and are on
    the page shown. *)
Lemma handleMouseUp_creation (v : Viewer.t num) (d : AnnotationData.t num) :
  onAnnotationCreate d ∈ snd (handleMouseUp v) ->
  handleMouseUp v
  = (setCreatingRect None v,
     [onAnnotationCreate d; onCreatingAnnotationChange false])
  /\ AnnotationData.componentLabel d = EmptyString
  /\ AnnotationData.cssSelector d = EmptyString
  /\ AnnotationData.pageNumber d = Viewer.pageNumber v.
Proof.
  unfold handleMouseUp.
  destruct (Viewer.creatingRect v) as [cr|];
    [|intros Hd; apply elem_of_nil in Hd; contradiction].
  destruct (Viewer.pageInfo v) as [pageInfo|];
    [|intros Hd; apply elem_of_nil in Hd; contradiction].
  destruct (_ || _); simpl; intros Hd.
  - apply elem_of_nil in Hd. contradiction.
  - apply elem_of_cons in Hd. destruct Hd as [Hd|Hd].
    + injection Hd as ->. repeat split; reflexivity.
    + apply list_elem_of_singleton in Hd. discriminate Hd.
Qed.

(** Outside the creation mode, before the page is loaded or without the
    page element, a press starts no rectangle. *)
Lemma handleMouseDown_cannot_start (isCreatingAnnotation : bool)
    (pageRef : option (DOMRect.t num)) (down : MouseEvent.t num)
    (v : Viewer.t num) :
  isCreatingAnnotation = false \/ Viewer.pageInfo v = None \/ pageRef = None ->
  handleMouseDown isCreatingAnnotation pageRef down v = v.
Proof.
  intros Hoff. unfold handleMouseDown. destruct Hoff as [-> | [-> | ->]].
  - reflexivity.
  - rewrite orb_true_r. reflexivity.
  - destruct (_ || _); reflexivity.
Qed.

(** A gesture that cannot start, with no rectangle being drawn, leaves the
    viewer as it is. *)
Lemma gesture_cannot_start (isCreatingAnnotation : bool)
    (pageRef : option (DOMRect.t num)) (down move : MouseEvent.t num)
    (v : Viewer.t num) :
  Viewer.creatingRect v = None ->
  isCreatingAnnotation = false \/ Viewer.pageInfo v = None \/ pageRef = None ->
  gesture isCreatingAnnotation pageRef down move v = (v, []).
Proof.
  intros Hcr Hoff.
  unfold gesture. rewrite (handleMouseDown_cannot_start _ _ _ _ Hoff).
  unfold handleMouseMove, handleMouseUp. rewrite Hcr. rewrite Hcr. reflexivity.
Qed.

(** X9.  Outside the creation mode, or before the page is loaded, or
    without the page element, a press starts no rectangle: a press, a move
    and a release do what the move and the release alone do, and these two
    test only the rectangle being drawn.  With no rectangle being drawn
    when the gesture starts, that is nothing: the viewer is left as it is
    and no call is made on the store. *)
Theorem gesture_outside_creation_mode (isCreatingAnnotation : bool)
    (pageRef : option (DOMRect.t num)) (down move : MouseEvent.t num)
    (v : Viewer.t num) :
  isCreatingAnnotation = false \/ Viewer.pageInfo v = None \/ pageRef = None ->
  handleMouseDown isCreatingAnnotation pageRef down v = v
  /\ gesture isCreatingAnnotation pageRef down move v
     = handleMouseUp (handleMouseMove pageRef move v)
  /\ (Viewer.creatingRect v = None ->
      gesture isCreatingAnnotation pageRef down move v = (v, [])
      /\ forall newId now st,
           fold_left (fun s c => runCallback newId now c s)
             (snd (gesture isCreatingAnnotation pageRef down move v)) st = st).
Proof.
  intros Hoff.
  split; [exact (handleMouseDown_cannot_start _ _ _ _ Hoff)|].
  split.
  - unfold gesture. rewrite (handleMouseDown_cannot_start _ _ _ _ Hoff).
    reflexivity.
  - intros Hcr.
    rewrite (gesture_cannot_start _ pageRef down move v Hcr Hoff).
    split; reflexivity.
Qed.

(** X10.  A release that creates an annotation ends the gesture and the
    creation mode: the new annotation is the last of the list, on the page
    shown, selected and open in the editor, and counted as incomplete; the
    rectangle being drawn is dropped and [isCreating] is false, so that
    another release, or a whole new gesture, creates nothing. *)
Theorem mouseUp_creates_one_and_ends_creation (newId : string) (now : Date)
    (v : Viewer.t num) (st : AnnotationState.t num) (d : AnnotationData.t num) :
  onAnnotationCreate d ∈ snd (handleMouseUp v) ->
  let v' := fst (mouseUp newId now v st) in
  let st' := snd (mouseUp newId now v st) in
  let created :=
    Annotation.mk newId (AnnotationData.x d) (AnnotationData.y d)
      (AnnotationData.width d) (AnnotationData.height d)
      (Viewer.pageNumber v) EmptyString EmptyString
      (AnnotationData.description d) now now in
  AnnotationState.annotations st' = AnnotationState.annotations st ++ [created]
  /\ AnnotationState.selectedAnnotation st' = Some created
  /\ AnnotationState.editingAnnotation st' = Some created
  /\ AnnotationState.isCreating st' = false
  /\ Viewer.creatingRect v' = None
  /\ Stats.total (getAnnotationStats st') = Stats.total (getAnnotationStats st) + 1
  /\ Stats.completed (getAnnotationStats st') = Stats.completed (getAnnotationStats st)
  /\ snd (handleMouseUp v') = []
  /\ (forall pageRef down move,
        gesture (AnnotationState.isCreating st') pageRef down move v' = (v', [])).
Proof.
  intros Hd v' st' created.
  destruct (handleMouseUp_creation v d Hd) as (Hup & Hlabel & Hsel & Hpage).
  assert (Hv : v' = setCreatingRect None v).
  { subst v'. unfold mouseUp. rewrite Hup. reflexivity. }
  assert (Hst : st' = setIsCreating false (fst (createAnnotation newId now d st))).
  { subst st'. unfold mouseUp. rewrite Hup. reflexivity. }
  assert (Hcreated : snd (createAnnotation newId now d st) = created).
  { unfold createAnnotation, created. simpl. rewrite Hlabel, Hsel, Hpage. reflexivity. }
  rewrite Hst, Hv. unfold createAnnotation in *. simpl in *. rewrite Hcreated.
  repeat (split; [reflexivity|]).
  split; [|split; [|split; [reflexivity|]]].
  - unfold getAnnotationStats, annotationStats. simpl.
    rewrite length_app. simpl. lia.
  - unfold getAnnotationStats, annotationStats. simpl.
    rewrite List.filter_app, length_app. simpl. lia.
  - intros pageRef down move.
    apply gesture_cannot_start; [reflexivity|left; reflexivity].
Qed.

End GestureMore.

Lemma zoomReachable_levels (s : float) : zoomReachable s -> In s zoomLevels.
Proof.
  intros Hs. induction Hs as [|s _ IH|s _ IH|s _ IH].
  - vm_compute. tauto.
  - simpl in IH.
    repeat (destruct IH as [<-|IH]; [vm_compute; tauto|]). contradiction.
  - simpl in IH.
    repeat (destruct IH as [<-|IH]; [vm_compute; tauto|]). contradiction.
  - vm_compute. tauto.
Qed.

(** X11.  From its initial value the zoom only takes the eleven values
    0.5, 0.75, ..., 3: it stays between [minScale] and [maxScale]. *)
Theorem zoom_stays_within_bounds (s : float) :
  zoomReachable s ->
  In s zoomLevels
  /\ (PDF_CONFIG.minScale <=? s)%float = true
  /\ (s <=? PDF_CONFIG.maxScale)%float = true.
Proof.
  intros Hs. pose proof (zoomReachable_levels s Hs) as Hin.
  split; [exact Hin|].
  simpl in Hin.
  repeat (destruct Hin as [<-|Hin]; [split; vm_compute; reflexivity|]).
  contradiction.
Qed.

(** X12.  Below the maximum, zooming in and then out gives the zoom back,
    and above the minimum, zooming out and then in; at the maximum zooming
    in changes nothing, and at the minimum zooming out changes nothing. *)
Theorem zoom_in_out_roundtrip (s : float) :
  zoomReachable s ->
  (s <> PDF_CONFIG.maxScale -> handleZoomOut (handleZoomIn s) = s)
  /\ (s <> PDF_CONFIG.minScale -> handleZoomIn (handleZoomOut s) = s)
  /\ handleZoomIn PDF_CONFIG.maxScale = PDF_CONFIG.maxScale
  /\ handleZoomOut PDF_CONFIG.minScale = PDF_CONFIG.minScale.
Proof.
  intros Hs. pose proof (zoomReachable_levels s Hs) as Hin.
  simpl in Hin.
  split; [|split; [|split; vm_compute; reflexivity]].
  - intros Hmax.
    repeat (destruct Hin as [<-|Hin];
            [first [vm_compute; reflexivity | exfalso; apply Hmax; reflexivity]|]).
    contradiction.
  - intros Hmin.
    repeat (destruct Hin as [<-|Hin];
            [first [vm_compute; reflexivity | exfalso; apply Hmin; reflexivity]|]).
    contradiction.
Qed.

(** X13.  With a document of at least one page, the page shown stays
    between 1 and [numPages]: the previous page of page 1 is page 1, the
    next page of the last page is the last page, and otherwise the page
    moves by one. *)
Theorem page_stays_within_document (numPages pageNumber : Z) :
  1 <= pageNumber <= numPages ->
  1 <= handlePreviousPage pageNumber <= numPages
  /\ 1 <= handleNextPage numPages pageNumber <= numPages
  /\ (pageNumber = 1 -> handlePreviousPage pageNumber = 1)
  /\ (pageNumber = numPages -> handleNextPage numPages pageNumber = numPages)
  /\ (1 < pageNumber -> handlePreviousPage pageNumber = pageNumber - 1)
  /\ (pageNumber < numPages -> handleNextPage numPages pageNumber = pageNumber + 1)
  /\ (pageNumber < numPages ->
      handlePreviousPage (handleNextPage numPages pageNumber) = pageNumber).
Proof.
  intros Hp. unfold handlePreviousPage, handleNextPage. lia.
Qed.

(* ===================================================================== *)
(** ** The list of annotations *)
(* ===================================================================== *)

Section GroupingFacts.
Context {num : Type}.

Local Abbreviation Ann := (Annotation.t num).

(** The annotations of a page, as [getAnnotationsForPage] filters them. *)
Local Abbreviation onPage p :=
  (List.filter (fun a : Ann => Z.eqb (Annotation.pageNumber a) p)).

Lemma groupStep_lookup (acc : gmap Z (list Ann)) (a : Ann) (p : Z) :
  groupStep acc a !! p
  = if decide (p = Annotation.pageNumber a)
    then Some (default [] (acc !! p) ++ [a])
    else acc !! p.
Proof.
  unfold groupStep. destruct (decide (p = Annotation.pageNumber a)) as [->|Hne].
  - rewrite lookup_insert_eq.
    destruct (acc !! Annotation.pageNumber a) eqn:E; [rewrite E; reflexivity|].
    rewrite lookup_insert_eq. reflexivity.
  - rewrite lookup_insert_ne by congruence.
    destruct (acc !! Annotation.pageNumber a); [reflexivity|].
    rewrite lookup_insert_ne by congruence. reflexivity.
Qed.

Lemma fold_groupStep_lookup (l : list Ann) (acc : gmap Z (list Ann)) (p : Z) :
  fold_left groupStep l acc !! p
  = match acc !! p with
    | Some g => Some (g ++ onPage p l)
    | None => match onPage p l with [] => None | f => Some f end
    end.
Proof.
  revert acc; induction l as [|a l IH]; intros acc; simpl.
  - destruct (acc !! p); [rewrite app_nil_r|]; reflexivity.
  - rewrite IH, groupStep_lookup.
    destruct (decide (p = Annotation.pageNumber a)) as [->|Hne].
    + rewrite Z.eqb_refl.
      destruct (acc !! Annotation.pageNumber a); simpl;
        [rewrite <- app_assoc|]; reflexivity.
    + destruct (Z.eqb_spec (Annotation.pageNumber a) p); [congruence|]. reflexivity.
Qed.

Lemma groupedAnnotations_lookup (l : list Ann) (p : Z) :
  groupedAnnotations l !! p
  = match onPage p l with [] => None | f => Some f end.
Proof.
  unfold groupedAnnotations. rewrite fold_groupStep_lookup, lookup_empty. reflexivity.
Qed.

Lemma onPage_nonempty (l : list Ann) (p : Z) :
  onPage p l <> [] <-> exists a, a ∈ l /\ Annotation.pageNumber a = p.
Proof.
  induction l as [|a l IH]; simpl.
  - split; [congruence|]. intros (a & Ha & _). apply elem_of_nil in Ha. contradiction.
  - destruct (Z.eqb_spec (Annotation.pageNumber a) p) as [Heq|Hne].
    + split; [|discriminate]. intros _. exists a. split; [left|exact Heq].
    + rewrite IH. split; intros (b & Hb & Hp); exists b; split; try exact Hp.
      * right. exact Hb.
      * apply elem_of_cons in Hb. destruct Hb as [->|Hb]; [congruence|exact Hb].
Qed.

Lemma sortedPages_elem (l : list Ann) (p : Z) :
  p ∈ sortedPages l <-> exists a, a ∈ l /\ Annotation.pageNumber a = p.
Proof.
  unfold sortedPages. rewrite merge_sort_Permutation, elem_of_elements, elem_of_dom.
  rewrite groupedAnnotations_lookup, <- onPage_nonempty.
  destruct (onPage p l); split; intros Hx; try congruence; try (eexists; reflexivity).
  destruct Hx; discriminate.
Qed.

Lemma sortedPages_NoDup (l : list Ann) : NoDup (sortedPages l).
Proof.
  unfold sortedPages. rewrite merge_sort_Permutation. apply NoDup_elements.
Qed.

Lemma onPage_split (p : Z) (l : list Ann) :
  onPage p l
  ++ List.filter (fun a => negb (Z.eqb (Annotation.pageNumber a) p)) l ≡ₚ l.
Proof.
  induction l as [|a l IH]; [reflexivity|]. simpl.
  destruct (Z.eqb (Annotation.pageNumber a) p); simpl.
  - rewrite IH. reflexivity.
  - rewrite <- Permutation_middle, IH. reflexivity.
Qed.

Lemma onPage_other (p q : Z) (l : list Ann) :
  q <> p ->
  onPage q (List.filter (fun a => negb (Z.eqb (Annotation.pageNumber a) p)) l)
  = onPage q l.
Proof.
  intros Hne. induction l as [|a l IH]; [reflexivity|]. simpl.
  destruct (Z.eqb_spec (Annotation.pageNumber a) p) as [Hp|Hp]; simpl.
  - destruct (Z.eqb_spec (Annotation.pageNumber a) q); [congruence|exact IH].
  - rewrite IH. reflexivity.
Qed.

Lemma concat_onPage (ps : list Z) :
  NoDup ps ->
  forall l : list Ann,
    (forall a, a ∈ l -> Annotation.pageNumber a ∈ ps) ->
    concat (List.map (fun p => onPage p l) ps) ≡ₚ l.
Proof.
  induction ps as [|p ps IH]; intros Hnd l Hl.
  - destruct l as [|a l]; [reflexivity|].
    exfalso. apply (elem_of_nil (Annotation.pageNumber a)). apply Hl. left.
  - apply NoDup_cons in Hnd. destruct Hnd as [Hp Hnd]. simpl.
    etransitivity; [|apply (onPage_split p l)]. apply Permutation_app_head.
    rewrite <- (IH Hnd (List.filter (fun a => negb (Z.eqb (Annotation.pageNumber a) p)) l)).
    + apply Permutation_refl'. f_equal. apply map_ext_in. intros q Hq.
      symmetry. apply onPage_other. intros ->. apply Hp.
      apply list_elem_of_In. exact Hq.
    + intros a Ha. apply list_elem_of_In, filter_In in Ha. destruct Ha as [Ha Hne].
      apply list_elem_of_In in Ha. specialize (Hl a Ha).
      apply elem_of_cons in Hl. destruct Hl as [Heq|Hin]; [|exact Hin].
      rewrite Heq, Z.eqb_refl in Hne. discriminate Hne.
Qed.

(** X14.  The list of annotations groups them by page.  The pages listed
    are in strictly ascending order and are exactly the pages that have an
    annotation, as many as the page count of the statistics; the group of a
    page is what [getAnnotationsForPage] gives for it, in the order of the
    store, and is not empty; and the groups together are the annotations
    of the store, each one once. *)
Theorem annotationList_groups_by_page (st : AnnotationState.t num) :
  let annotations := AnnotationState.annotations st in
  StronglySorted Z.lt (sortedPages annotations)
  /\ (forall p, p ∈ sortedPages annotations <->
        exists a, a ∈ annotations /\ Annotation.pageNumber a = p)
  /\ Z.of_nat (length (sortedPages annotations)) = Stats.pages (getAnnotationStats st)
  /\ (forall p, default [] (groupedAnnotations annotations !! p)
                = getAnnotationsForPage st p)
  /\ (forall p, p ∈ sortedPages annotations ->
        groupedAnnotations annotations !! p <> Some []
        /\ groupedAnnotations annotations !! p <> None)
  /\ listedAnnotations annotations ≡ₚ annotations.
Proof.
  intros l. subst l. set (l := AnnotationState.annotations st).
  assert (Hgroup : forall p, default [] (groupedAnnotations l !! p) = onPage p l).
  { intros p. rewrite groupedAnnotations_lookup. destruct (onPage p l); reflexivity. }
  split; [|split; [apply sortedPages_elem|split; [|split; [exact Hgroup|split]]]].
  - assert (Hs : StronglySorted Z.le (sortedPages l)).
    { apply StronglySorted_merge_sort; [intros x y z; apply Z.le_trans|].
      intros x y. destruct (Z.le_ge_cases x y); [left|right]; assumption. }
    pose proof (sortedPages_NoDup l) as Hnd.
    induction Hs as [|p ps Hs IH Hall]; [constructor|].
    apply NoDup_cons in Hnd. destruct Hnd as [Hp Hnd].
    constructor; [exact (IH Hnd)|].
    apply Forall_forall. intros q Hq.
    rewrite Forall_forall in Hall. specialize (Hall q Hq).
    assert (q <> p) by (intros ->; exact (Hp Hq)). lia.
  - unfold getAnnotationStats, annotationStats. simpl. f_equal.
    rewrite <- (size_list_to_set (C := gset Z) _ (sortedPages_NoDup l)).
    f_equal. apply set_eq. intros p.
    rewrite !elem_of_list_to_set, sortedPages_elem.
    change (List.map Annotation.pageNumber l) with (Annotation.pageNumber <$> l).
    rewrite list_elem_of_fmap.
    split; intros (a & H1 & H2); exists a; split; first [assumption|congruence].
  - intros p Hp. apply sortedPages_elem, onPage_nonempty in Hp.
    rewrite groupedAnnotations_lookup.
    destruct (onPage p l); [congruence|]. split; congruence.
  - unfold listedAnnotations.
    erewrite map_ext; [|intros p; apply Hgroup].
    apply concat_onPage; [apply sortedPages_NoDup|].
    intros a Ha. apply sortedPages_elem. exists a. split; [exact Ha|reflexivity].
Qed.

End GroupingFacts.

(* ===================================================================== *)
(** ** Further properties of the exports *)
(* ===================================================================== *)

Lemma append_char_inj (s1 s2 : string) (c : ascii) :
  (s1 ++ String c EmptyString)%string = (s2 ++ String c EmptyString)%string ->
  s1 = s2.
Proof.
  revert s2; induction s1 as [|a s1 IH]; intros [|b s2] Heq; simpl in Heq.
  - reflexivity.
  - injection Heq as _ Heq. destruct s2; discriminate Heq.
  - injection Heq as _ Heq. destruct s1; discriminate Heq.
  - injection Heq as -> Heq. f_equal. exact (IH s2 Heq).
Qed.

Lemma escapeQuotes_inj (s1 s2 : string) :
  escapeQuotes s1 = escapeQuotes s2 -> s1 = s2.
Proof.
  revert s2; induction s1 as [|a s1 IH]; intros [|b s2]; simpl.
  - reflexivity.
  - destruct (Ascii.eqb b dquote); discriminate.
  - destruct (Ascii.eqb a dquote); discriminate.
  - destruct (Ascii.eqb_spec a dquote) as [Ha|Ha];
      destruct (Ascii.eqb_spec b dquote) as [Hb|Hb]; intros Heq.
    + injection Heq as Heq. subst. f_equal. exact (IH s2 Heq).
    + injection Heq as Hab _. congruence.
    + injection Heq as Hab _. congruence.
    + injection Heq as -> Heq. f_equal. exact (IH s2 Heq).
Qed.

Lemma escapeQuotes_paired (s : string) : quotesPaired (escapeQuotes s) = true.
Proof.
  induction s as [|c s IH]; [reflexivity|]. simpl.
  destruct (Ascii.eqb c dquote) eqn:E; simpl.
  - exact IH.
  - rewrite E. exact IH.
Qed.

Section ExportMore.
Context {num : Type} `{JsNumber num}.
Variable Number_toString : num -> string.
Variable Date_toISOString : Date -> string.
Variable Date_toLocaleString : Date -> string.
Variable safeCompleteStylesheet : string.
Variable splitTextToSize : string -> list string.

Local Abbreviation Ann := (Annotation.t num).

(** X15.  The CSV export writes a table that can be read back: every row
    has as many cells as the header; a written cell starts and ends with a
    double quote and in between every double quote of the value is written
    twice, so the double quotes come in pairs; and two different values are
    never written the same. *)
Theorem csv_cells_are_unambiguous (annotations : list Ann) :
  Forall (fun row => length row = length csvHeaders)
    (csvRows Number_toString Date_toLocaleString annotations)
  /\ (forall cell,
        quoteCell cell
        = String dquote (escapeQuotes cell ++ String dquote EmptyString)
        /\ quotesPaired (escapeQuotes cell) = true)
  /\ (forall cell1 cell2, quoteCell cell1 = quoteCell cell2 -> cell1 = cell2).
Proof.
  clear Date_toISOString safeCompleteStylesheet splitTextToSize.
  split; [|split].
  - unfold csvRows. apply Forall_forall. intros row Hrow.
    apply list_elem_of_In, in_map_iff in Hrow. destruct Hrow as (a & <- & _).
    reflexivity.
  - intros cell. split; [reflexivity|apply escapeQuotes_paired].
  - intros cell1 cell2 Heq. unfold quoteCell in Heq. injection Heq as Heq.
    apply append_char_inj in Heq. exact (escapeQuotes_inj _ _ Heq).
Qed.

(** X16.  The JSON and the CSV export complete normally and only hand one
    file to the browser, named after the file name of the options, or
    [annotated-pdf-<time>] when there is none or an empty one: the document
    and its style sources, the array of the exporter and every other array
    are unchanged, and [html2canvas] is not called. *)
Theorem data_exports_change_nothing (capture : Completion (Canvas.t num))
    (steps : PdfSteps.t) (now : Date) (this : PdfExporter.t)
    (options : ExportOptions.t) (w : World.t num) :
  ExportOptions.format options <> pdf ->
  let r := exportAnnotatedPdf Number_toString Date_toISOString Date_toLocaleString
             safeCompleteStylesheet splitTextToSize capture steps now this
             options w in
  let annotations := default [] (World.arrays w !! PdfExporter.annotations this) in
  snd r = Normal tt
  /\ World.document (fst r) = World.document w
  /\ World.arrays (fst r) = World.arrays w
  /\ World.log (fst r) = World.log w
  /\ (ExportOptions.format options = json ->
      World.downloads (fst r)
      = World.downloads w
        ++ [((baseName now options ++ ".json")%string,
             JsonBlob (JSON_stringify Number_toString Date_toISOString
                         (exportData Date_toISOString now annotations)))])
  /\ (ExportOptions.format options = csv ->
      World.downloads (fst r)
      = World.downloads w
        ++ [((baseName now options ++ ".csv")%string,
             CsvBlob (csvContent Number_toString Date_toLocaleString annotations))]).
Proof.
  intros Hfmt r annotations. subst r annotations.
  unfold exportAnnotatedPdf, baseName.
  destruct (ExportOptions.format options); [congruence| |];
    repeat split; try reflexivity; intros Hc; discriminate Hc.
Qed.

(** X17.  When [html2canvas] throws, the clone of the container that was
    appended to [document.body] is not removed (it is removed only after a
    capture that returned, and then before any later call, however those
    complete); nothing is handed to the browser and no array is changed. *)
Theorem exportAsPdf_failure_leaves_the_clone (inner : JsError)
    (canvas : Canvas.t num) (steps : PdfSteps.t) (now : Date)
    (this : PdfExporter.t) (filename : string) (options : ExportOptions.t)
    (w : World.t num) :
  let failed := fst (exportAsPdf Date_toLocaleString safeCompleteStylesheet
                       splitTextToSize (Throw inner) steps now this filename
                       options w) in
  let returned := fst (exportAsPdf Date_toLocaleString safeCompleteStylesheet
                         splitTextToSize (Normal canvas) steps now this filename
                         options w) in
  Document.cleanContainers (World.document failed)
  = S (Document.cleanContainers (World.document w))
  /\ World.arrays failed = World.arrays w
  /\ World.downloads failed = World.downloads w
  /\ Document.cleanContainers (World.document returned)
     = Document.cleanContainers (World.document w).
Proof.
  clear Number_toString Date_toISOString.
  intros failed returned. subst failed returned.
  rewrite exportAsPdf_throw, exportAsPdf_removes_the_clone.
  simpl. repeat split; reflexivity.
Qed.

End ExportMore.

Section SortMore.
Context {num : Type}.

Local Abbreviation Ann := (Annotation.t num).

Lemma sortByPage_of_sorted (l : list Ann) :
  StronglySorted pageLe l -> sortByPage l = l.
Proof.
  induction l as [|a l IH]; intros Hs; [reflexivity|].
  apply StronglySorted_inv in Hs. destruct Hs as [Hs Ha].
  simpl. rewrite (IH Hs).
  destruct l as [|b l]; [reflexivity|]. simpl.
  apply Forall_cons in Ha. destruct Ha as [Hab _]. unfold pageLe in Hab.
  destruct (Z.leb_spec (Annotation.pageNumber a) (Annotation.pageNumber b));
    [reflexivity|lia].
Qed.

Lemma annotationStats_perm (l1 l2 : list Ann) :
  l1 ≡ₚ l2 -> annotationStats l1 = annotationStats l2.
Proof.
  intros Hp. unfold annotationStats.
  rewrite !filter_isCompleted.
  assert (Hlen : length l1 = length l2) by (rewrite Hp; reflexivity).
  assert (Hc : length (filter (fun a : Ann =>
                         Annotation.componentLabel a <> EmptyString
                         /\ Annotation.cssSelector a <> EmptyString) l1)
               = length (filter (fun a : Ann =>
                           Annotation.componentLabel a <> EmptyString
                           /\ Annotation.cssSelector a <> EmptyString) l2))
    by (rewrite Hp; reflexivity).
  assert (Hs : (list_to_set (List.map Annotation.pageNumber l1) : gset Z)
               = list_to_set (List.map Annotation.pageNumber l2)).
  { change (List.map Annotation.pageNumber ?l) with (Annotation.pageNumber <$> l).
    apply list_to_set_perm_L. rewrite Hp. reflexivity. }
  rewrite Hlen, Hc, Hs. reflexivity.
Qed.

End SortMore.

Section ExportSequel.
Context {num : Type} `{JsNumber num}.
Variable Number_toString : num -> string.
Variable Date_toISOString : Date -> string.
Variable Date_toLocaleString : Date -> string.
Variable safeCompleteStylesheet : string.
Variable splitTextToSize : string -> list string.

Local Abbreviation Ann := (Annotation.t num).
Local Abbreviation exportPdf :=
  (exportAsPdf Date_toLocaleString safeCompleteStylesheet splitTextToSize).

(** X18.  An export to PDF without the metadata page changes no array,
    however it completes.  When [html2canvas], [canvas.toDataURL],
    [new jsPDF], [pdf.addImage] and [pdf.save] return, it returns: the file
    has the image page only, in landscape when the canvas is wider than
    high, and is named after the file name with [.pdf].  An export that
    does not return rejects with the one error of [exportAsPdf] and hands
    nothing to the browser. *)
Theorem exportAsPdf_without_metadata (capture : Completion (Canvas.t num))
    (steps : PdfSteps.t) (now : Date) (this : PdfExporter.t)
    (filename : string) (options : ExportOptions.t) (w : World.t num) :
  ExportOptions.includeMetadata options = false ->
  let r := exportPdf capture steps now this filename options w in
  World.arrays (fst r) = World.arrays w
  /\ (forall canvas,
        capture = Normal canvas ->
        PdfSteps.toDataURL steps = Normal tt ->
        PdfSteps.newJsPDF steps = Normal tt ->
        PdfSteps.addImage steps = Normal tt ->
        PdfSteps.save steps = Normal tt ->
        snd r = Normal tt
        /\ World.downloads (fst r)
           = World.downloads w
             ++ [((filename ++ ".pdf")%string,
                  PdfFile (PdfDoc.mk
                             (num_ltb (Canvas.height canvas) (Canvas.width canvas))
                             (Canvas.width canvas, Canvas.height canvas) []))])
  /\ (snd r <> Normal tt ->
      snd r = Throw (Error "Failed to export PDF")
      /\ World.downloads (fst r) = World.downloads w).
Proof.
  clear Number_toString Date_toISOString.
  intros Hmeta r. subst r. split; [|split].
  - rewrite exportAsPdf_arrays, Hmeta.
    destruct capture, (PdfSteps.toDataURL steps), (PdfSteps.newJsPDF steps),
      (PdfSteps.addImage steps), (PdfSteps.pageHeader steps); reflexivity.
  - intros canvas -> H1 H2 H3 H6.
    destruct steps as [s1 s2 s3 s4 s5 s6]. simpl in H1, H2, H3, H6. subst.
    run_export. rewrite Hmeta. simpl. split; reflexivity.
  - intros Hr.
    destruct (exportAsPdf_returns_or_rejects Date_toLocaleString
                safeCompleteStylesheet splitTextToSize capture steps now this
                filename options w) as [[Hn _]|(Ht & Hd & _)].
    + contradiction.
    + split; assumption.
Qed.

(** X19.  After an export to PDF with the metadata page that returned, a
    second export to PDF, however it completes, finds the array sorted and
    the links enabled: it leaves every array and the style sources as the
    first export left them. *)
Theorem second_exportAsPdf_changes_no_more
    (capture1 capture2 : Completion (Canvas.t num)) (steps1 steps2 : PdfSteps.t)
    (now1 now2 : Date) (this : PdfExporter.t) (filename1 filename2 : string)
    (options1 options2 : ExportOptions.t) (w : World.t num) :
  ExportOptions.includeMetadata options1 = true ->
  snd (exportPdf capture1 steps1 now1 this filename1 options1 w) = Normal tt ->
  let w1 := fst (exportPdf capture1 steps1 now1 this filename1 options1 w) in
  let w2 := fst (exportPdf capture2 steps2 now2 this filename2 options2 w1) in
  World.arrays w2 = World.arrays w1
  /\ Document.styleSources (World.document w2)
     = Document.styleSources (World.document w1).
Proof.
  clear Number_toString Date_toISOString.
  intros Hmeta Hret w1 w2. subst w2.
  assert (Harrays : World.arrays w1
            = <[PdfExporter.annotations this :=
                  sortByPage (default [] (World.arrays w !! PdfExporter.annotations this))]>
                (World.arrays w)).
  { subst w1. rewrite exportAsPdf_arrays.
    apply exportAsPdf_returned in Hret.
    destruct Hret as ([canvas ->] & -> & -> & -> & Hm & _).
    destruct (Hm Hmeta) as [-> _]. rewrite Hmeta. reflexivity. }
  split.
  - rewrite exportAsPdf_arrays.
    assert (Hsame : <[PdfExporter.annotations this :=
                        sortByPage (default [] (World.arrays w1 !! PdfExporter.annotations this))]>
                      (World.arrays w1) = World.arrays w1).
    { rewrite Harrays at 1 2. rewrite lookup_insert_eq. simpl.
      rewrite (sortByPage_of_sorted _ (sortByPage_sorted _)).
      rewrite insert_insert_eq. symmetry. exact Harrays. }
    destruct capture2, (PdfSteps.toDataURL steps2), (PdfSteps.newJsPDF steps2),
      (PdfSteps.addImage steps2), (PdfSteps.pageHeader steps2),
      (ExportOptions.includeMetadata options2);
      first [reflexivity|exact Hsame].
  - destruct (exportAsPdf_restores Date_toLocaleString safeCompleteStylesheet
                splitTextToSize capture2 steps2 now2 this filename2 options2 w1)
      as [-> _].
    subst w1.
    destruct (exportAsPdf_restores Date_toLocaleString safeCompleteStylesheet
                splitTextToSize capture1 steps1 now1 this filename1 options1 w)
      as [-> _].
    induction (Document.styleSources (World.document w)) as [|n ns IH];
      [reflexivity|].
    simpl. rewrite IH. destruct n; reflexivity.
Qed.

(** X20.  The sort of the PDF export does not change what the other
    exports report: the statistics of the sorted array are those of the
    array of before, and the records of the JSON export are the same
    records in another order. *)
Theorem statistics_survive_the_sort (now : Date) (annotations : list Ann) :
  annotationStats (sortByPage annotations) = annotationStats annotations
  /\ ExportData.metadata (exportData Date_toISOString now (sortByPage annotations))
     = ExportData.metadata (exportData Date_toISOString now annotations)
  /\ ExportData.annotations (exportData Date_toISOString now (sortByPage annotations))
     ≡ₚ ExportData.annotations (exportData Date_toISOString now annotations)
  /\ csvRows Number_toString Date_toLocaleString (sortByPage annotations)
     ≡ₚ csvRows Number_toString Date_toLocaleString annotations.
Proof.
  clear safeCompleteStylesheet splitTextToSize.
  pose proof (sortByPage_perm annotations) as Hp.
  pose proof (annotationStats_perm _ _ Hp) as Hs.
  split; [exact Hs|]. unfold exportData, csvRows. simpl.
  split; [|split].
  - rewrite Hs, Hp. reflexivity.
  - change (List.map jsonAnnotation ?l) with (jsonAnnotation <$> l).
    rewrite Hp. reflexivity.
  - change (List.map ?f ?l) with (f <$> l). rewrite Hp. reflexivity.
Qed.

(** X21.  While the capture runs, no HTML style source of the page is in
    effect: after [replaceAllStylesheets] every link is disabled and every
    HTML style block is empty, and the temporary style sheet is in the
    head; the style of an SVG is left as it is.  The entries recorded are
    those of the HTML elements, each with the position of its element, and
    for a style block with its text. *)
Theorem replaceAllStylesheets_suppresses (w : World.t num) :
  let before := Document.styleSources (World.document w) in
  let d := World.document (fst (replaceAllStylesheets safeCompleteStylesheet w)) in
  Document.tempStylesheet d = Some safeCompleteStylesheet
  /\ length (Document.styleSources d) = length before
  /\ (forall i n, Document.styleSources d !! i = Some n ->
        match n with
        | HTMLLinkElement _ disabled => disabled = true
        | HTMLStyleElement textContent => textContent = EmptyString
        | SVGStyleElement textContent => before !! i = Some (SVGStyleElement textContent)
        end)
  /\ (forall entry, entry ∈ snapshot before <->
        exists n, before !! OriginalStylesheet.element entry = Some n
                  /\ match n with
                     | HTMLLinkElement href _ =>
                         OriginalStylesheet.href entry = Some href
                         /\ OriginalStylesheet.content entry = None
                     | HTMLStyleElement textContent =>
                         OriginalStylesheet.href entry = None
                         /\ OriginalStylesheet.content entry = Some textContent
                     | SVGStyleElement _ => False
                     end).
Proof.
  clear Number_toString Date_toISOString Date_toLocaleString splitTextToSize.
  intros before d. subst d. simpl. fold before.
  split; [reflexivity|]. split; [apply length_map|]. split.
  - intros i n Hn.
    change (List.map suppress before) with (suppress <$> before) in Hn.
    rewrite list_lookup_fmap in Hn.
    destruct (before !! i) as [[href b|t|t]|]; simpl in Hn; try discriminate;
      injection Hn as <-; reflexivity.
  - intros entry. unfold snapshot. rewrite list_elem_of_omap. split.
    + intros (o & Ho & Hid). simpl in Hid. subst o.
      apply elem_of_lookup_imap in Ho. destruct Ho as (i & n & Hs & Hn).
      destruct n as [href b|t|t]; simpl in Hs; try discriminate;
        injection Hs as ->; simpl; eexists; (split; [exact Hn|]); simpl.
      * split; reflexivity.
      * rewrite orElse_empty. split; reflexivity.
    + intros (n & Hn & Hentry).
      exists (Some entry). split; [|reflexivity].
      apply elem_of_lookup_imap. exists (OriginalStylesheet.element entry), n.
      split; [|exact Hn].
      destruct entry as [e h c]. simpl in *.
      destruct n as [href b|t|t]; simpl.
      * destruct Hentry as [-> ->]. reflexivity.
      * destruct Hentry as [-> ->]. rewrite orElse_empty. reflexivity.
      * contradiction.
Qed.

End ExportSequel.

Section HandleExportFacts.
Context {num : Type} `{JsNumber num}.
Variable Number_toString : num -> string.
Variable Date_toISOString : Date -> string.
Variable Date_toLocaleString : Date -> string.
Variable safeCompleteStylesheet : string.
Variable splitTextToSize : string -> list string.

Local Abbreviation export :=
  (handleExport Number_toString Date_toISOString Date_toLocaleString
     safeCompleteStylesheet splitTextToSize).

Lemma exportAnnotatedPdf_pdf (capture : Completion (Canvas.t num))
    (steps : PdfSteps.t) (now : Date) (this : PdfExporter.t)
    (options : ExportOptions.t) (w : World.t num) :
  ExportOptions.format options = pdf ->
  exportAnnotatedPdf Number_toString Date_toISOString Date_toLocaleString
    safeCompleteStylesheet splitTextToSize capture steps now this options w
  = exportAsPdf Date_toLocaleString safeCompleteStylesheet splitTextToSize
      capture steps now this (baseName now options) options w.
Proof. intros Hpdf. unfold exportAnnotatedPdf, baseName. rewrite Hpdf. reflexivity. Qed.

(** X22.  [handleExport] does nothing at all for an empty store.
    Otherwise, however the export completes, it ends with [isExporting]
    false and the dialog closed.  An export to PDF whose capture throws is
    only written on the console, as the one error of [exportAsPdf], with
    nothing handed to the browser.  An export to PDF whose capture and
    calls after the capture all return writes nothing on the console and
    saves the file, named [annotated-ui-components.pdf] when the container
    of the viewer is there and [ui-component-selectors.pdf] otherwise.
    Whatever the capture and the calls after it do, an export to PDF ends
    in one of these two ways, the temporary style sheet removed.  The
    other exports save [ui-component-selectors.json] or [.csv] and touch
    neither the document nor an array. *)
Theorem handleExport_outcomes (capture : Completion (Canvas.t num))
    (steps : PdfSteps.t) (now : Date) (pdfContainerRef : bool)
    (annotations : nat) (format : Format) (ui : ExportUi.t) (w : World.t num) :
  let stored := default [] (World.arrays w !! annotations) in
  let r := export capture steps now pdfContainerRef annotations format ui w in
  let pdfName := (if pdfContainerRef then "annotated-ui-components.pdf"
                  else "ui-component-selectors.pdf")%string in
  (stored = [] -> r = (ui, w))
  /\ (stored <> [] ->
      ExportUi.isExporting (fst r) = false
      /\ ExportUi.showExportDialog (fst r) = false)
  /\ (stored <> [] -> format = pdf ->
      forall inner, capture = Throw inner ->
        ExportUi.consoleErrors (fst r)
        = ExportUi.consoleErrors ui ++ [Error "Failed to export PDF"]
        /\ World.downloads (snd r) = World.downloads w
        /\ World.arrays (snd r) = World.arrays w
        /\ Document.tempStylesheet (World.document (snd r)) = None)
  /\ (stored <> [] -> format = pdf ->
      forall canvas, capture = Normal canvas -> steps = allReturn ->
        ExportUi.consoleErrors (fst r) = ExportUi.consoleErrors ui
        /\ exists doc,
             World.downloads (snd r)
             = World.downloads w ++ [(pdfName, PdfFile doc)])
  /\ (stored <> [] -> format = pdf ->
      Document.tempStylesheet (World.document (snd r)) = None
      /\ ((ExportUi.consoleErrors (fst r) = ExportUi.consoleErrors ui
           /\ exists doc,
                World.downloads (snd r)
                = World.downloads w ++ [(pdfName, PdfFile doc)])
          \/ (ExportUi.consoleErrors (fst r)
              = ExportUi.consoleErrors ui ++ [Error "Failed to export PDF"]
              /\ World.downloads (snd r) = World.downloads w)))
  /\ (stored <> [] -> format <> pdf ->
      ExportUi.consoleErrors (fst r) = ExportUi.consoleErrors ui
      /\ World.document (snd r) = World.document w
      /\ World.arrays (snd r) = World.arrays w
      /\ exists payload,
           World.downloads (snd r)
           = World.downloads w
             ++ [((if format is json then "ui-component-selectors.json"
                   else "ui-component-selectors.csv")%string, payload)]).
Proof.
  intros stored r pdfName. subst r pdfName. unfold handleExport. fold stored.
  destruct stored as [|a l] eqn:Es.
  - split; [reflexivity|]. repeat split; intros; congruence.
  - split; [discriminate|].
    split.
    { intros _. destruct (exportAnnotatedPdf _ _ _ _ _ _ _ _ _ _ _) as [w' [[]|e]];
        split; reflexivity. }
    split; [|split; [|split]].
    + intros _ -> inner ->.
      destruct pdfContainerRef; cbv beta iota;
        rewrite exportAnnotatedPdf_pdf by reflexivity;
        rewrite exportAsPdf_throw; simpl; repeat split; reflexivity.
    + intros _ -> canvas -> ->.
      destruct pdfContainerRef; cbv beta iota;
        rewrite exportAnnotatedPdf_pdf by reflexivity;
        match goal with |- context [exportAsPdf _ _ _ _ ?st ?n ?t ?f ?o ?w0] =>
          destruct (exportAsPdf_normal Date_toLocaleString safeCompleteStylesheet
                      splitTextToSize canvas st n t f o w0
                      eq_refl eq_refl eq_refl (fun _ => conj eq_refl eq_refl)
                      eq_refl) as [doc ->]
        end; simpl; (split; [reflexivity|]); exists doc; reflexivity.
    + intros _ ->.
      destruct pdfContainerRef; cbv beta iota;
        rewrite exportAnnotatedPdf_pdf by reflexivity;
        match goal with |- context [exportAsPdf _ _ _ ?c ?st ?n ?t ?f ?o ?w0] =>
          pose proof (exportAsPdf_restores Date_toLocaleString
                        safeCompleteStylesheet splitTextToSize c st n t f o w0)
            as (_ & Htemp & _);
          pose proof (exportAsPdf_returns_or_rejects Date_toLocaleString
                        safeCompleteStylesheet splitTextToSize c st n t f o w0)
            as Hout;
          destruct (exportAsPdf Date_toLocaleString safeCompleteStylesheet
                      splitTextToSize c st n t f o w0) as [w' c']
        end;
        simpl in Htemp, Hout;
        (destruct Hout as [(-> & Hd & _)|(-> & Hd & _)]; simpl;
         (split; [exact Htemp|]);
         [left; split; [reflexivity|exact Hd]
         |right; split; [reflexivity|exact Hd]]).
    + intros _ Hfmt.
      destruct format; [congruence| |]; simpl;
        repeat (split; [reflexivity|]); eexists; reflexivity.
Qed.

End HandleExportFacts.

(** X23.  A file is accepted when its type is [application/pdf] and its
    size is at most 50 MB (52428800 bytes); the type is looked at first.
    Of a drop only the first file counts.  A file that is accepted becomes
    the file of the application, which starts loading, and empties the
    store; a file that is refused sets the message of the uploader and
    leaves the application, with its annotations, as it is; an empty drop
    changes nothing. *)
Theorem upload_replaces_the_document {num : Type} (files : list File.t)
    (error : option string) (app : PdfViewerState.t * AnnotationState.t num) :
  let r := dropOnApp files error app in
  (forall file, validateFile file = None <->
     File.type file = "application/pdf"%string /\ File.size file <= 52428800)
  /\ (forall file, File.type file <> "application/pdf"%string ->
        validateFile file = Some "Please select a PDF file"%string)
  /\ (files = [] -> r = (error, app))
  /\ (forall file rest, files = file :: rest -> validateFile file = None ->
        fst r = None
        /\ snd (snd r) = initialState
        /\ PdfViewerState.pdfFile (fst (snd r)) = Some file
        /\ PdfViewerState.isLoading (fst (snd r)) = true
        /\ PdfViewerState.error (fst (snd r)) = None)
  /\ (forall file rest message, files = file :: rest ->
        validateFile file = Some message ->
        r = (Some message, app)).
Proof.
  intros r. subst r. split; [|split; [|split; [|split]]].
  - intros file. unfold validateFile.
    destruct (String.eqb_spec (File.type file) "application/pdf") as [Ht|Ht]; simpl.
    + destruct (Z.ltb_spec (50 * 1024 * 1024) (File.size file)) as [Hs|Hs].
      * split; [discriminate|]. intros [_ Hle]. lia.
      * split; [intros _; split; [exact Ht|lia]|reflexivity].
    + split; [discriminate|]. intros [Hc _]. contradiction.
  - intros file Ht. unfold validateFile.
    destruct (String.eqb_spec (File.type file) "application/pdf"); [contradiction|].
    reflexivity.
  - intros ->. reflexivity.
  - intros file rest -> Hv. unfold dropOnApp, handleDrop, handleFile. rewrite Hv.
    simpl. repeat split; reflexivity.
  - intros file rest message -> Hv. unfold dropOnApp, handleDrop, handleFile.
    rewrite Hv. reflexivity.
Qed.

(* ===================================================================== *)
(** ** The further properties on the sample data *)
(* ===================================================================== *)

Lemma editingState_ids : ids editingState = ["lx1a2c"%string].
Proof. reflexivity. Qed.

Lemma editingState_noDangling : noDanglingReference editingState.
Proof.
  split; intros a [= <-]; rewrite editingState_ids; apply list_elem_of_here.
Qed.

Lemma editingState_fresh (i : string) :
  i <> "lx1a2c"%string -> i ∉ ids editingState.
Proof.
  intros Hne Hin. rewrite editingState_ids in Hin.
  apply list_elem_of_singleton in Hin. contradiction.
Qed.

(** Creating the annotation of the scenario in [editingState] and deleting
    it again. *)
Lemma createAnnotation_then_deleteAnnotation_witness :
  deleteAnnotation "lx1a2b"
    (fst (createAnnotation "lx1a2b" 1000 scenarioData editingState))
  = AnnotationState.mk [searchBox] None false None.
Proof.
  apply (createAnnotation_then_deleteAnnotation "lx1a2b" 1000 scenarioData
           editingState).
  apply editingState_fresh. discriminate.
Defined.

Lemma deleteAnnotation_unknown_id_noop_witness :
  deleteAnnotation "no-such-id" editingState = editingState.
Proof.
  apply deleteAnnotation_unknown_id_noop.
  - exact editingState_noDangling.
  - apply editingState_fresh. discriminate.
Defined.

Lemma uiStep_noDanglingReference_witness :
  noDanglingReference (deleteAnnotation "lx1a2c" editingState).
Proof.
  apply (uiStep_noDanglingReference editingState).
  - exact editingState_noDangling.
  - apply ui_delete.
Defined.

Lemma uiStep_distinct_ids_witness :
  NoDup (ids (fst (createAnnotation "lx1a2b" 1000 scenarioData editingState))).
Proof.
  apply (uiStep_distinct_ids editingState).
  - rewrite editingState_ids. apply NoDup_singleton.
  - apply ui_create. apply editingState_fresh. discriminate.
Defined.

(** The selection of [editingState] after an update under a clock that
    advances between the two readings: it carries the later time. *)
Lemma updateAnnotation_refreshes_selection_witness :
  AnnotationState.selectedAnnotation
    (updateAnnotation tickingClock "lx1a2c" loginForm editingState)
  = Some (spreadFormData searchBox loginForm 5001)
  /\ spreadFormData searchBox loginForm 5000
     ∈ AnnotationState.annotations
         (updateAnnotation tickingClock "lx1a2c" loginForm editingState).
Proof.
  pose proof (updateAnnotation_refreshes_selection tickingClock "lx1a2c" loginForm
                editingState searchBox) as Hthm.
  destruct Hthm as (_ & Hstored & Hselected & _).
  - rewrite editingState_ids. apply NoDup_singleton.
  - apply list_elem_of_here.
  - reflexivity.
  - reflexivity.
  - split; [exact Hselected|exact Hstored].
Defined.

Lemma gesture_outside_creation_mode_witness :
  gesture false labelPageRef labelDown labelMove idleViewer = (idleViewer, []).
Proof.
  apply (proj1 (proj2 (proj2 (gesture_outside_creation_mode false labelPageRef
                                labelDown labelMove idleViewer
                                (or_introl eq_refl)))
                 eq_refl)).
Defined.

Lemma scenario_creation :
  onAnnotationCreate scenarioData ∈ snd (handleMouseUp scenarioViewer).
Proof. vm_compute. apply list_elem_of_here. Qed.

Lemma mouseUp_creates_one_and_ends_creation_witness :
  AnnotationState.isCreating
    (snd (mouseUp "lx1a2b" 1000 scenarioViewer
            (setIsCreating true initialState))) = false
  /\ Viewer.creatingRect
       (fst (mouseUp "lx1a2b" 1000 scenarioViewer
               (setIsCreating true initialState))) = None.
Proof.
  pose proof (mouseUp_creates_one_and_ends_creation "lx1a2b" 1000 scenarioViewer
                (setIsCreating true initialState) scenarioData scenario_creation)
    as (_ & _ & _ & Hcreating & Hrect & _).
  split; [exact Hcreating|exact Hrect].
Defined.

Lemma zoom_stays_within_bounds_witness :
  (PDF_CONFIG.minScale <=? handleZoomOut (handleZoomOut PDF_CONFIG.scale))%float = true
  /\ (handleZoomOut (handleZoomOut PDF_CONFIG.scale) <=? PDF_CONFIG.maxScale)%float
     = true.
Proof.
  exact (proj2 (zoom_stays_within_bounds _ (zoom_out _ (zoom_out _ zoom_init)))).
Defined.

Lemma zoom_in_out_roundtrip_witness :
  handleZoomOut (handleZoomIn PDF_CONFIG.scale) = PDF_CONFIG.scale.
Proof.
  apply (proj1 (zoom_in_out_roundtrip PDF_CONFIG.scale zoom_init)).
  intros Hc. apply (f_equal (fun f => PrimFloat.eqb f PDF_CONFIG.maxScale)) in Hc.
  vm_compute in Hc. discriminate Hc.
Defined.

Lemma page_stays_within_document_witness :
  1 <= handlePreviousPage 1 <= 3 /\ 1 <= handleNextPage 3 3 <= 3.
Proof.
  split.
  - apply (page_stays_within_document 3 1). lia.
  - apply (page_stays_within_document 3 3). lia.
Defined.

Lemma data_exports_change_nothing_witness :
  World.arrays
    (fst (exportAnnotatedPdf blankNumber plainDate plainDate EmptyString oneLine
            (Normal sampleCanvas) allReturn 5000 (createPdfExporter 0)
            jsonOptions sampleWorld))
  = World.arrays sampleWorld.
Proof.
  apply (data_exports_change_nothing blankNumber plainDate plainDate EmptyString
           oneLine (Normal sampleCanvas) allReturn 5000 (createPdfExporter 0)
           jsonOptions sampleWorld).
  discriminate.
Defined.

Lemma exportAsPdf_without_metadata_witness :
  World.arrays
    (fst (exportAsPdf plainDate EmptyString oneLine (Normal sampleCanvas)
            saveFails 5000 (createPdfExporter 0) "annotated-ui-components"
            imageOnlyOptions sampleWorld))
  = World.arrays sampleWorld.
Proof.
  apply (proj1 (exportAsPdf_without_metadata plainDate EmptyString oneLine
                  (Normal sampleCanvas) saveFails 5000 (createPdfExporter 0)
                  "annotated-ui-components" imageOnlyOptions sampleWorld
                  eq_refl)).
Defined.

Lemma second_exportAsPdf_changes_no_more_witness :
  World.arrays
    (fst (exportAsPdf plainDate EmptyString oneLine (Normal sampleCanvas)
            saveFails 6000 (createPdfExporter 0) "annotated-ui-components"
            sampleOptions
            (fst (exportAsPdf plainDate EmptyString oneLine (Normal sampleCanvas)
                    allReturn 5000 (createPdfExporter 0)
                    "annotated-ui-components" sampleOptions sampleWorld))))
  = World.arrays
      (fst (exportAsPdf plainDate EmptyString oneLine (Normal sampleCanvas)
              allReturn 5000 (createPdfExporter 0) "annotated-ui-components"
              sampleOptions sampleWorld)).
Proof.
  apply (second_exportAsPdf_changes_no_more plainDate EmptyString oneLine
           (Normal sampleCanvas) (Normal sampleCanvas) allReturn saveFails
           5000 6000 (createPdfExporter 0)
           "annotated-ui-components" "annotated-ui-components"
           sampleOptions sampleOptions sampleWorld).
  - reflexivity.
  - reflexivity.
Defined.
